(** * inacap-horario: the schedule extraction and calendar export core

    A shallow embedding of [Inacap_to_Google_Calendar.py].

    Text is modelled as [string], each [ascii] standing for one code point
    in the range 0..255 (the Latin-1 block, which holds every character
    the patterns of the program name explicitly, [ñ] included).  Python
    integers are [Z].  Exceptions are values of [exn] carried by the
    [result] monad.  The browser, BeautifulSoup's HTML parsing and CSS
    selection, [html.unescape]'s entity table, SHA-1, the clock, the file
    system and the remote calendar service are outside the program: the
    embedding takes what they return as data, as operations of the class
    [Externo], or as the outcomes recorded in an [entorno].

    Where the standard library depends on the platform, the embedding
    follows CPython 3.11 on 64-bit Linux: [%Y] is written by the C
    library without padding, and a C [long] has 64 bits. *)

From Stdlib Require Import ZArith List Bool Ascii String Lia DecimalString.
From Stdlib Require DecimalZ DecimalPos.
Import ListNotations.
Local Open Scope list_scope.
Local Open Scope string_scope.

(** ** Exceptions and the error monad *)

(** [OtraExcepcion] stands for the exceptions of what lies outside the
    program (the browser driver, the remote calendar client, the file
    system), known by their text. *)
Inductive exn : Type :=
| ValueError (msg : string)
| OverflowError (msg : string)
| RuntimeError (msg : string)
| OtraExcepcion (msg : string).

Inductive result (A : Type) : Type :=
| Ok (a : A)
| Raise (e : exn).
Arguments Ok {A} a.
Arguments Raise {A} e.

Definition bind {A B : Type} (x : result A) (f : A -> result B) : result B :=
  match x with
  | Ok a => f a
  | Raise e => Raise e
  end.

Notation "x <- e1 ;; e2" := (bind e1 (fun x => e2))
  (at level 61, e1 at next level, right associativity).
Notation "' p <- e1 ;; e2" := (bind e1 (fun p => e2))
  (at level 61, p pattern, e1 at next level, right associativity).

(** ** Python's [str] operations used by the program *)

Module Py.

Definition code (c : ascii) : N := N_of_ascii c.

Definition entre (lo hi : N) (c : ascii) : bool :=
  (N.leb lo (code c) && N.leb (code c) hi)%bool.

(** [str.isspace] and the class [\s]: TAB..CR, FS..US, SPACE, NEL, NBSP. *)
Definition isspace (c : ascii) : bool :=
  (entre 9 13 c || entre 28 32 c || N.eqb (code c) 133 || N.eqb (code c) 160)%bool.

(** The class [\d], and the digits [int] accepts. *)
Definition isdigit (c : ascii) : bool := entre 48 57 c.

(** The class [\w] (alphanumeric or underscore), as [\b] needs it. *)
Definition isword (c : ascii) : bool :=
  (isdigit c || entre 65 90 c || entre 97 122 c || N.eqb (code c) 95
   || N.eqb (code c) 170 || entre 178 179 c || N.eqb (code c) 181
   || entre 185 186 c || entre 188 190 c
   || entre 192 214 c || entre 216 246 c || entre 248 255 c)%bool.

(** [str.lower] on one character. *)
Definition lower_char (c : ascii) : ascii :=
  if (entre 65 90 c || (entre 192 222 c && negb (N.eqb (code c) 215)))%bool
  then ascii_of_N (code c + 32)
  else c.

Fixpoint lower (s : string) : string :=
  match s with
  | EmptyString => EmptyString
  | String c s' => String (lower_char c) (lower s')
  end.

Definition is_empty (s : string) : bool :=
  match s with
  | EmptyString => true
  | String _ _ => false
  end.

Fixpoint lstrip (s : string) : string :=
  match s with
  | EmptyString => EmptyString
  | String c s' => if isspace c then lstrip s' else s
  end.

Fixpoint rstrip (s : string) : string :=
  match s with
  | EmptyString => EmptyString
  | String c s' =>
      let r := rstrip s' in
      if (is_empty r && isspace c)%bool then EmptyString else String c r
  end.

Definition strip (s : string) : string := rstrip (lstrip s).

(** [s.replace(old, new)] for a one-character [old]. *)
Fixpoint replace (old : ascii) (new : string) (s : string) : string :=
  match s with
  | EmptyString => EmptyString
  | String c s' =>
      if Ascii.eqb c old then new ++ replace old new s'
      else String c (replace old new s')
  end.

Definition startswith (s p : string) : bool := String.prefix p s.

Fixpoint contains_char (a : ascii) (s : string) : bool :=
  match s with
  | EmptyString => false
  | String c s' => (Ascii.eqb c a || contains_char a s')%bool
  end.

Fixpoint drop (n : nat) (s : string) : string :=
  match n, s with
  | O, _ => s
  | S n', String _ s' => drop n' s'
  | S _, EmptyString => EmptyString
  end.

(** First occurrence of [sep] in [s]: the text before it and the text
    after it ([str.partition] without the separator). *)
Fixpoint partition (sep s : string) : option (string * string) :=
  if String.prefix sep s then Some (EmptyString, drop (String.length sep) s)
  else
    match s with
    | EmptyString => None
    | String c s' =>
        match partition sep s' with
        | Some (antes, despues) => Some (String c antes, despues)
        | None => None
        end
    end.

Fixpoint split_n (fuel : nat) (sep s : string) : list string :=
  match fuel with
  | O => [s]
  | S fuel' =>
      match partition sep s with
      | Some (antes, despues) => antes :: split_n fuel' sep despues
      | None => [s]
      end
  end.

(** [s.split(sep)] for a non-empty [sep]; every cut removes at least one
    character, so [length s] cuts are enough. *)
Definition split (sep s : string) : list string :=
  split_n (String.length s) sep s.

(** [sep.join(parts)]. *)
Definition join (sep : string) (parts : list string) : string :=
  String.concat sep parts.

(** [str(n)] for an integer. *)
Definition str (n : Z) : string := NilZero.string_of_int (Z.to_int n).

Fixpoint zeros (n : nat) : string :=
  match n with
  | O => EmptyString
  | S n' => String "0" (zeros n')
  end.

(** The conversions [%02d] and [%04d] of a non-negative number: decimal
    digits, padded with zeros on the left up to the width. *)
Definition zpad (width : nat) (n : Z) : string :=
  let d := str n in
  zeros (width - String.length d) ++ d.

Definition digit_val (c : ascii) : Z := Z.of_N (code c) - 48.

(** Every character of [s] is in the class [p]. *)
Fixpoint todos (p : ascii -> bool) (s : string) : bool :=
  match s with
  | EmptyString => true
  | String c s' => (p c && todos p s')%bool
  end.

(** The number a run of digits denotes. *)
Fixpoint valor_desde (acc : Z) (s : string) : Z :=
  match s with
  | EmptyString => acc
  | String c s' => valor_desde (10 * acc + digit_val c) s'
  end.

Definition valor (s : string) : Z := valor_desde 0 s.

(** The digits of an [int] literal: a non-empty run of digits, single
    underscores allowed between two digits. *)
Fixpoint digits_val (acc : Z) (prev_digit : bool) (s : string) : option Z :=
  match s with
  | EmptyString => if prev_digit then Some acc else None
  | String c s' =>
      if isdigit c then digits_val (10 * acc + digit_val c) true s'
      else if (Ascii.eqb c "_" && prev_digit)%bool then digits_val acc false s'
      else None
  end.

(** [int(x)] on a string: surrounding whitespace and one sign allowed
    (for a text within the interpreter's limit on the digits of a
    conversion, 4300 by default). *)
Definition int (x : string) : result Z :=
  let s := strip x in
  let '(neg, cuerpo) :=
    match s with
    | String c r =>
        if Ascii.eqb c "-" then (true, r)
        else if Ascii.eqb c "+" then (false, r)
        else (false, s)
    | EmptyString => (false, s)
    end in
  match digits_val 0 false cuerpo with
  | Some n => Ok (if neg then (- n)%Z else n)
  | None => Raise (ValueError ("invalid literal for int() with base 10: '" ++ x ++ "'"))
  end.

End Py.

(** ** The backtracking matcher of [re]

    A pattern denotes, at a position, the list of its matches in the
    order the backtracking engine tries them (greedy alternatives first);
    [re.match] and [re.search] return the first one.  A match is the text
    it consumed, the text that remains and the groups captured so far. *)

Module Re.

Inductive regex : Type :=
| Chr (p : ascii -> bool)
| Cat (r1 r2 : regex)
| Opt (r : regex)
| Star (r : regex)
| Grp (i : nat) (r : regex)
| Eol
| Wb.

Definition caps : Type := list (nat * string).
Definition hit : Type := (string * string * caps)%type.

Fixpoint last_char (prev : option ascii) (s : string) : option ascii :=
  match s with
  | EmptyString => prev
  | String c s' => last_char (Some c) s'
  end.

Definition first_char (s : string) : option ascii :=
  match s with
  | EmptyString => None
  | String c _ => Some c
  end.

Definition isword_at (c : option ascii) : bool :=
  match c with
  | Some a => Py.isword a
  | None => false
  end.

Definition seguido (c1 : string) (h : hit) : hit :=
  let '(c2, s2, g2) := h in (c1 ++ c2, s2, g2).

(** The greedy loop of [r*]: [paso] gives the matches of [r]; a turn that
    consumes nothing ends the loop.  Every turn consumes a character, so
    [n] turns are enough for a text of [n] characters. *)
Fixpoint repetir (paso : option ascii -> string -> caps -> list hit) (n : nat)
  (prev : option ascii) (s : string) (g : caps) {struct n} : list hit :=
  match n with
  | O => [(EmptyString, s, g)]
  | S n' =>
      (flat_map (fun h : hit =>
                   let '(c1, s1, g1) := h in
                   if Py.is_empty c1 then []
                   else map (seguido c1)
                            (repetir paso n' (last_char prev c1) s1 g1))
                (paso prev s g)
       ++ [(EmptyString, s, g)])%list
  end.

Fixpoint m (r : regex) (prev : option ascii) (s : string) (g : caps) {struct r}
  : list hit :=
  match r with
  | Chr p =>
      match s with
      | String a s' => if p a then [(String a EmptyString, s', g)] else []
      | EmptyString => []
      end
  | Cat r1 r2 =>
      flat_map (fun h : hit =>
                  let '(c1, s1, g1) := h in
                  map (seguido c1) (m r2 (last_char prev c1) s1 g1))
               (m r1 prev s g)
  | Opt r1 => (m r1 prev s g ++ [(EmptyString, s, g)])%list
  | Star r1 => repetir (m r1) (String.length s) prev s g
  | Grp i r1 =>
      map (fun h : hit => let '(c, s', g') := h in (c, s', (i, c) :: g'))
          (m r1 prev s g)
  | Eol =>
      match s with
      | EmptyString => [(EmptyString, s, g)]
      | String a EmptyString =>
          if Ascii.eqb a "010" then [(EmptyString, s, g)] else []
      | _ => []
      end
  | Wb =>
      if xorb (isword_at prev) (isword_at (first_char s))
      then [(EmptyString, s, g)] else []
  end.

(** A match object: the whole match and its groups. *)
Definition Match : Type := (string * caps)%type.

Definition first_hit (l : list hit) : option Match :=
  match l with
  | (c, _, g) :: _ => Some (c, g)
  | [] => None
  end.

(** [re.match(r, s)]. *)
Definition re_match (r : regex) (s : string) : option Match :=
  first_hit (m r None s []).

Fixpoint search_from (r : regex) (prev : option ascii) (s : string)
  : option Match :=
  match first_hit (m r prev s []) with
  | Some mt => Some mt
  | None =>
      match s with
      | String a s' => search_from r (Some a) s'
      | EmptyString => None
      end
  end.

(** [re.search(r, s)]. *)
Definition re_search (r : regex) (s : string) : option Match :=
  search_from r None s.

Fixpoint lookup (i : nat) (g : caps) : option string :=
  match g with
  | [] => None
  | (j, c) :: g' => if Nat.eqb i j then Some c else lookup i g'
  end.

(** [mt.group(i)] for a group that took part in the match. *)
Definition group (i : nat) (mt : Match) : string :=
  match lookup i (snd mt) with
  | Some c => c
  | None => EmptyString
  end.

Definition Plus (r : regex) : regex := Cat r (Star r).

Definition lit (a : ascii) : regex := Chr (Ascii.eqb a).
Definition d : regex := Chr Py.isdigit.
Definition ws : regex := Chr Py.isspace.
(** [.] without DOTALL: anything but a newline. *)
Definition no_salto (c : ascii) : bool := negb (Ascii.eqb c "010").
Definition dot : regex := Chr no_salto.
(** [\d{1,2}], [\d{2}] and [\d{4}]. *)
Definition d12 : regex := Cat d (Opt d).
Definition d2 : regex := Cat d d.
Definition d4 : regex := Cat d (Cat d (Cat d d)).

(** The class [[a-zñ.]]. *)
Definition cls_mes (c : ascii) : bool :=
  (Py.entre 97 122 c || N.eqb (Py.code c) 241 || Ascii.eqb c ".")%bool.

(** A class under [re.I], on the code points 0..255 of the embedding;
    beyond them [re.I] lets [[a-z]] match a few more letters (the long s,
    the dotless i, the Kelvin sign) that [str.lower] does not bring into
    the class. *)
Definition ignorecase (p : ascii -> bool) (c : ascii) : bool :=
  p (Py.lower_char c).

End Re.

(** ** [datetime.date] and [datetime.time] *)

Local Open Scope Z_scope.

Record date : Type := mk_date { year : Z; month : Z; day : Z }.
Record dtime : Type := mk_time { hour : Z; minute : Z; second : Z }.

Definition is_leap (y : Z) : bool :=
  ((y mod 4 =? 0) && (negb (y mod 100 =? 0) || (y mod 400 =? 0)))%bool.

Definition days_in_month (y mo : Z) : Z :=
  if mo =? 2 then (if is_leap y then 29 else 28)
  else if ((mo =? 4) || (mo =? 6) || (mo =? 9) || (mo =? 11))%bool then 30
  else 31.

(** A Python integer given where the C code of [datetime] takes a C
    [int]: it is converted to a C [long] first. *)
Definition c_int (v : Z) : result Z :=
  if ((v <? -9223372036854775808) || (9223372036854775807 <? v))%bool
  then Raise (OverflowError "Python int too large to convert to C long")
  else if 2147483647 <? v
  then Raise (OverflowError "signed integer is greater than maximum")
  else if v <? -2147483648
  then Raise (OverflowError "signed integer is less than minimum")
  else Ok v.

(** [date(year, month, day)]: the constructor converts its arguments and
    then checks them. *)
Definition date_new (y mo dd : Z) : result date :=
  y <- c_int y ;;
  mo <- c_int mo ;;
  dd <- c_int dd ;;
  if negb ((1 <=? y) && (y <=? 9999))%bool
  then Raise (ValueError ("year " ++ Py.str y ++ " is out of range"))
  else if negb ((1 <=? mo) && (mo <=? 12))%bool
  then Raise (ValueError "month must be in 1..12")
  else if negb ((1 <=? dd) && (dd <=? days_in_month y mo))%bool
  then Raise (ValueError "day is out of range for month")
  else Ok (mk_date y mo dd).

(** [time(hour=h, minute=m)]: seconds are zero; the constructor converts
    its arguments and then checks them. *)
Definition time_new (h mi : Z) : result dtime :=
  h <- c_int h ;;
  mi <- c_int mi ;;
  if negb ((0 <=? h) && (h <=? 23))%bool
  then Raise (ValueError "hour must be in 0..23")
  else if negb ((0 <=? mi) && (mi <=? 59))%bool
  then Raise (ValueError "minute must be in 0..59")
  else Ok (mk_time h mi 0).

(** The invariants every [date] and [time] object satisfies. *)
Definition date_ok (f : date) : Prop :=
  1 <= year f <= 9999 /\ 1 <= month f <= 12 /\
  1 <= day f <= days_in_month (year f) (month f).

Definition time_ok (t : dtime) : Prop :=
  0 <= hour t <= 23 /\ 0 <= minute t <= 59 /\ 0 <= second t <= 59.

(** [f.isoformat()], which pads the year to four digits. *)
Definition isoformat (f : date) : string :=
  Py.zpad 4 (year f) ++ "-" ++ Py.zpad 2 (month f) ++ "-" ++ Py.zpad 2 (day f).

(** [%Y] of [strftime]: the C library writes the year in decimal without
    padding, so [999] for the year 999 and four digits from 1000 on. *)
Definition strftime_Y (y : Z) : string := Py.str y.

(** [f.strftime('%Y%m%d')], [t.strftime('%H:%M')], [t.strftime('%H%M')]
    and [t.strftime('%H%M%S')]. *)
Definition strftime_Ymd (f : date) : string :=
  strftime_Y (year f) ++ Py.zpad 2 (month f) ++ Py.zpad 2 (day f).

Definition strftime_H_M (t : dtime) : string :=
  Py.zpad 2 (hour t) ++ ":" ++ Py.zpad 2 (minute t).

Definition strftime_HM (t : dtime) : string :=
  Py.zpad 2 (hour t) ++ Py.zpad 2 (minute t).

Definition strftime_HMS (t : dtime) : string :=
  Py.zpad 2 (hour t) ++ Py.zpad 2 (minute t) ++ Py.zpad 2 (second t).

(** ** What the program takes from outside *)

(** [charref_sub] is the entity substitution [html.unescape] performs on
    a text that holds an ampersand; [sha1_hexdigest x] is
    [hashlib.sha1(x.encode("utf-8")).hexdigest()]. *)
Class Externo : Type := {
  charref_sub : string -> string;
  sha1_hexdigest : string -> string
}.

(** A tag is known by its text nodes, in document order. *)
Definition tag : Type := list string.

(** [el.get_text()], [el.get_text(" ")] and [el.get_text(strip=True)]. *)
Definition get_text (el : tag) : string := Py.join EmptyString el.
Definition get_text_sep (sep : string) (el : tag) : string := Py.join sep el.
Definition get_text_strip (el : tag) : string :=
  Py.join EmptyString
    (filter (fun x => negb (Py.is_empty x)) (map Py.strip el)).

(** [#horario-table]: the cells of [thead tr] when there is one, and the
    cells of every [tbody tr]. *)
Record table : Type := {
  thead_tr : option (list tag);
  tbody_tr : list (list tag)
}.

(** One [article] of [#scheduleMob .schedule]: its [.schedule-title] and
    the children of its [.schedule-item-list]. *)
Record article : Type := {
  schedule_title : option tag;
  schedule_item_list : list tag
}.

(** One week's page as the selectors of the program see it:
    [select_one(SEL_RANGO_LABEL)], the text nodes of the document (what
    [soup.find(string=...)] walks), [select_one(SEL_TABLA)] and
    [select("#scheduleMob .schedule article")]. *)
Record snapshot : Type := {
  rango_label : option tag;
  strings : list string;
  horario_table : option table;
  schedule_mob : list article
}.

(** ** Constants and patterns of the program *)

Definition TZID : string := "America/Santiago".

Definition MESES : list (string * Z) :=
  [("ene", 1); ("feb", 2); ("mar", 3); ("abr", 4); ("may", 5); ("jun", 6);
   ("jul", 7); ("ago", 8); ("sep", 9); ("oct", 10); ("nov", 11); ("dic", 12)].

Fixpoint dict_get {V : Type} (k : string) (dct : list (string * V)) : option V :=
  match dct with
  | [] => None
  | (k', v) :: dct' => if String.eqb k k' then Some v else dict_get k dct'
  end.

Import Re.

Notation "r1 ;; r2" := (Cat r1 r2) (at level 61, right associativity).

(** [(\d{1,2})\s*-\s*(\d{1,2})\s+([a-zñ.]+)\.?\s+(\d{4})] *)
Definition RX_RANGO : regex :=
  Grp 1 d12 ;; Star ws ;; lit "-" ;; Star ws ;; Grp 2 d12 ;; Plus ws ;;
  Grp 3 (Plus (Chr cls_mes)) ;; Opt (lit ".") ;; Plus ws ;; Grp 4 d4.

(** [\d{2}\s*-\s*\d{2}\s+[a-zñ.]+\s+\d{4}] with [re.I] *)
Definition RX_ETIQUETA : regex :=
  d2 ;; Star ws ;; lit "-" ;; Star ws ;; d2 ;; Plus ws ;;
  Plus (Chr (ignorecase cls_mes)) ;; Plus ws ;; d4.

(** [(\d{1,2})$] and [\b(\d{1,2})\b] *)
Definition RX_DIA_FIN : regex := Grp 1 d12 ;; Eol.
Definition RX_DIA : regex := Wb ;; Grp 1 d12 ;; Wb.

(** [\d{1,2}:\d{2}] *)
Definition hhmm : regex := d12 ;; lit ":" ;; d2.

(** [(\d{1,2}:\d{2})\s*-\s*(\d{1,2}:\d{2})] *)
Definition RX_BLOQUE : regex :=
  Grp 1 hhmm ;; Star ws ;; lit "-" ;; Star ws ;; Grp 2 hhmm.

(** [(\d{1,2}:\d{2})\s*-\s*(\d{1,2}:\d{2})\s+(.+)] *)
Definition RX_ITEM : regex :=
  Grp 1 hhmm ;; Star ws ;; lit "-" ;; Star ws ;; Grp 2 hhmm ;; Plus ws ;;
  Grp 3 (Plus dot).

(** ** UTILIDADES *)

(** [html.unescape]: a text without ampersand is returned as it is. *)
Definition unescape {E : Externo} (s : string) : string :=
  if Py.contains_char "&" s then charref_sub s else s.

(** [re.sub(r"\s+", " ", x)]: every maximal run of whitespace becomes one
    space; [en_blanco] tells that the run has begun. *)
Fixpoint sub_espacios (en_blanco : bool) (x : string) : string :=
  match x with
  | EmptyString => EmptyString
  | String c x' =>
      if Py.isspace c
      then (if en_blanco then sub_espacios true x'
            else String " " (sub_espacios true x'))
      else String c (sub_espacios false x')
  end.

Definition limpiar_texto {E : Externo} (x : string) : string :=
  let x := unescape x in
  let x := sub_espacios false x in
  Py.strip x.

Definition parse_fecha_rango (label : string) : result (Z * Z * Z * Z) :=
  let txt := Py.lower (Py.strip label) in
  match re_search RX_RANGO txt with
  | None =>
      Raise (ValueError ("No pude leer el rango de fechas desde: " ++ label))
  | Some mt =>
      let mes_txt := Py.replace "." EmptyString (group 3 mt) in
      match dict_get mes_txt MESES with
      | None => Raise (ValueError ("Mes no reconocido: " ++ mes_txt))
      | Some mes =>
          d1 <- Py.int (group 1 mt) ;;
          d2 <- Py.int (group 2 mt) ;;
          anio <- Py.int (group 4 mt) ;;
          Ok (d1, d2, mes, anio)
      end
  end.

Fixpoint map_int (xs : list string) : result (list Z) :=
  match xs with
  | [] => Ok []
  | x :: xs' =>
      n <- Py.int x ;;
      ns <- map_int xs' ;;
      Ok (n :: ns)
  end.

Definition hhmm_to_time (hhmm : string) : result dtime :=
  xs <- map_int (Py.split ":" hhmm) ;;
  match xs with
  | [h; mi] => time_new h mi
  | [] => Raise (ValueError "not enough values to unpack (expected 2, got 0)")
  | [_] => Raise (ValueError "not enough values to unpack (expected 2, got 1)")
  | _ => Raise (ValueError "too many values to unpack (expected 2)")
  end.

(** ** The two extraction strategies *)

(** An event as the extractors build it:
    [(fecha, t_ini, t_fin, resumen, contenido)]. *)
Definition RawEvent : Type := (date * dtime * dtime * string * string)%type.

Definition sin_clases (contenido : string) : bool :=
  (Py.is_empty contenido
   || Py.startswith (Py.lower contenido) "sin clases")%bool.

(** [re.search(r"(\d{1,2})$", h) or re.search(r"\b(\d{1,2})\b", h)],
    then [.group(1)]. *)
Definition dia_de_header (h : string) : option string :=
  match re_search RX_DIA_FIN h with
  | Some mt => Some (group 1 mt)
  | None =>
      match re_search RX_DIA h with
      | Some mt => Some (group 1 mt)
      | None => None
      end
  end.

(** The week's label as the desktop parser reads it: the label element,
    or else the first text node that looks like a range. *)
Definition etiqueta_desktop (html : snapshot) : string :=
  let etiqueta :=
    match rango_label html with
    | Some el => get_text_strip el
    | None => EmptyString
    end in
  if Py.is_empty etiqueta then
    match find (fun x => match re_search RX_ETIQUETA x with
                         | Some _ => true
                         | None => false
                         end) (strings html) with
    | Some etiqueta_node => Py.strip etiqueta_node
    | None => EmptyString
    end
  else etiqueta.

(** The loop that fills [fechas] from the header texts. *)
Fixpoint mapear_fechas (anio mes : Z) (headers_dias : list string)
  : result (list (option date)) :=
  match headers_dias with
  | [] => Ok []
  | h :: hs =>
      match dia_de_header h with
      | Some g =>
          n <- Py.int g ;;
          f <- date_new anio mes n ;;
          fechas <- mapear_fechas anio mes hs ;;
          Ok (Some f :: fechas)
      | None =>
          fechas <- mapear_fechas anio mes hs ;;
          Ok (None :: fechas)
      end
  end.

(** The time block of a row: [None] when the first cell does not begin
    with one (the row is skipped). *)
Definition bloque_horario (bloque : string) : result (option (dtime * dtime)) :=
  match re_match RX_BLOQUE bloque with
  | None => Ok None
  | Some mt =>
      t_ini <- hhmm_to_time (group 1 mt) ;;
      t_fin <- hhmm_to_time (group 2 mt) ;;
      Ok (Some (t_ini, t_fin))
  end.

Section Desktop.

Context {E : Externo}.
Variables (anio mes : Z) (headers_dias : list string)
          (fechas : list (option date)).

(** The date of column [idx]: the column map, or else the header text. *)
Definition fecha_de_celda (idx : nat) : result (option date) :=
  match nth_error fechas idx with
  | Some (Some f) => Ok (Some f)
  | _ =>
      let hh := nth idx headers_dias EmptyString in
      match dia_de_header hh with
      | Some g =>
          n <- Py.int g ;;
          f <- date_new anio mes n ;;
          Ok (Some f)
      | None => Ok None
      end
  end.

(** The body of the loop over the day cells of a row: the events it
    appends. *)
Definition celda (t_ini t_fin : dtime) (idx : nat) (td : tag)
  : result (list RawEvent) :=
  let contenido := limpiar_texto (get_text_sep " " td) in
  if sin_clases contenido then Ok []
  else
    f <- fecha_de_celda idx ;;
    match f with
    | None => Ok []
    | Some f =>
        let partes :=
          filter (fun x => negb (Py.is_empty x))
                 (map Py.strip (Py.split " / " contenido)) in
        let resumen :=
          match partes with
          | p :: _ => p
          | [] => contenido
          end in
        Ok [(f, t_ini, t_fin, resumen, contenido)]
    end.

Fixpoint celdas (t_ini t_fin : dtime) (idx : nat) (tds : list tag)
  : result (list RawEvent) :=
  match tds with
  | [] => Ok []
  | td :: tds' =>
      evs <- celda t_ini t_fin idx td ;;
      evs' <- celdas t_ini t_fin (S idx) tds' ;;
      Ok (evs ++ evs')%list
  end.

(** The body of the loop over [tbody tr]. *)
Definition fila (cells : list tag) : result (list RawEvent) :=
  match cells with
  | [] => Ok []
  | c0 :: tds =>
      let bloque := limpiar_texto (get_text c0) in
      horas <- bloque_horario bloque ;;
      match horas with
      | None => Ok []
      | Some (t_ini, t_fin) => celdas t_ini t_fin 0 tds
      end
  end.

Fixpoint filas (trs : list (list tag)) : result (list RawEvent) :=
  match trs with
  | [] => Ok []
  | tr :: trs' =>
      evs <- fila tr ;;
      evs' <- filas trs' ;;
      Ok (evs ++ evs')%list
  end.

End Desktop.

(** Parser desktop: tabla [#horario-table]. *)
Definition extraer_eventos_desde_html {E : Externo} (html : snapshot)
  : result (list RawEvent) :=
  '(_, _, mes, anio) <- parse_fecha_rango (etiqueta_desktop html) ;;
  match horario_table html with
  | None => Ok []
  | Some tabla =>
      match thead_tr tabla with
      | None => Ok []
      | Some header_cells =>
          let headers_dias :=
            map (fun c => limpiar_texto (get_text c)) (tl header_cells) in
          fechas <- mapear_fechas anio mes headers_dias ;;
          filas anio mes headers_dias fechas (tbody_tr tabla)
      end
  end.

Definition etiqueta_movil (html : snapshot) : string :=
  match rango_label html with
  | Some el => get_text_strip el
  | None => EmptyString
  end.

Section Movil.

Context {E : Externo}.

(** The body of the loop over the items of one day. *)
Definition item_movil (f : date) (item : tag) : result (list RawEvent) :=
  let txt := limpiar_texto (get_text_sep " " item) in
  if sin_clases txt then Ok []
  else
    match re_match RX_ITEM txt with
    | None => Ok []
    | Some m2 =>
        t_ini <- hhmm_to_time (group 1 m2) ;;
        t_fin <- hhmm_to_time (group 2 m2) ;;
        let contenido := Py.strip (group 3 m2) in
        let resumen := hd EmptyString (Py.split " / " contenido) in
        Ok [(f, t_ini, t_fin, resumen, contenido)]
    end.

Fixpoint items_movil (f : date) (items : list tag) : result (list RawEvent) :=
  match items with
  | [] => Ok []
  | item :: items' =>
      evs <- item_movil f item ;;
      evs' <- items_movil f items' ;;
      Ok (evs ++ evs')%list
  end.

(** The body of the loop over the articles. *)
Definition articulo (anio mes : Z) (art : article) : result (list RawEvent) :=
  match schedule_title art with
  | None => Ok []
  | Some titulo_el =>
      let titulo := limpiar_texto (get_text titulo_el) in
      match re_search RX_DIA_FIN titulo with
      | None => Ok []
      | Some mt =>
          n <- Py.int (group 1 mt) ;;
          f <- date_new anio mes n ;;
          items_movil f (schedule_item_list art)
      end
  end.

Fixpoint articulos (anio mes : Z) (arts : list article)
  : result (list RawEvent) :=
  match arts with
  | [] => Ok []
  | art :: arts' =>
      evs <- articulo anio mes art ;;
      evs' <- articulos anio mes arts' ;;
      Ok (evs ++ evs')%list
  end.

End Movil.

(** Fallback móvil: lista [#scheduleMob] con items por día. *)
Definition extraer_eventos_fallback_movil {E : Externo} (html : snapshot)
  : result (list RawEvent) :=
  '(_, _, mes, anio) <- parse_fecha_rango (etiqueta_movil html) ;;
  articulos anio mes (schedule_mob html).

(** ** GENERACIÓN ICS *)

Definition LF : string := String "010" EmptyString.
Definition CRLF : string := String "013" (String "010" EmptyString).

(** The local names of [construir_evento], kept apart from the text laid
    out around them. *)
Record vevent : Type := {
  v_uid : string;
  v_dtstamp : string;
  v_dtstart : string;
  v_dtend : string;
  v_resumen : string;
  v_desc : string
}.

(** [ahora] is the reading of [datetime.utcnow()]. *)
Definition campos_evento (ahora : date * dtime) (uid_counter : Z)
  (resumen : string) (fecha : date) (t_ini t_fin : dtime)
  (descripcion : string) : vevent :=
  let resumen := Py.strip (Py.replace "010" " " resumen) in
  let desc := Py.replace "010" "\n" descripcion in
  let dtstamp :=
    strftime_Ymd (fst ahora) ++ "T" ++ strftime_HMS (snd ahora) ++ "Z" in
  let dtstart :=
    "TZID=" ++ TZID ++ ":" ++ strftime_Ymd fecha ++ "T" ++ strftime_HMS t_ini in
  let dtend :=
    "TZID=" ++ TZID ++ ":" ++ strftime_Ymd fecha ++ "T" ++ strftime_HMS t_fin in
  let uid :=
    "inacap-" ++ strftime_Ymd fecha ++ "-" ++ strftime_HM t_ini ++ "-"
    ++ Py.str uid_counter ++ "@siga" in
  {| v_uid := uid; v_dtstamp := dtstamp; v_dtstart := dtstart;
     v_dtend := dtend; v_resumen := resumen; v_desc := desc |}.

Definition texto_evento (v : vevent) : string :=
  "BEGIN:VEVENT" ++ CRLF
  ++ "UID:" ++ v_uid v ++ CRLF
  ++ "DTSTAMP:" ++ v_dtstamp v ++ CRLF
  ++ "DTSTART;" ++ v_dtstart v ++ CRLF
  ++ "DTEND;" ++ v_dtend v ++ CRLF
  ++ "SUMMARY:" ++ v_resumen v ++ CRLF
  ++ "DESCRIPTION:" ++ v_desc v ++ CRLF
  ++ "END:VEVENT".

Definition construir_evento (ahora : date * dtime) (uid_counter : Z)
  (resumen : string) (fecha : date) (t_ini t_fin : dtime)
  (descripcion : string) : string :=
  texto_evento
    (campos_evento ahora uid_counter resumen fecha t_ini t_fin descripcion).

(** [enumerate(xs, start)]. *)
Fixpoint enumerate {A : Type} (start : Z) (xs : list A) : list (Z * A) :=
  match xs with
  | [] => []
  | x :: xs' => (start, x) :: enumerate (start + 1) xs'
  end.

Definition vtimezone : string :=
  "BEGIN:VTIMEZONE" ++ CRLF
  ++ "TZID:" ++ TZID ++ CRLF
  ++ "X-LIC-LOCATION:" ++ TZID ++ CRLF
  ++ "BEGIN:STANDARD" ++ CRLF
  ++ "TZOFFSETFROM:-0300" ++ CRLF
  ++ "TZOFFSETTO:-0400" ++ CRLF
  ++ "TZNAME:-04" ++ CRLF
  ++ "DTSTART:19700426T000000" ++ CRLF
  ++ "RRULE:FREQ=YEARLY;BYMONTH=4;BYDAY=4SU" ++ CRLF
  ++ "END:STANDARD" ++ CRLF
  ++ "BEGIN:DAYLIGHT" ++ CRLF
  ++ "TZOFFSETFROM:-0400" ++ CRLF
  ++ "TZOFFSETTO:-0300" ++ CRLF
  ++ "TZNAME:-03" ++ CRLF
  ++ "DTSTART:19700906T000000" ++ CRLF
  ++ "RRULE:FREQ=YEARLY;BYMONTH=9;BYDAY=1SU" ++ CRLF
  ++ "END:DAYLIGHT" ++ CRLF
  ++ "END:VTIMEZONE" ++ CRLF.

(** The entries of the calendar; [reloj i] is the clock reading taken
    while entry [i] is built. *)
Definition bloques (reloj : Z -> date * dtime) (eventos : list RawEvent)
  : list string :=
  map (fun iev : Z * RawEvent =>
         let '(i, (ev0, ev1, ev2, ev3, ev4)) := iev in
         construir_evento (reloj i) (i + 1) ev3 ev0 ev1 ev2 ev4)
      (enumerate 0 eventos).

(** The text [exportar_ics] hands to [f.write]. *)
Definition contenido_ics (reloj : Z -> date * dtime) (nombre : string)
  (eventos : list RawEvent) : string :=
  "BEGIN:VCALENDAR" ++ CRLF
  ++ "PRODID:-//INACAP->GoogleCalendar//ES" ++ CRLF
  ++ "VERSION:2.0" ++ CRLF
  ++ "CALSCALE:GREGORIAN" ++ CRLF
  ++ "METHOD:PUBLISH" ++ CRLF
  ++ "X-WR-CALNAME:" ++ nombre ++ CRLF
  ++ "X-WR-TIMEZONE:America/Santiago" ++ CRLF
  ++ vtimezone
  ++ Py.join CRLF (bloques reloj eventos) ++ CRLF
  ++ "END:VCALENDAR" ++ CRLF.

(** The characters that reach the file: it is opened in text mode with
    [newline="\r\n"], which writes every line feed as CR LF. *)
Definition exportar_ics (reloj : Z -> date * dtime) (nombre : string)
  (eventos : list RawEvent) : string :=
  Py.replace "010" CRLF (contenido_ics reloj nombre eventos).

(** ** GOOGLE CALENDAR API *)

Definition _event_id_from_uid {E : Externo} (uid : string) : string :=
  let h := sha1_hexdigest uid in
  "inacap-" ++ h.

(** What one turn of the loop of [push_to_google_calendar] sends: the
    [uid] it computes, the identifier derived from it, and the body
    (whose [start] and [end] get their offset from the time zone
    database, outside the program). *)
Record peticion : Type := {
  p_uid : string;
  p_event_id : string;
  p_summary : string;
  p_description : string;
  p_start : date * dtime;
  p_end : date * dtime
}.

Definition push_to_google_calendar {E : Externo} (eventos : list RawEvent)
  : list peticion :=
  map (fun iev : Z * RawEvent =>
         let '(i, (f, t_ini, t_fin, resumen, descripcion)) := iev in
         let uid :=
           "inacap-" ++ strftime_Ymd f ++ "-" ++ strftime_HM t_ini ++ "-"
           ++ Py.str i ++ "@siga" in
         let event_id := _event_id_from_uid uid in
         {| p_uid := uid; p_event_id := event_id; p_summary := resumen;
            p_description := descripcion; p_start := (f, t_ini);
            p_end := (f, t_fin) |})
      (enumerate 1 eventos).

(** ** MAIN *)

(** The identity of an event for deduplication. *)
Definition Key : Type := (string * string * string * string * string)%type.

Definition key (ev : RawEvent) : Key :=
  let '(ev0, ev1, ev2, ev3, ev4) := ev in
  (isoformat ev0, strftime_H_M ev1, strftime_H_M ev2, ev3, ev4).

Definition key_eqb (a b : Key) : bool :=
  let '(a0, a1, a2, a3, a4) := a in
  let '(b0, b1, b2, b3, b4) := b in
  (String.eqb a0 b0 && String.eqb a1 b1 && String.eqb a2 b2
   && String.eqb a3 b3 && String.eqb a4 b4)%bool.

(** A Python [dict]: entries in insertion order; storing under a key that
    is present replaces the value where it stands. *)
Definition dict (V : Type) : Type := list (Key * V).

Fixpoint dict_set {V : Type} (k : Key) (v : V) (dct : dict V) : dict V :=
  match dct with
  | [] => [(k, v)]
  | (k', v') :: dct' =>
      if key_eqb k k' then (k, v) :: dct'
      else (k', v') :: dict_set k v dct'
  end.

Definition values {V : Type} (dct : dict V) : list V := map snd dct.

(** [{key(ev): ev for ev in acumulados}] *)
Definition cargar (acumulados : list RawEvent) : dict RawEvent :=
  fold_left (fun dct ev => dict_set (key ev) ev dct) acumulados [].

(** [list({key(ev): ev for ev in acumulados}.values())] *)
Definition deduplicar (acumulados : list RawEvent) : list RawEvent :=
  values (cargar acumulados).

(** What the program prints, line by line: the notice of the dump, the
    notice of the fallback, the closing line of [exportar_ics] with the
    number of events, the two notices of the push for a request, its
    closing line, the line of the handler with the error, and the notice
    of the screenshot. *)
Inductive linea : Type :=
| DumpGuardado
| ProbandoFallback
| Listo (n : nat)
| Actualizado (p : peticion)
| Creado (p : peticion)
| Sincronizado
| Error (e : exn)
| GuardeCaptura.

Section Semana.

Context {E : Externo}.

(** The extraction of one turn of the capture loop on the page it
    captured: what it prints and the events it adds. *)
Definition semana (html : snapshot) : list linea * result (list RawEvent) :=
  match extraer_eventos_desde_html html with
  | Raise e => ([], Raise e)
  | Ok (ev :: evs) => ([], Ok (ev :: evs))
  | Ok [] => ([ProbandoFallback], extraer_eventos_fallback_movil html)
  end.

End Semana.

(** What a run does that can be seen from outside, in order: a line
    printed, the calendar written to its file, a call of [update] or of
    [insert] on the remote calendar. *)
Inductive efecto : Type :=
| Imprime (l : linea)
| Escribe (doc : string)
| Update (p : peticion)
| Insert (p : peticion).

(** A piece of the run: the effects it had, and its result or the
    exception that ended it. *)
Definition prog (A : Type) : Type := (list efecto * result A)%type.

Definition ret {A : Type} (a : A) : prog A := ([], Ok a).

Definition luego {A B : Type} (x : prog A) (f : A -> prog B) : prog B :=
  match x with
  | (tr, Ok a) => let '(tr', r) := f a in ((tr ++ tr')%list, r)
  | (tr, Raise e) => (tr, Raise e)
  end.

Notation "x <~ e1 ;; e2" := (luego e1 (fun x => e2))
  (at level 61, e1 at next level, right associativity).

Definition eleva {A : Type} (r : result A) : prog A := ([], r).
Definition hace (ef : efecto) : prog unit := ([ef], Ok tt).
Definition imprime (l : linea) : prog unit := hace (Imprime l).
Definition de_semana {A : Type} (s : list linea * result A) : prog A :=
  (map Imprime (fst s), snd s).

(** What lies outside the program does during one run: the login and the
    opening of the schedule; the page the browser shows at each turn; whether
    the dump block of the first turn reaches its [print]; the texts of the
    icons found after each turn, and the click on the chosen one with the
    wait that follows; the creation and writing of the calendar file; the
    opening of the remote calendar; [localize] on the two instants of each
    request; [update] and [insert] for each request; and whether the
    screenshot of the handler is taken. *)
Record entorno : Type := {
  inicio : result unit;
  page_source : nat -> result snapshot;
  volcado : bool;
  iconos : nat -> result (list string);
  click : nat -> result unit;
  escritura : result unit;
  servicio : result unit;
  localize : nat -> result unit;
  update : nat -> result unit;
  insert : nat -> result unit;
  save_screenshot : bool
}.

Definition sin_boton : string :=
  "No encontr" ++ String "233" (" el bot" ++ String "243"
    "n para cambiar de semana en #horario-seccion.").

(** [mover_semana(driver, direccion)]: the first icon whose text names the
    direction is clicked. *)
Definition mover_semana (icons : result (list string)) (pulsar : result unit)
  (direccion : string) : result unit :=
  icons <- icons ;;
  let target :=
    find (fun ic =>
            let txt := Py.strip ic in
            ((String.eqb direccion "next" && String.eqb txt "chevron_right")
             || (String.eqb direccion "prev" && String.eqb txt "chevron_left"))%bool)
         icons in
  match target with
  | None => Raise (RuntimeError sin_boton)
  | Some _ => pulsar
  end.

(** The arguments of the command line the run depends on; [weeks] is the
    number of turns of [range(args.weeks)]. *)
Record args : Type := { weeks : nat; dump : bool; push : bool }.

Section Main.

Context {E : Externo}.
Variable ent : entorno.

(** Turn [i] of the capture loop; [ultimo] tells that no week follows. *)
Definition turno (dump_ : bool) (i : nat) (ultimo : bool)
  : prog (list RawEvent) :=
  html <~ eleva (page_source ent i) ;;
  _ <~ (if (dump_ && Nat.eqb i 0 && volcado ent)%bool
        then imprime DumpGuardado else ret tt) ;;
  evs <~ de_semana (semana html) ;;
  _ <~ (if ultimo then ret tt
        else eleva (mover_semana (iconos ent i) (click ent i) "next")) ;;
  ret evs.

(** The capture loop from turn [i] on, with [n] turns to go. *)
Fixpoint capturar (dump_ : bool) (i n : nat) (acumulados : list RawEvent)
  : prog (list RawEvent) :=
  match n with
  | O => ret acumulados
  | S n' =>
      evs <~ turno dump_ i (Nat.eqb n' 0) ;;
      capturar dump_ (S i) n' (acumulados ++ evs)%list
  end.

(** One turn of the loop of [push_to_google_calendar]: [update] first,
    and [insert] when [update] raised, whatever it raised. *)
Definition upsert (i : nat) (p : peticion) : prog unit :=
  _ <~ eleva (localize ent i) ;;
  _ <~ hace (Update p) ;;
  match update ent i with
  | Ok _ => imprime (Actualizado p)
  | Raise _ =>
      _ <~ hace (Insert p) ;;
      _ <~ eleva (insert ent i) ;;
      imprime (Creado p)
  end.

Fixpoint upserts (i : nat) (ps : list peticion) : prog unit :=
  match ps with
  | [] => ret tt
  | p :: ps' => _ <~ upsert i p ;; upserts (S i) ps'
  end.

(** [push_to_google_calendar] with its calls and prints. *)
Definition push_to_google_calendar_run (eventos : list RawEvent) : prog unit :=
  _ <~ eleva (servicio ent) ;;
  upserts 0 (push_to_google_calendar eventos).

(** The [try] block of [main]. *)
Definition cuerpo (reloj : Z -> date * dtime) (a : args) : prog unit :=
  _ <~ eleva (inicio ent) ;;
  acumulados <~ capturar (dump a) 0 (weeks a) [] ;;
  let uniq := deduplicar acumulados in
  _ <~ eleva (escritura ent) ;;
  _ <~ hace (Escribe (exportar_ics reloj "Horario INACAP" uniq)) ;;
  _ <~ imprime (Listo (List.length uniq)) ;;
  if push a
  then _ <~ push_to_google_calendar_run uniq ;; imprime Sincronizado
  else ret tt.




End Main.

(** The lines a run printed, the calendar it wrote, and the calls it made
    on the remote calendar. *)
Definition stdout (tr : list efecto) : list linea :=
  flat_map (fun ef => match ef with Imprime l => [l] | _ => [] end) tr.



(** The entries of the calendar before they are laid out as text. *)
Definition entradas (reloj : Z -> date * dtime) (eventos : list RawEvent)
  : list vevent :=
  map (fun iev : Z * RawEvent =>
         let '(i, (ev0, ev1, ev2, ev3, ev4)) := iev in
         campos_evento (reloj i) (i + 1) ev3 ev0 ev1 ev2 ev4)
      (enumerate 0 eventos).

(** ** Values for examples *)

(** Outside operations for evaluating examples; the texts of the examples
    hold no ampersand, so [charref_sub] is never reached on them, and the
    digest stands for itself. *)
Definition externo_de_ejemplo : Externo :=
  {| charref_sub := fun s => s; sha1_hexdigest := fun s => s |}.

Definition reloj_de_ejemplo : Z -> date * dtime :=
  fun _ => (mk_date 2025 8 1, mk_time 12 0 0).

(** A page with neither label nor table nor list. *)
Definition pagina_vacia : snapshot :=
  {| rango_label := None; strings := []; horario_table := None;
     schedule_mob := [] |}.

(** The week of the specification's example, in its desktop form. *)
Definition pagina_desktop : snapshot :=
  {| rango_label := Some ["04 - 09 ago. 2025"];
     strings := [];
     horario_table :=
       Some {| thead_tr := Some [["Hora"]; ["Lunes 04"]; ["Martes 05"]];
               tbody_tr :=
                 [[["08:00 - 09:30"];
                   ["Calculo I / Sala 301 - Prof. Perez"];
                   ["Sin clases"]]] |};
     schedule_mob := [] |}.

(** The same week in its mobile form. *)
Definition pagina_movil : snapshot :=
  {| rango_label := Some ["04 - 09 ago. 2025"];
     strings := [];
     horario_table := None;
     schedule_mob :=
       [{| schedule_title := Some ["Lunes 04"];
           schedule_item_list :=
             [["08:00 - 09:30"; "Calculo I / Sala 301 - Prof. Perez"]] |}] |}.


Definition evento_de_ejemplo : RawEvent :=
  (mk_date 2025 8 4, mk_time 8 0 0, mk_time 9 30 0, "Calculo I",
   "Calculo I / Sala 301 - Prof. Perez").

(** A week of September whose last header names a day 31, with a class
    on the Monday. *)
Definition pagina_dia_31 : snapshot :=
  {| rango_label := Some ["29 - 31 sep. 2025"];
     strings := [];
     horario_table :=
       Some {| thead_tr := Some [["Hora"]; ["Lunes 29"]; ["Miercoles 31"]];
               tbody_tr :=
                 [[["08:00 - 09:30"]; ["Calculo I / Sala 301"]; []]] |};
     schedule_mob := [] |}.

(** ** Shapes of texts *)

(** [H]: one or two digits; [MM]: two digits. *)
Definition es_hora (s : string) : Prop :=
  Py.todos Py.isdigit s = true
  /\ (String.length s = 1%nat \/ String.length s = 2%nat).

Definition es_minutos (s : string) : Prop :=
  Py.todos Py.isdigit s = true /\ String.length s = 2%nat.

(** A cleaned text that is not empty: its blanks are single spaces, none
    at either end.  [tras_blanco] tells that the character before was a
    blank (or that the text begins here). *)
Fixpoint limpio_desde (tras_blanco : bool) (s : string) : bool :=
  match s with
  | EmptyString => negb tras_blanco
  | String c s' =>
      if Py.isspace c
      then (Ascii.eqb c " " && negb tras_blanco && limpio_desde true s')%bool
      else limpio_desde false s'
  end.

(** The text up to the first [" / "], or the whole text. *)
Definition primer_segmento (contenido : string) : string :=
  hd EmptyString (Py.split " / " contenido).

(** The first segment when the slash alone delimits. *)
Definition primer_segmento_barra (contenido : string) : string :=
  Py.strip (hd EmptyString (Py.split "/" contenido)).

(** A day of the month as the label writes it (one or two digits), a
    year (four digits), and the token of the month: a run, not empty, of
    lower-case letters, [ñ] and periods. *)
Definition es_dia (s : string) : Prop := es_hora s.

Definition es_anio (s : string) : Prop :=
  Py.todos Py.isdigit s = true /\ String.length s = 4%nat.

Definition es_token_mes (s : string) : Prop :=
  Py.todos cls_mes s = true /\ s <> EmptyString.

(** ** Reading the calendar back *)

Definition CR : ascii := "013".

(** [n] digits at the head of a text: their number and what follows. *)
Fixpoint leer_cifras (n : nat) (acc : Z) (s : string) : option (Z * string) :=
  match n with
  | O => Some (acc, s)
  | S n' =>
      match s with
      | String c s' =>
          if Py.isdigit c then leer_cifras n' (10 * acc + Py.digit_val c) s'
          else None
      | EmptyString => None
      end
  end.

(** A value [YYYYMMDDTHHMMSS]; the carriage returns that end the line may
    follow it, and nothing else. *)
Definition leer_fecha_hora (s : string) : option (date * dtime) :=
  match leer_cifras 4 0 s with
  | None => None
  | Some (y, s) =>
      match leer_cifras 2 0 s with
      | None => None
      | Some (mo, s) =>
          match leer_cifras 2 0 s with
          | None => None
          | Some (dd, s) =>
              match s with
              | EmptyString => None
              | String t s =>
                  if negb (Ascii.eqb t "T") then None
                  else
                    match leer_cifras 2 0 s with
                    | None => None
                    | Some (h, s) =>
                        match leer_cifras 2 0 s with
                        | None => None
                        | Some (mi, s) =>
                            match leer_cifras 2 0 s with
                            | None => None
                            | Some (se, s) =>
                                if Py.todos (Ascii.eqb CR) s
                                then Some (mk_date y mo dd, mk_time h mi se)
                                else None
                            end
                        end
                    end
              end
          end
      end
  end.

(** A line [NOMBRE;TZID=America/Santiago:value]: the value it holds when
    it is such a line. *)
Definition leer_campo (nombre linea : string)
  : option (option (date * dtime)) :=
  let p := nombre ++ ";TZID=" ++ TZID ++ ":" in
  if Py.startswith linea p
  then Some (leer_fecha_hora (Py.drop (String.length p) linea))
  else None.

(** The values of the fields [nombre] of a calendar, line by line. *)
Definition campos (nombre doc : string) : list (option (date * dtime)) :=
  flat_map (fun linea => match leer_campo nombre linea with
                         | Some v => [v]
                         | None => []
                         end)
           (Py.split LF doc).

(** An event made of a date and two times of day as Python builds them. *)
Definition evento_ok (ev : RawEvent) : Prop :=
  let '(ev0, ev1, ev2, _, _) := ev in
  date_ok ev0 /\ time_ok ev1 /\ time_ok ev2.

(** The lines of the calendar: those of an entry, of the heading and of
    the time zone block, and all of them in order. *)
Definition lineas_evento (v : vevent) : list string :=
  ["BEGIN:VEVENT";
   "UID:" ++ v_uid v;
   "DTSTAMP:" ++ v_dtstamp v;
   "DTSTART;" ++ v_dtstart v;
   "DTEND;" ++ v_dtend v;
   "SUMMARY:" ++ v_resumen v;
   "DESCRIPTION:" ++ v_desc v;
   "END:VEVENT"].

Definition cabecera (nombre : string) : list string :=
  ["BEGIN:VCALENDAR";
   "PRODID:-//INACAP->GoogleCalendar//ES";
   "VERSION:2.0";
   "CALSCALE:GREGORIAN";
   "METHOD:PUBLISH";
   "X-WR-CALNAME:" ++ nombre;
   "X-WR-TIMEZONE:America/Santiago"].

Definition zona : list string :=
  ["BEGIN:VTIMEZONE";
   "TZID:" ++ TZID;
   "X-LIC-LOCATION:" ++ TZID;
   "BEGIN:STANDARD";
   "TZOFFSETFROM:-0300";
   "TZOFFSETTO:-0400";
   "TZNAME:-04";
   "DTSTART:19700426T000000";
   "RRULE:FREQ=YEARLY;BYMONTH=4;BYDAY=4SU";
   "END:STANDARD";
   "BEGIN:DAYLIGHT";
   "TZOFFSETFROM:-0400";
   "TZOFFSETTO:-0300";
   "TZNAME:-03";
   "DTSTART:19700906T000000";
   "RRULE:FREQ=YEARLY;BYMONTH=9;BYDAY=1SU";
   "END:DAYLIGHT";
   "END:VTIMEZONE"].

Definition lineas_ics (reloj : Z -> date * dtime) (nombre : string)
  (eventos : list RawEvent) : list string :=
  (cabecera nombre ++ zona
   ++ match entradas reloj eventos with
      | [] => [EmptyString]
      | vs => flat_map lineas_evento vs
      end
   ++ ["END:VCALENDAR"])%list.

(** Lines put one after the other, each followed by [fin]. *)
Fixpoint renglones (fin : string) (ls : list string) : string :=
  match ls with
  | [] => EmptyString
  | l :: ls' => l ++ fin ++ renglones fin ls'
  end.

(** ** Notions used by the statements and their proofs *)

(** The identifier of the event at 1-based position [i]. *)
Definition uid_de (i : Z) (ev : RawEvent) : string :=
  let '(f, t_ini, _, _, _) := ev in
  "inacap-" ++ strftime_Ymd f ++ "-" ++ strftime_HM t_ini ++ "-"
  ++ Py.str i ++ "@siga".

Definition primero (r : regex) (prev : option ascii) (s : string) (g : caps)
  : option hit :=
  hd_error (m r prev s g).

(** The text does not begin with a character of the class. *)
Definition no_empieza (p : ascii -> bool) (s : string) : bool :=
  match s with
  | EmptyString => true
  | String a _ => negb (p a)
  end.

(** Blanks are single spaces, with nothing asked of the two ends. *)
Fixpoint normal (tras_blanco : bool) (s : string) : bool :=
  match s with
  | EmptyString => true
  | String c s' =>
      if Py.isspace c
      then (Ascii.eqb c " " && negb tras_blanco && normal true s')%bool
      else normal false s'
  end.

(** A padded number is well formed: as wide as asked, all digits, and
    worth the number. *)
Definition zpad_bien (ancho : nat) (n : Z) : bool :=
  (Nat.eqb (String.length (Py.zpad ancho n)) ancho
   && Py.todos Py.isdigit (Py.zpad ancho n)
   && Z.eqb (Py.valor (Py.zpad ancho n)) n)%bool.

Definition CRCRLF : string := String CR CRLF.
Definition CRCR : string := String CR (String CR EmptyString).

(** What a line of the file gives to the reader of the field [nombre]. *)
Definition de_linea (nombre l : string) : list (option (date * dtime)) :=
  match leer_campo nombre (l ++ CRCR) with
  | Some v => [v]
  | None => []
  end.

(** The times of an event have no seconds, as [time(hour=h, minute=m)]
    builds them. *)
Definition sin_segundos (ev : RawEvent) : Prop :=
  let '(_, ev1, ev2, _, _) := ev in second ev1 = 0 /\ second ev2 = 0.

(** An event of the week of month [mes] and year [anio]: valid date and
    times, no seconds, and the date in that month of that year. *)
Definition evento_de (anio mes : Z) (ev : RawEvent) : Prop :=
  evento_ok ev /\ sin_segundos ev
  /\ let '(ev0, _, _, _, _) := ev in year ev0 = anio /\ month ev0 = mes.

(** The texts of an event: a cleaned, non-empty description, and as title
    its first segment, cleaned and not empty either. *)
Definition texto_ok (ev : RawEvent) : Prop :=
  let '(_, _, _, resumen, contenido) := ev in
  limpio_desde true contenido = true
  /\ resumen = primer_segmento contenido
  /\ limpio_desde true resumen = true.


(** The text does not end with a digit. *)
Definition sin_digito_final (w : string) : bool :=
  match last_char None w with
  | Some c => negb (Py.isdigit c)
  | None => true
  end.

(** The year of the event has four digits. *)
Definition anio_de_cuatro_cifras (ev : RawEvent) : Prop :=
  let '(ev0, _, _, _, _) := ev in 1000 <= year ev0.

(** A week of the year 999, as its label writes it, and its event. *)
Definition pagina_anio_999 : snapshot :=
  {| rango_label := Some ["04 - 09 ene. 0999"];
     strings := [];
     horario_table :=
       Some {| thead_tr := Some [["Hora"]; ["Lunes 04"]];
               tbody_tr := [[["08:00 - 09:30"]; ["Calculo I / Sala 301"]]] |};
     schedule_mob := [] |}.

Definition evento_anio_999 : RawEvent :=
  (mk_date 999 1 4, mk_time 8 0 0, mk_time 9 30 0, "Calculo I",
   "Calculo I / Sala 301").



(** ** Vocabulary of the statements on the run *)

(** The notice of the dump: printed in the first turn, when [--dump] is
    given and the block reaches its [print]. *)
Definition aviso_dump (ent : entorno) (dump_ : bool) (i : nat) : list linea :=
  if (dump_ && Nat.eqb i 0 && volcado ent)%bool then [DumpGuardado] else [].

(** Turn [i] of a capture of [n] weeks went through, printing the lines
    [fst s] and adding the events [snd s]: the browser delivered its page,
    the extraction gave the events, and, when a week follows, the move to
    it succeeded. *)
Definition turno_ok {E : Externo} (ent : entorno) (dump_ : bool) (n i : nat)
  (s : list linea * list RawEvent) : Prop :=
  exists html out,
    page_source ent i = Ok html
    /\ semana html = (out, Ok (snd s))
    /\ fst s = (aviso_dump ent dump_ i ++ out)%list
    /\ ((S i < n)%nat ->
        mover_semana (iconos ent i) (click ent i) "next" = Ok tt).

(** Request [i] of the push went through with the effects [tr]:
    [update] succeeded, or it raised and [insert] succeeded. *)
Definition upsert_ok (ent : entorno) (i : nat) (p : peticion)
  (tr : list efecto) : Prop :=
  localize ent i = Ok tt
  /\ ((update ent i = Ok tt /\ tr = [Update p; Imprime (Actualizado p)])
      \/ (exists e, update ent i = Raise e)
         /\ insert ent i = Ok tt
         /\ tr = [Update p; Insert p; Imprime (Creado p)]).

(** An outside for the examples: the browser shows the pages of [htmls]
    one after the other, every turn finds the icons [icons], the remote
    calendar knows no event yet, and nothing else raises. *)
Definition entorno_de (htmls : list snapshot) (icons : list string)
  : entorno :=
  {| inicio := Ok tt;
     page_source := fun i => Ok (nth i htmls pagina_vacia);
     volcado := true;
     iconos := fun _ => Ok icons;
     click := fun _ => Ok tt;
     escritura := Ok tt;
     servicio := Ok tt;
     localize := fun _ => Ok tt;
     update := fun _ => Raise (OtraExcepcion "HttpError 404");
     insert := fun _ => Ok tt;
     save_screenshot := true |}.

(** * Properties *)

(** ** Integers handed to [datetime] *)

Lemma c_int_rango (v : Z) :
  (-2147483648 <= v <= 2147483647)%Z -> c_int v = Ok v.
Proof.
  intros Hv. unfold c_int.
  replace (v <? -9223372036854775808)%Z with false
    by (symmetry; apply Z.ltb_ge; lia).
  replace (9223372036854775807 <? v)%Z with false
    by (symmetry; apply Z.ltb_ge; lia).
  replace (2147483647 <? v)%Z with false by (symmetry; apply Z.ltb_ge; lia).
  replace (v <? -2147483648)%Z with false by (symmetry; apply Z.ltb_ge; lia).
  reflexivity.
Qed.

Lemma c_int_inv (v w : Z) :
  c_int v = Ok w -> w = v /\ (-2147483648 <= v <= 2147483647)%Z.
Proof.
  unfold c_int.
  destruct ((v <? -9223372036854775808)%Z || (9223372036854775807 <? v)%Z)%bool;
    [discriminate|].
  destruct (2147483647 <? v)%Z eqn:H1; [discriminate|].
  destruct (v <? -2147483648)%Z eqn:H2; [discriminate|].
  intros [= <-]. apply Z.ltb_ge in H1, H2. split; [reflexivity|lia].
Qed.


(** ** The dictionary of the deduplication step *)

Lemma key_eqb_eq (a b : Key) : key_eqb a b = true <-> a = b.
Proof.
  destruct a as [[[[a0 a1] a2] a3] a4], b as [[[[b0 b1] b2] b3] b4].
  unfold key_eqb. rewrite !andb_true_iff, !String.eqb_eq.
  split.
  - intros [[[[-> ->] ->] ->] ->]. reflexivity.
  - intros H. injection H as -> -> -> -> ->. repeat split.
Qed.

Lemma key_eqb_neq (a b : Key) : key_eqb a b = false <-> a <> b.
Proof.
  rewrite <- key_eqb_eq. destruct (key_eqb a b); split; congruence.
Qed.

Section Diccionario.

Context {V : Type}.
Implicit Types (k : Key) (v : V) (dct : dict V).

Lemma dict_set_in k v dct : In (k, v) (dict_set k v dct).
Proof.
  induction dct as [|[k' v'] dct IH]; simpl.
  - left. reflexivity.
  - destruct (key_eqb k k'); simpl; auto.
Qed.

Lemma dict_set_keys k v dct k' :
  In k' (map fst (dict_set k v dct)) <-> k' = k \/ In k' (map fst dct).
Proof.
  induction dct as [|[k1 v1] dct IH]; simpl.
  - intuition.
  - destruct (key_eqb k k1) eqn:Hk; simpl.
    + apply key_eqb_eq in Hk. subst k1. intuition.
    + rewrite IH. intuition.
Qed.

Lemma dict_set_NoDup k v dct :
  NoDup (map fst dct) -> NoDup (map fst (dict_set k v dct)).
Proof.
  induction dct as [|[k1 v1] dct IH]; simpl; intros Hnd.
  - constructor; [intros []|constructor].
  - inversion Hnd as [|? ? Hnotin Hnd']; subst.
    destruct (key_eqb k k1) eqn:Hk; simpl.
    + apply key_eqb_eq in Hk. subst k1. constructor; assumption.
    + apply key_eqb_neq in Hk. constructor; [|auto].
      rewrite dict_set_keys. intros [->|Hin]; [apply Hk; reflexivity|auto].
Qed.

Lemma dict_set_other k v dct k' v' :
  k' <> k -> (In (k', v') (dict_set k v dct) <-> In (k', v') dct).
Proof.
  intros Hne. induction dct as [|[k1 v1] dct IH]; simpl.
  - split; [intros [H|[]]; congruence|intros []].
  - destruct (key_eqb k k1) eqn:Hk; simpl.
    + apply key_eqb_eq in Hk. subst k1.
      split; (intros [H|H]; [congruence|right; exact H]).
    + rewrite IH. reflexivity.
Qed.

Lemma keys_unique dct k v1 v2 :
  NoDup (map fst dct) -> In (k, v1) dct -> In (k, v2) dct -> v1 = v2.
Proof.
  induction dct as [|[k0 v0] dct IH]; simpl; intros Hnd H1 H2; [contradiction|].
  inversion Hnd as [|? ? Hnotin Hnd']; subst.
  destruct H1 as [H1|H1], H2 as [H2|H2].
  - congruence.
  - injection H1 as -> ->. exfalso. apply Hnotin.
    apply (in_map fst) in H2. exact H2.
  - injection H2 as -> ->. exfalso. apply Hnotin.
    apply (in_map fst) in H1. exact H1.
  - eauto.
Qed.

Lemma dict_set_same k v dct v' :
  NoDup (map fst dct) -> In (k, v') (dict_set k v dct) -> v' = v.
Proof.
  intros Hnd Hin.
  apply (keys_unique (dict_set k v dct) k); auto using dict_set_NoDup, dict_set_in.
Qed.

End Diccionario.

(** ** Deduplication *)

Lemma cargar_snoc acumulados ev :
  cargar (acumulados ++ [ev]) = dict_set (key ev) ev (cargar acumulados).
Proof. unfold cargar. rewrite fold_left_app. reflexivity. Qed.

(** The dictionary built from the accumulated events: its keys are
    distinct, they are the identities that occur, and every value is the
    last event of the input with its identity. *)
Lemma cargar_inv (acumulados : list RawEvent) :
  NoDup (map fst (cargar acumulados))
  /\ (forall k, In k (map fst (cargar acumulados)) <-> In k (map key acumulados))
  /\ (forall k ev, In (k, ev) (cargar acumulados) ->
        k = key ev
        /\ exists antes despues,
             acumulados = (antes ++ ev :: despues)%list
             /\ ~ In (key ev) (map key despues)).
Proof.
  induction acumulados as [|x l IH] using rev_ind.
  - split; [constructor|]. split; [reflexivity|]. intros k ev [].
  - destruct IH as (Hnd & Hkeys & Hlast).
    rewrite cargar_snoc. split; [apply dict_set_NoDup; exact Hnd|]. split.
    + intros k. rewrite dict_set_keys, Hkeys, map_app, in_app_iff. simpl.
      intuition.
    + intros k ev Hin.
      destruct (key_eqb k (key x)) eqn:Hk.
      * apply key_eqb_eq in Hk. subst k.
        apply dict_set_same in Hin; [|exact Hnd]. subst ev.
        split; [reflexivity|]. exists l, []. split; [reflexivity|]. intros [].
      * apply key_eqb_neq in Hk.
        apply dict_set_other in Hin; [|exact Hk].
        destruct (Hlast k ev Hin) as (-> & antes & despues & -> & Hno).
        split; [reflexivity|].
        exists antes, (despues ++ [x])%list. split.
        -- rewrite <- app_assoc. reflexivity.
        -- rewrite map_app, in_app_iff. simpl. intuition.
Qed.

Lemma cargar_keys (acumulados : list RawEvent) :
  map key (deduplicar acumulados) = map fst (cargar acumulados).
Proof.
  unfold deduplicar, values.
  destruct (cargar_inv acumulados) as (_ & _ & Hlast).
  induction (cargar acumulados) as [|[k ev] dct IH]; simpl; [reflexivity|].
  f_equal.
  - symmetry. apply (Hlast k ev). left. reflexivity.
  - apply IH. intros k' ev' Hin. apply Hlast. right. exact Hin.
Qed.

Lemma una_por_clave (l : list RawEvent) (ev : RawEvent) :
  NoDup (map key l) -> In ev l ->
  List.length (filter (fun e => key_eqb (key e) (key ev)) l) = 1%nat.
Proof.
  induction l as [|x l IH]; simpl; intros Hnd Hin; [contradiction|].
  inversion Hnd as [|? ? Hnotin Hnd']; subst.
  destruct Hin as [->|Hin].
  - replace (key_eqb (key ev) (key ev)) with true
      by (symmetry; apply key_eqb_eq; reflexivity).
    simpl. f_equal.
    assert (Hnone : forall e, In e l -> key_eqb (key e) (key ev) = false).
    { intros e He. apply key_eqb_neq. intros Heq. apply Hnotin.
      rewrite <- Heq. apply in_map. exact He. }
    clear - Hnone. induction l as [|y l IH]; simpl; [reflexivity|].
    rewrite (Hnone y) by (left; reflexivity).
    apply IH. intros e He. apply Hnone. right. exact He.
  - destruct (key_eqb (key x) (key ev)) eqn:Hk.
    + apply key_eqb_eq in Hk. exfalso. apply Hnotin. rewrite Hk.
      apply in_map. exact Hin.
    + apply IH; assumption.
Qed.

(** C1. Whatever the accumulated sequence of events (the weeks' events
    one after the other), the deduplicated sequence holds exactly one event
    for every identity [(date.isoformat(), start HH:MM, end HH:MM, title,
    description)] that occurs: its identities are pairwise distinct, every
    event of the input has its identity represented exactly once, and the
    event kept for an identity is the last one of the input that has it.
    In particular two events with one identity coming from two different
    weeks leave a single event. *)
Theorem C1_deduplicar_una_por_identidad (acumulados : list RawEvent) :
  let uniq := deduplicar acumulados in
  NoDup (map key uniq)
  /\ (forall ev, In ev acumulados ->
        List.length (filter (fun e => key_eqb (key e) (key ev)) uniq) = 1%nat)
  /\ (forall ev, In ev uniq ->
        exists antes despues,
          acumulados = (antes ++ ev :: despues)%list
          /\ forall ev', In ev' despues -> key ev' <> key ev)
  /\ (forall semana1 semana2 e1 e2,
        acumulados = (semana1 ++ semana2)%list ->
        In e1 semana1 -> In e2 semana2 -> key e1 = key e2 ->
        exists ev,
          filter (fun e => key_eqb (key e) (key e1)) uniq = [ev]
          /\ key ev = key e1).
Proof.
  intros uniq.
  destruct (cargar_inv acumulados) as (Hnd & Hkeys & Hlast).
  assert (Hnd' : NoDup (map key uniq))
    by (unfold uniq; rewrite cargar_keys; exact Hnd).
  assert (Hrep : forall ev, In ev acumulados ->
            exists ev', In ev' uniq /\ key ev' = key ev).
  { intros ev Hin.
    assert (Hk : In (key ev) (map key uniq)).
    { unfold uniq. rewrite cargar_keys. apply Hkeys. apply in_map. exact Hin. }
    apply in_map_iff in Hk. destruct Hk as (ev' & Heq & Hin').
    exists ev'. split; assumption. }
  assert (Huna : forall ev, In ev acumulados ->
            List.length (filter (fun e => key_eqb (key e) (key ev)) uniq) = 1%nat).
  { intros ev Hin. destruct (Hrep ev Hin) as (ev' & Hin' & Heq).
    rewrite <- Heq. apply una_por_clave; assumption. }
  split; [exact Hnd'|]. split; [exact Huna|]. split.
  - intros ev Hin. unfold uniq, deduplicar, values in Hin.
    apply in_map_iff in Hin. destruct Hin as ([k ev0] & Hsnd & Hin).
    simpl in Hsnd. subst ev0.
    destruct (Hlast k ev Hin) as (_ & antes & despues & Heq & Hno).
    exists antes, despues. split; [exact Heq|].
    intros ev' Hin' Hk. apply Hno. rewrite <- Hk. apply in_map. exact Hin'.
  - intros semana1 semana2 e1 e2 Heq H1 H2 Hk.
    assert (Hin : In e1 acumulados) by (rewrite Heq; apply in_or_app; auto).
    specialize (Huna e1 Hin).
    destruct (filter (fun e => key_eqb (key e) (key e1)) uniq)
      as [|ev [|ev' rest]] eqn:Hf; simpl in Huna; try discriminate.
    exists ev. split; [reflexivity|].
    assert (Hev : In ev (filter (fun e => key_eqb (key e) (key e1)) uniq))
      by (rewrite Hf; left; reflexivity).
    apply filter_In in Hev. apply key_eqb_eq. apply Hev.
Qed.

(** ** Identifiers of the entries *)

Lemma bloques_entradas reloj eventos :
  bloques reloj eventos = map texto_evento (entradas reloj eventos).
Proof.
  unfold bloques, entradas, construir_evento. rewrite map_map.
  apply map_ext. intros [i [[[[ev0 ev1] ev2] ev3] ev4]]. reflexivity.
Qed.

Section Identificadores.

Context {E : Externo}.


Lemma uid_entradas reloj eventos k :
  map v_uid
      (map (fun iev : Z * RawEvent =>
              let '(i, (ev0, ev1, ev2, ev3, ev4)) := iev in
              campos_evento (reloj i) (i + 1) ev3 ev0 ev1 ev2 ev4)
           (enumerate k eventos))
  = map (fun iev : Z * RawEvent => uid_de (fst iev) (snd iev))
        (enumerate (k + 1) eventos).
Proof.
  revert k. induction eventos as [|[[[[ev0 ev1] ev2] ev3] ev4] l IH];
    intros k; simpl; [reflexivity|].
  f_equal. apply IH.
Qed.

Lemma uid_push eventos k :
  map p_uid
      (map (fun iev : Z * RawEvent =>
              let '(i, (f, t_ini, t_fin, resumen, descripcion)) := iev in
              let uid :=
                "inacap-" ++ strftime_Ymd f ++ "-" ++ strftime_HM t_ini ++ "-"
                ++ Py.str i ++ "@siga" in
              let event_id := _event_id_from_uid uid in
              {| p_uid := uid; p_event_id := event_id; p_summary := resumen;
                 p_description := descripcion; p_start := (f, t_ini);
                 p_end := (f, t_fin) |})
           (enumerate k eventos))
  = map (fun iev : Z * RawEvent => uid_de (fst iev) (snd iev))
        (enumerate k eventos).
Proof.
  revert k. induction eventos as [|[[[[ev0 ev1] ev2] ev3] ev4] l IH];
    intros k; simpl; [reflexivity|].
  f_equal. apply IH.
Qed.

Lemma event_id_push eventos :
  map p_event_id (push_to_google_calendar eventos)
  = map _event_id_from_uid (map p_uid (push_to_google_calendar eventos)).
Proof.
  unfold push_to_google_calendar. rewrite !map_map.
  apply map_ext. intros [i [[[[f t_ini] t_fin] resumen] descripcion]].
  reflexivity.
Qed.

(** C2. For one deduplicated sequence of events, the entry the calendar
    builder lays out at 1-based position [i] and the request the push
    adapter sends at position [i] carry the same [uid], the string
    [inacap-YYYYMMDD-HHMM-i@siga]; the calendar text holds that [uid];
    the remote key is a function of the [uid] (equal uids give equal
    keys); and the uids and keys do not depend on when the run takes
    place, so two runs over an unchanged schedule produce the same ones. *)
Theorem C2_uid_igual_en_ics_y_push (reloj reloj' : Z -> date * dtime)
  (eventos : list RawEvent) :
  map v_uid (entradas reloj eventos)
    = map p_uid (push_to_google_calendar eventos)
  /\ map p_uid (push_to_google_calendar eventos)
     = map (fun iev : Z * RawEvent => uid_de (fst iev) (snd iev))
           (enumerate 1 eventos)
  /\ bloques reloj eventos = map texto_evento (entradas reloj eventos)
  /\ map p_event_id (push_to_google_calendar eventos)
     = map _event_id_from_uid (map v_uid (entradas reloj eventos))
  /\ (forall uid uid', uid = uid' ->
        _event_id_from_uid uid = _event_id_from_uid uid')
  /\ map v_uid (entradas reloj eventos) = map v_uid (entradas reloj' eventos).
Proof.
  assert (Hics : forall r, map v_uid (entradas r eventos)
                 = map (fun iev : Z * RawEvent => uid_de (fst iev) (snd iev))
                       (enumerate 1 eventos)).
  { intros r. unfold entradas. apply (uid_entradas r eventos 0). }
  assert (Hpush : map p_uid (push_to_google_calendar eventos)
                  = map (fun iev : Z * RawEvent => uid_de (fst iev) (snd iev))
                        (enumerate 1 eventos)).
  { unfold push_to_google_calendar. apply uid_push. }
  repeat split.
  - rewrite Hics, Hpush. reflexivity.
  - exact Hpush.
  - apply bloques_entradas.
  - rewrite event_id_push, Hpush, Hics. reflexivity.
  - intros uid uid' ->. reflexivity.
  - rewrite !Hics. reflexivity.
Qed.

End Identificadores.

(** ** The choice between the two strategies *)

Section Estrategias.

Context {E : Externo}.

Lemma semana_casos (html : snapshot) :
  (forall ev evs, extraer_eventos_desde_html html = Ok (ev :: evs) ->
     semana html = ([], Ok (ev :: evs)))
  /\ (extraer_eventos_desde_html html = Ok [] ->
      semana html = ([ProbandoFallback], extraer_eventos_fallback_movil html))
  /\ (forall e, extraer_eventos_desde_html html = Raise e ->
      semana html = ([], Raise e)).
Proof.
  unfold semana. repeat split; intros; rewrite H; reflexivity.
Qed.

Lemma desktop_sin_tabla (html : snapshot) (rango : Z * Z * Z * Z) :
  parse_fecha_rango (etiqueta_desktop html) = Ok rango ->
  horario_table html = None
  \/ (exists tabla, horario_table html = Some tabla /\ thead_tr tabla = None) ->
  extraer_eventos_desde_html html = Ok [].
Proof.
  intros Hrango Hsin. unfold extraer_eventos_desde_html. rewrite Hrango.
  destruct rango as [[[d1 d2] mes] anio]. simpl.
  destruct Hsin as [->|(tabla & -> & ->)]; reflexivity.
Qed.

(** C4, as amended. For every page whose week label the resolver accepts,
    the desktop strategy returns the empty sequence (a result, not an
    error) when the page has no table or the table has no header row.  The
    caller runs the desktop strategy first: when it yields events they are
    the week's events and the mobile strategy is not run; when it yields
    none, the caller announces the fallback and the week's result is the
    mobile strategy's alone; when it raises, the mobile strategy is not
    run.  The two results are never merged. *)
Theorem C4_tabla_ausente_y_fallback (html : snapshot) :
  (forall rango,
      parse_fecha_rango (etiqueta_desktop html) = Ok rango ->
      horario_table html = None
      \/ (exists tabla, horario_table html = Some tabla
                        /\ thead_tr tabla = None) ->
      extraer_eventos_desde_html html = Ok [])
  /\ (forall ev evs, extraer_eventos_desde_html html = Ok (ev :: evs) ->
        semana html = ([], Ok (ev :: evs)))
  /\ (extraer_eventos_desde_html html = Ok [] ->
        semana html = ([ProbandoFallback], extraer_eventos_fallback_movil html))
  /\ (forall e, extraer_eventos_desde_html html = Raise e ->
        semana html = ([], Raise e)).
Proof.
  split; [intros rango; apply desktop_sin_tabla|apply semana_casos].
Qed.

End Estrategias.

(** The amended statement at work: the mobile page has a readable label
    and no table, so the desktop strategy returns nothing and the week's
    events are those of the mobile strategy. *)
Lemma C4_testigo :
  extraer_eventos_desde_html (E := externo_de_ejemplo) pagina_movil = Ok []
  /\ semana (E := externo_de_ejemplo) pagina_movil
     = ([ProbandoFallback], Ok [evento_de_ejemplo]).
Proof.
  destruct (C4_tabla_ausente_y_fallback (E := externo_de_ejemplo) pagina_movil)
    as (Hsin & _ & Hvacio & _).
  assert (H0 : extraer_eventos_desde_html (E := externo_de_ejemplo) pagina_movil
               = Ok []).
  { apply (Hsin (4, 9, 8, 2025)%Z); [vm_compute; reflexivity|left; reflexivity]. }
  split; [exact H0|].
  rewrite (Hvacio H0). vm_compute. reflexivity.
Defined.

(** C4 as stated fails: on a page without table whose label cannot be
    read, the desktop strategy raises instead of returning the empty
    sequence. *)
Lemma C4_contraejemplo :
  horario_table pagina_vacia = None
  /\ extraer_eventos_desde_html (E := externo_de_ejemplo) pagina_vacia
     = Raise (ValueError "No pude leer el rango de fechas desde: ")
  /\ extraer_eventos_desde_html (E := externo_de_ejemplo) pagina_vacia <> Ok [].
Proof.
  split; [reflexivity|]. split; [vm_compute; reflexivity|].
  vm_compute. discriminate.
Qed.

(** ** A header that names no day of the month *)

Lemma date_new_dia_invalido (anio mes n : Z) :
  ~ (1 <= n <= days_in_month anio mes)%Z ->
  exists e, date_new anio mes n = Raise e.
Proof.
  intros Hdia. unfold date_new.
  destruct (c_int anio) as [y|e] eqn:Hy; [|eexists; reflexivity].
  destruct (c_int mes) as [mo|e] eqn:Hmo; [|eexists; reflexivity].
  destruct (c_int n) as [dd|e] eqn:Hdd; [|eexists; reflexivity].
  apply c_int_inv in Hy, Hmo, Hdd.
  destruct Hy as [-> _], Hmo as [-> _], Hdd as [-> _]. cbn [bind].
  destruct (negb ((1 <=? anio)%Z && (anio <=? 9999)%Z)); [eexists; reflexivity|].
  destruct (negb ((1 <=? mes)%Z && (mes <=? 12)%Z)); [eexists; reflexivity|].
  destruct ((1 <=? n)%Z && (n <=? days_in_month anio mes)%Z) eqn:Hok;
    [|eexists; reflexivity].
  exfalso. apply Hdia. apply andb_true_iff in Hok. lia.
Qed.

Lemma mapear_fechas_falla (anio mes : Z) (headers_dias : list string)
  (h g : string) (n : Z) (e : exn) :
  In h headers_dias ->
  dia_de_header h = Some g -> Py.int g = Ok n ->
  date_new anio mes n = Raise e ->
  exists e', mapear_fechas anio mes headers_dias = Raise e'.
Proof.
  intros Hin Hg Hn He.
  induction headers_dias as [|h0 hs IH]; [contradiction|]. simpl.
  destruct Hin as [->|Hin].
  - rewrite Hg. simpl. rewrite Hn. simpl. rewrite He. simpl.
    exists e. reflexivity.
  - destruct (IH Hin) as [e' He'].
    destruct (dia_de_header h0) as [g0|].
    + destruct (Py.int g0) as [n0|e0]; simpl; [|exists e0; reflexivity].
      destruct (date_new anio mes n0) as [f0|e0]; simpl;
        [|exists e0; reflexivity].
      rewrite He'. exists e'. reflexivity.
    + rewrite He'. exists e'. reflexivity.
Qed.

Section HeaderInvalido.

Context {E : Externo}.

(** C10. On a page whose week label is read, with a table and a header
    row, if the day number read from some weekday header is not a day of
    the label's month and year, the desktop strategy raises while it fills
    the column dates: the whole extraction of the week ends with an error
    and no event, whatever the rows hold, and the error leaves the week's
    turn of the capture loop without the mobile strategy being tried. *)
Theorem C10_header_invalido_aborta_la_semana (html : snapshot)
  (d1 d2 mes anio : Z) (tabla : table) (header_cells : list tag)
  (h g : string) (n : Z) :
  parse_fecha_rango (etiqueta_desktop html) = Ok (d1, d2, mes, anio) ->
  horario_table html = Some tabla ->
  thead_tr tabla = Some header_cells ->
  In h (map (fun c => limpiar_texto (get_text c)) (tl header_cells)) ->
  dia_de_header h = Some g ->
  Py.int g = Ok n ->
  ~ (1 <= n <= days_in_month anio mes)%Z ->
  exists e,
    mapear_fechas anio mes
      (map (fun c => limpiar_texto (get_text c)) (tl header_cells)) = Raise e
    /\ extraer_eventos_desde_html html = Raise e
    /\ semana html = ([], Raise e).
Proof.
  intros Hrango Htabla Hhead Hin Hg Hn Hdia.
  destruct (date_new_dia_invalido anio mes n Hdia) as [e0 He0].
  destruct (mapear_fechas_falla anio mes _ h g n e0 Hin Hg Hn He0) as [e He].
  exists e. split; [exact He|].
  assert (Hext : extraer_eventos_desde_html html = Raise e).
  { unfold extraer_eventos_desde_html.
    rewrite Hrango. simpl. rewrite Htabla, Hhead, He. reflexivity. }
  split; [exact Hext|].
  destruct (semana_casos html) as (_ & _ & Hr). exact (Hr e Hext).
Qed.

End HeaderInvalido.

(** September has thirty days: the header of day 31 ends the week's
    extraction, the Monday class included. *)
Lemma C10_testigo :
  extraer_eventos_desde_html (E := externo_de_ejemplo) pagina_dia_31
  = Raise (ValueError "day is out of range for month").
Proof.
  destruct (C10_header_invalido_aborta_la_semana (E := externo_de_ejemplo)
              pagina_dia_31 29 31 9 2025
              {| thead_tr := Some [["Hora"]; ["Lunes 29"]; ["Miercoles 31"]];
                 tbody_tr :=
                   [[["08:00 - 09:30"]; ["Calculo I / Sala 301"]; []]] |}
              [["Hora"]; ["Lunes 29"]; ["Miercoles 31"]]
              "Miercoles 31" "31" 31)
    as (e & Hmap & Hext & _).
  - vm_compute. reflexivity.
  - reflexivity.
  - reflexivity.
  - right. left. vm_compute. reflexivity.
  - vm_compute. reflexivity.
  - vm_compute. reflexivity.
  - vm_compute. intros [_ H]. apply H. reflexivity.
  - vm_compute in Hmap. injection Hmap as <-. exact Hext.
Defined.

(** ** Texts *)

Lemma app_nil_r_s (s : string) : s ++ EmptyString = s.
Proof. induction s as [|c s IH]; simpl; [reflexivity|rewrite IH; reflexivity]. Qed.

Lemma app_assoc_s (a b c : string) : (a ++ b) ++ c = a ++ b ++ c.
Proof. induction a as [|x a IH]; simpl; [reflexivity|rewrite IH; reflexivity]. Qed.

Lemma length_app_s (a b : string) :
  String.length (a ++ b) = (String.length a + String.length b)%nat.
Proof. induction a as [|x a IH]; simpl; [reflexivity|rewrite IH; reflexivity]. Qed.

Lemma todos_app (p : ascii -> bool) (a b : string) :
  Py.todos p (a ++ b) = (Py.todos p a && Py.todos p b)%bool.
Proof.
  induction a as [|x a IH]; simpl; [reflexivity|].
  rewrite IH, andb_assoc. reflexivity.
Qed.

(** Facts about one character are settled by going through the 256 of
    them. *)
Ltac por_caracter c :=
  destruct c as [[] [] [] [] [] [] [] []]; vm_compute;
  try reflexivity; try discriminate; try (intros; discriminate);
  try (intros; reflexivity).

Lemma digito_no_espacio (c : ascii) :
  Py.isdigit c = true -> Py.isspace c = false.
Proof. por_caracter c. Qed.

Lemma digito_no_signo (c : ascii) :
  Py.isdigit c = true ->
  Ascii.eqb c "-" = false /\ Ascii.eqb c "+" = false
  /\ Ascii.eqb c ":" = false.
Proof. por_caracter c; intros _; repeat split. Qed.

Lemma digito_valor (c : ascii) :
  Py.isdigit c = true -> (0 <= Py.digit_val c <= 9)%Z.
Proof.
  destruct c as [[] [] [] [] [] [] [] []]; vm_compute;
    try discriminate; intros _; split; discriminate.
Qed.

(** ** [int] on a run of digits *)

Lemma lstrip_digitos (s : string) :
  Py.todos Py.isdigit s = true -> Py.lstrip s = s.
Proof.
  destruct s as [|c s]; simpl; [reflexivity|].
  intros H. apply andb_true_iff in H. destruct H as [Hc _].
  rewrite (digito_no_espacio c Hc). reflexivity.
Qed.

Lemma rstrip_digitos (s : string) :
  Py.todos Py.isdigit s = true -> Py.rstrip s = s.
Proof.
  induction s as [|c s IH]; simpl; [reflexivity|].
  intros H. apply andb_true_iff in H. destruct H as [Hc Hs].
  rewrite (IH Hs), (digito_no_espacio c Hc), andb_false_r. reflexivity.
Qed.

Lemma digits_val_digitos (s : string) :
  Py.todos Py.isdigit s = true ->
  forall acc b, (s <> EmptyString \/ b = true) ->
    Py.digits_val acc b s = Some (Py.valor_desde acc s).
Proof.
  induction s as [|c s IH]; simpl; intros H acc b Hne.
  - destruct Hne as [Hne| ->]; [contradiction|reflexivity].
  - apply andb_true_iff in H. destruct H as [Hc Hs].
    rewrite Hc. apply IH; [exact Hs|right; reflexivity].
Qed.

Lemma int_digitos (s : string) :
  Py.todos Py.isdigit s = true -> s <> EmptyString ->
  Py.int s = Ok (Py.valor s).
Proof.
  intros H Hne. unfold Py.int, Py.strip.
  rewrite (lstrip_digitos s H), (rstrip_digitos s H).
  destruct s as [|c s]; [contradiction|].
  assert (Hc : Py.isdigit c = true)
    by (simpl in H; apply andb_true_iff in H; apply H).
  destruct (digito_no_signo c Hc) as (-> & -> & _).
  rewrite (digits_val_digitos (String c s) H 0%Z false); [reflexivity|].
  left. discriminate.
Qed.

Lemma valor_desde_cota (s : string) :
  Py.todos Py.isdigit s = true ->
  forall acc, (0 <= acc)%Z -> (0 <= Py.valor_desde acc s)%Z.
Proof.
  induction s as [|c s IH]; cbn [Py.valor_desde Py.todos]; intros H acc Hacc;
    [exact Hacc|].
  apply andb_true_iff in H. destruct H as [Hc Hs].
  apply IH; [exact Hs|]. pose proof (digito_valor c Hc). lia.
Qed.

(** ** The first match of a pattern *)


Lemma re_match_primero r s c s' g :
  primero r None s [] = Some (c, s', g) -> re_match r s = Some (c, g).
Proof.
  unfold primero, re_match. destruct (m r None s []) as [|[[c0 s0] g0] l];
    simpl; [discriminate|]. intros [= -> -> ->]. reflexivity.
Qed.

Lemma re_search_primero r s c s' g :
  primero r None s [] = Some (c, s', g) -> re_search r s = Some (c, g).
Proof.
  intros H. apply re_match_primero in H. unfold re_match in H.
  unfold re_search. destruct s; simpl; rewrite H; reflexivity.
Qed.


Lemma primero_Chr (p : ascii -> bool) prev a s g :
  p a = true ->
  primero (Chr p) prev (String a s) g = Some (String a EmptyString, s, g).
Proof. intros H. unfold primero. simpl. rewrite H. reflexivity. Qed.

Lemma primero_Cat r1 r2 prev s g c1 s1 g1 c2 s2 g2 :
  primero r1 prev s g = Some (c1, s1, g1) ->
  primero r2 (last_char prev c1) s1 g1 = Some (c2, s2, g2) ->
  primero (Cat r1 r2) prev s g = Some (c1 ++ c2, s2, g2).
Proof.
  unfold primero. simpl.
  destruct (m r1 prev s g) as [|h1 l1]; simpl; [discriminate|].
  intros [= ->].
  destruct (m r2 (last_char prev c1) s1 g1) as [|h2 l2]; simpl; [discriminate|].
  intros [= ->]. reflexivity.
Qed.

Lemma primero_Opt_si r prev s g h :
  primero r prev s g = Some h -> primero (Opt r) prev s g = Some h.
Proof.
  unfold primero. simpl. destruct (m r prev s g); simpl; [discriminate|].
  intros H. exact H.
Qed.

Lemma primero_Opt_no r prev s g :
  m r prev s g = [] -> primero (Opt r) prev s g = Some (EmptyString, s, g).
Proof. unfold primero. simpl. intros ->. reflexivity. Qed.

Lemma primero_Grp i r prev s g c s' g' :
  primero r prev s g = Some (c, s', g') ->
  primero (Grp i r) prev s g = Some (c, s', (i, c) :: g').
Proof.
  unfold primero. simpl. destruct (m r prev s g) as [|h l]; simpl;
    [discriminate|]. intros [= ->]. reflexivity.
Qed.


Lemma m_Chr_no_empieza p prev s g :
  no_empieza p s = true -> m (Chr p) prev s g = [].
Proof.
  destruct s as [|a s]; simpl; [reflexivity|].
  destruct (p a); [discriminate|reflexivity].
Qed.

Lemma m_Chr_si p prev a s g :
  p a = true -> m (Chr p) prev (String a s) g = [(String a EmptyString, s, g)].
Proof. intros H. simpl. rewrite H. reflexivity. Qed.

Lemma repetir_clase (p : ascii -> bool) (w s : string) :
  Py.todos p w = true -> no_empieza p s = true ->
  forall n prev g, (String.length (w ++ s) <= n)%nat ->
    hd_error (repetir (m (Chr p)) n prev (w ++ s) g) = Some (w, s, g).
Proof.
  intros Hw Hs. induction w as [|a w IH]; intros n prev g Hn.
  - cbn [append]. destruct n as [|n]; [reflexivity|].
    cbn [repetir]. rewrite (m_Chr_no_empieza p prev s g Hs). reflexivity.
  - simpl in Hw. apply andb_true_iff in Hw. destruct Hw as [Ha Hw].
    destruct n as [|n]; [simpl in Hn; lia|].
    assert (Hn' : (String.length (w ++ s) <= n)%nat) by (simpl in Hn; lia).
    specialize (IH Hw n (Some a) g Hn').
    cbn [append repetir]. rewrite (m_Chr_si p prev a (w ++ s) g Ha).
    cbn [flat_map Py.is_empty last_char app].
    destruct (repetir (m (Chr p)) n (Some a) (w ++ s) g) as [|h l];
      simpl in IH; [discriminate|].
    injection IH as ->. reflexivity.
Qed.

(** [p*] takes a whole run of the class when the text goes on with
    something else. *)
Lemma primero_Star p w s prev g :
  Py.todos p w = true -> no_empieza p s = true ->
  primero (Star (Chr p)) prev (w ++ s) g = Some (w, s, g).
Proof.
  intros Hw Hs. unfold primero. simpl.
  apply repetir_clase; [exact Hw|exact Hs|apply le_n].
Qed.

(** [p+] likewise, on a run that is not empty. *)
Lemma primero_Plus p a w s prev g :
  p a = true -> Py.todos p w = true -> no_empieza p s = true ->
  primero (Plus (Chr p)) prev (String a w ++ s) g = Some (String a w, s, g).
Proof.
  intros Ha Hw Hs. unfold Plus.
  change (String a w) with (String a EmptyString ++ w) at 2.
  apply primero_Cat with (s1 := w ++ s) (g1 := g).
  - simpl. apply primero_Chr. exact Ha.
  - apply primero_Star; assumption.
Qed.

(** ** The time block *)

Lemma primero_Cat' r1 r2 prev s g c1 s1 g1 c2 s2 g2 c :
  primero r1 prev s g = Some (c1, s1, g1) ->
  primero r2 (last_char prev c1) s1 g1 = Some (c2, s2, g2) ->
  c = c1 ++ c2 ->
  primero (Cat r1 r2) prev s g = Some (c, s2, g2).
Proof. intros H1 H2 ->. apply (primero_Cat _ _ _ _ _ _ _ _ _ _ _ H1 H2). Qed.

Lemma primero_lit a prev s g :
  primero (lit a) prev (String a s) g = Some (String a EmptyString, s, g).
Proof. apply primero_Chr. apply Ascii.eqb_refl. Qed.

Lemma es_hora_casos (s : string) :
  es_hora s ->
  (exists c, s = String c EmptyString /\ Py.isdigit c = true)
  \/ (exists c1 c2, s = String c1 (String c2 EmptyString)
                    /\ Py.isdigit c1 = true /\ Py.isdigit c2 = true).
Proof.
  intros [Hd Hl]. destruct s as [|c1 [|c2 [|c3 s]]]; simpl in *.
  - destruct Hl; discriminate.
  - left. exists c1. rewrite andb_true_r in Hd. auto.
  - right. exists c1, c2. rewrite andb_true_r in Hd.
    apply andb_true_iff in Hd. destruct Hd. auto.
  - destruct Hl; discriminate.
Qed.

Lemma es_minutos_casos (s : string) :
  es_minutos s ->
  exists c1 c2, s = String c1 (String c2 EmptyString)
                /\ Py.isdigit c1 = true /\ Py.isdigit c2 = true.
Proof.
  intros [Hd Hl]. destruct s as [|c1 [|c2 [|c3 s]]]; simpl in *;
    try discriminate.
  exists c1, c2. rewrite andb_true_r in Hd.
  apply andb_true_iff in Hd. destruct Hd. auto.
Qed.

Lemma primero_d2 prev c1 c2 s g :
  Py.isdigit c1 = true -> Py.isdigit c2 = true ->
  primero d2 prev (String c1 (String c2 s)) g
  = Some (String c1 (String c2 EmptyString), s, g).
Proof.
  intros H1 H2. unfold d2.
  eapply primero_Cat'; [apply primero_Chr; exact H1
                       |apply primero_Chr; exact H2|reflexivity].
Qed.

(** [\d{1,2}] on one digit followed by something else, and on two
    digits. *)
Lemma primero_d12_uno prev c s g :
  Py.isdigit c = true -> no_empieza Py.isdigit s = true ->
  primero d12 prev (String c s) g = Some (String c EmptyString, s, g).
Proof.
  intros Hc Hs. unfold d12.
  eapply primero_Cat'; [apply primero_Chr; exact Hc| |reflexivity].
  apply primero_Opt_no. apply m_Chr_no_empieza. exact Hs.
Qed.

Lemma primero_d12_dos prev c1 c2 s g :
  Py.isdigit c1 = true -> Py.isdigit c2 = true ->
  primero d12 prev (String c1 (String c2 s)) g
  = Some (String c1 (String c2 EmptyString), s, g).
Proof.
  intros H1 H2. unfold d12.
  eapply primero_Cat'; [apply primero_Chr; exact H1| |reflexivity].
  apply primero_Opt_si. apply primero_Chr. exact H2.
Qed.

Lemma primero_d12 prev w s g :
  es_hora w -> no_empieza Py.isdigit s = true ->
  primero d12 prev (w ++ s) g = Some (w, s, g).
Proof.
  intros Hw Hs.
  destruct (es_hora_casos w Hw) as [(c & -> & Hc)|(c1 & c2 & -> & H1 & H2)].
  - apply primero_d12_uno; assumption.
  - apply primero_d12_dos; assumption.
Qed.

Lemma primero_hhmm prev hh mm resto g :
  es_hora hh -> es_minutos mm ->
  primero hhmm prev (hh ++ ":" ++ mm ++ resto) g
  = Some (hh ++ ":" ++ mm, resto, g).
Proof.
  intros Hh Hm.
  destruct (es_minutos_casos mm Hm) as (c3 & c4 & -> & H3 & H4).
  unfold hhmm.
  eapply primero_Cat'; [apply (primero_d12 prev hh); [exact Hh|reflexivity]| |].
  - eapply primero_Cat'; [apply primero_lit| |reflexivity].
    apply primero_d2; assumption.
  - reflexivity.
Qed.

Lemma prefix_dos_puntos (c : ascii) (s : string) :
  Ascii.eqb c ":" = false -> String.prefix ":" (String c s) = false.
Proof.
  intros H.
  change (String.prefix ":" (String c s))
    with (if ascii_dec ":" c then String.prefix EmptyString s else false).
  destruct (ascii_dec ":" c) as [<-|_]; [|reflexivity].
  rewrite Ascii.eqb_refl in H. discriminate.
Qed.

Lemma partition_digitos (w resto : string) :
  Py.todos Py.isdigit w = true ->
  Py.partition ":" (w ++ ":" ++ resto) = Some (w, resto).
Proof.
  induction w as [|c w IH]; intros Hw.
  - simpl. destruct resto; reflexivity.
  - simpl in Hw. apply andb_true_iff in Hw. destruct Hw as [Hc Hw].
    destruct (digito_no_signo c Hc) as (_ & _ & Hdp).
    cbn [append Py.partition]. rewrite (prefix_dos_puntos c _ Hdp).
    change (String ":" resto) with (":" ++ resto).
    rewrite (IH Hw). reflexivity.
Qed.

Lemma partition_sin_dos_puntos (w : string) :
  Py.todos Py.isdigit w = true -> Py.partition ":" w = None.
Proof.
  induction w as [|c w IH]; intros Hw; [reflexivity|].
  simpl in Hw. apply andb_true_iff in Hw. destruct Hw as [Hc Hw].
  destruct (digito_no_signo c Hc) as (_ & _ & Hdp).
  cbn [Py.partition]. rewrite (prefix_dos_puntos c _ Hdp), (IH Hw).
  reflexivity.
Qed.

Lemma split_hhmm (hh mm : string) :
  Py.todos Py.isdigit hh = true -> Py.todos Py.isdigit mm = true ->
  Py.split ":" (hh ++ ":" ++ mm) = [hh; mm].
Proof.
  intros Hh Hm. unfold Py.split.
  destruct (String.length (hh ++ ":" ++ mm)) as [|n] eqn:Hn.
  - rewrite length_app_s in Hn. simpl in Hn. lia.
  - cbn [Py.split_n]. rewrite (partition_digitos hh mm Hh).
    destruct n; cbn [Py.split_n]; [reflexivity|].
    rewrite (partition_sin_dos_puntos mm Hm). reflexivity.
Qed.

(** On [H:MM] the conversion is the constructor of [time] applied to the
    two numbers. *)
Lemma hhmm_to_time_digitos (hh mm : string) :
  es_hora hh -> es_minutos mm ->
  hhmm_to_time (hh ++ ":" ++ mm) = time_new (Py.valor hh) (Py.valor mm).
Proof.
  intros [Hh Hlh] [Hm Hlm]. unfold hhmm_to_time.
  rewrite (split_hhmm hh mm Hh Hm). cbn [map_int].
  rewrite (int_digitos hh Hh), (int_digitos mm Hm).
  - reflexivity.
  - intros ->. discriminate.
  - intros ->. destruct Hlh; discriminate.
Qed.

Lemma no_empieza_espacio_hora (hh s : string) :
  es_hora hh -> no_empieza Py.isspace (hh ++ s) = true.
Proof.
  intros Hh.
  destruct (es_hora_casos hh Hh) as [(c & -> & Hc)|(c & c2 & -> & Hc & _)];
    simpl; rewrite (digito_no_espacio c Hc); reflexivity.
Qed.

(** The pattern of the time block on a text of the shape
    [H:MM], blanks, [-], blanks, [H:MM], anything. *)
Lemma re_match_bloque (hh1 mm1 b1 b2 hh2 mm2 resto : string) :
  es_hora hh1 -> es_minutos mm1 -> es_hora hh2 -> es_minutos mm2 ->
  Py.todos Py.isspace b1 = true -> Py.todos Py.isspace b2 = true ->
  re_match RX_BLOQUE
    (hh1 ++ ":" ++ mm1 ++ b1 ++ "-" ++ b2 ++ hh2 ++ ":" ++ mm2 ++ resto)
  = Some (hh1 ++ ":" ++ mm1 ++ b1 ++ "-" ++ b2 ++ hh2 ++ ":" ++ mm2,
          [(2%nat, hh2 ++ ":" ++ mm2); (1%nat, hh1 ++ ":" ++ mm1)]).
Proof.
  intros Hh1 Hm1 Hh2 Hm2 Hb1 Hb2.
  apply re_match_primero with (s' := resto). unfold RX_BLOQUE.
  eapply primero_Cat';
    [apply primero_Grp; apply primero_hhmm; assumption| |].
  - eapply primero_Cat'; [apply primero_Star; [exact Hb1|reflexivity]| |].
    + eapply primero_Cat'; [apply primero_lit| |].
      * eapply primero_Cat';
          [apply primero_Star;
           [exact Hb2|apply no_empieza_espacio_hora; exact Hh2]| |].
        -- apply primero_Grp. apply primero_hhmm; assumption.
        -- reflexivity.
      * reflexivity.
    + reflexivity.
  - rewrite !app_assoc_s. reflexivity.
Qed.

(** On such a text the time block is what the constructor of [time]
    makes of the four numbers. *)
Lemma bloque_horario_forma (hh1 mm1 b1 b2 hh2 mm2 resto : string) :
  es_hora hh1 -> es_minutos mm1 -> es_hora hh2 -> es_minutos mm2 ->
  Py.todos Py.isspace b1 = true -> Py.todos Py.isspace b2 = true ->
  bloque_horario
    (hh1 ++ ":" ++ mm1 ++ b1 ++ "-" ++ b2 ++ hh2 ++ ":" ++ mm2 ++ resto)
  = (t_ini <- time_new (Py.valor hh1) (Py.valor mm1) ;;
     t_fin <- time_new (Py.valor hh2) (Py.valor mm2) ;;
     Ok (Some (t_ini, t_fin))).
Proof.
  intros Hh1 Hm1 Hh2 Hm2 Hb1 Hb2. unfold bloque_horario.
  rewrite (re_match_bloque _ _ _ _ _ _ resto Hh1 Hm1 Hh2 Hm2 Hb1 Hb2).
  unfold group. cbn [snd lookup Nat.eqb].
  rewrite (hhmm_to_time_digitos hh1 mm1 Hh1 Hm1).
  rewrite (hhmm_to_time_digitos hh2 mm2 Hh2 Hm2).
  reflexivity.
Qed.

Lemma time_new_ok (h mi : Z) :
  (0 <= h <= 23)%Z -> (0 <= mi <= 59)%Z ->
  time_new h mi = Ok (mk_time h mi 0).
Proof.
  intros Hh Hm. unfold time_new.
  rewrite !c_int_rango by lia. cbn [bind].
  replace ((0 <=? h)%Z && (h <=? 23)%Z)%bool with true
    by (symmetry; apply andb_true_iff; split; apply Z.leb_le; lia).
  replace ((0 <=? mi)%Z && (mi <=? 59)%Z)%bool with true
    by (symmetry; apply andb_true_iff; split; apply Z.leb_le; lia).
  reflexivity.
Qed.

(** The bounds are those of the numbers a C [int] holds. *)
Lemma time_new_hora (h mi : Z) :
  (23 < h <= 2147483647)%Z -> (-2147483648 <= mi <= 2147483647)%Z ->
  time_new h mi = Raise (ValueError "hour must be in 0..23").
Proof.
  intros Hh Hm. unfold time_new.
  rewrite !c_int_rango by lia. cbn [bind].
  replace (h <=? 23)%Z with false by (symmetry; apply Z.leb_gt; lia).
  rewrite andb_false_r. reflexivity.
Qed.

Lemma time_new_minuto (h mi : Z) :
  (0 <= h <= 23)%Z -> (59 < mi <= 2147483647)%Z ->
  time_new h mi = Raise (ValueError "minute must be in 0..59").
Proof.
  intros Hh Hm. unfold time_new.
  rewrite !c_int_rango by lia. cbn [bind].
  replace ((0 <=? h)%Z && (h <=? 23)%Z)%bool with true
    by (symmetry; apply andb_true_iff; split; apply Z.leb_le; lia).
  replace (mi <=? 59)%Z with false by (symmetry; apply Z.leb_gt; lia).
  rewrite andb_false_r. reflexivity.
Qed.

Lemma valor_no_negativo (s : string) :
  Py.todos Py.isdigit s = true -> (0 <= Py.valor s)%Z.
Proof. intros H. apply valor_desde_cota; [exact H|lia]. Qed.

Lemma es_hora_cota (s : string) : es_hora s -> (0 <= Py.valor s <= 99)%Z.
Proof.
  intros Hs.
  destruct (es_hora_casos s Hs) as [(c & -> & Hc)|(c & c2 & -> & Hc & Hc2)].
  - pose proof (digito_valor c Hc). unfold Py.valor.
    cbn [Py.valor_desde]. lia.
  - pose proof (digito_valor c Hc). pose proof (digito_valor c2 Hc2).
    unfold Py.valor. cbn [Py.valor_desde]. lia.
Qed.

Lemma es_minutos_cota (s : string) :
  es_minutos s -> (0 <= Py.valor s <= 99)%Z.
Proof.
  intros [Hd Hl]. apply es_hora_cota. split; [exact Hd|right; exact Hl].
Qed.

(** C5, as amended. On every text of the shape [H:MM - H:MM] ([H] one or
    two digits, [MM] two digits, any blanks around the dash, anything
    after), the time block is made of the four numbers as they stand,
    with zero seconds, whenever the hours are at most 23 and the minutes
    at most 59: no order between start and end is asked for, so equal
    times and spans across midnight are accepted.  The constructor of
    [time] does bound the numbers: an hour above 23 or a minute above 59
    makes the parser raise [ValueError]. *)
Theorem C5_bloque_horario (hh1 mm1 b1 b2 hh2 mm2 resto : string) :
  es_hora hh1 -> es_minutos mm1 -> es_hora hh2 -> es_minutos mm2 ->
  Py.todos Py.isspace b1 = true -> Py.todos Py.isspace b2 = true ->
  let bloque :=
    hh1 ++ ":" ++ mm1 ++ b1 ++ "-" ++ b2 ++ hh2 ++ ":" ++ mm2 ++ resto in
  let h1 := Py.valor hh1 in let m1 := Py.valor mm1 in
  let h2 := Py.valor hh2 in let m2 := Py.valor mm2 in
  ((h1 <= 23 -> m1 <= 59 -> h2 <= 23 -> m2 <= 59 ->
    bloque_horario bloque = Ok (Some (mk_time h1 m1 0, mk_time h2 m2 0)))
   /\ (23 < h1 ->
       bloque_horario bloque = Raise (ValueError "hour must be in 0..23"))
   /\ (h1 <= 23 -> 59 < m1 ->
       bloque_horario bloque = Raise (ValueError "minute must be in 0..59"))
   /\ (h1 <= 23 -> m1 <= 59 -> 23 < h2 ->
       bloque_horario bloque = Raise (ValueError "hour must be in 0..23"))
   /\ (h1 <= 23 -> m1 <= 59 -> h2 <= 23 -> 59 < m2 ->
       bloque_horario bloque = Raise (ValueError "minute must be in 0..59")))%Z.
Proof.
  intros Hh1 Hm1 Hh2 Hm2 Hb1 Hb2 bloque h1 m1 h2 m2.
  assert (Hforma := bloque_horario_forma _ _ _ _ _ _ resto
                      Hh1 Hm1 Hh2 Hm2 Hb1 Hb2).
  fold bloque h1 m1 h2 m2 in Hforma.
  assert (P1 : (0 <= h1 <= 99)%Z) by (apply es_hora_cota; exact Hh1).
  assert (P2 : (0 <= m1 <= 99)%Z) by (apply es_minutos_cota; exact Hm1).
  assert (P3 : (0 <= h2 <= 99)%Z) by (apply es_hora_cota; exact Hh2).
  assert (P4 : (0 <= m2 <= 99)%Z) by (apply es_minutos_cota; exact Hm2).
  rewrite Hforma. repeat split; intros.
  - rewrite !time_new_ok by lia. reflexivity.
  - rewrite time_new_hora by lia. reflexivity.
  - rewrite time_new_minuto by lia. reflexivity.
  - rewrite time_new_ok by lia. simpl. rewrite time_new_hora by lia.
    reflexivity.
  - rewrite time_new_ok by lia. simpl. rewrite time_new_minuto by lia.
    reflexivity.
Qed.

(** The amended statement on [23:30 - 0:15], a span across midnight. *)
Lemma C5_testigo :
  bloque_horario "23:30 - 0:15"
  = Ok (Some (mk_time 23 30 0, mk_time 0 15 0)).
Proof.
  destruct (C5_bloque_horario "23" "30" " " " " "0" "15" EmptyString)
    as (Hok & _).
  - split; [reflexivity|right; reflexivity].
  - split; reflexivity.
  - split; [reflexivity|left; reflexivity].
  - split; reflexivity.
  - reflexivity.
  - reflexivity.
  - apply Hok; vm_compute; discriminate.
Defined.

(** C5 as stated fails: [8:75 - 9:15] has the shape [H:MM - H:MM] with
    both hours below 24, and the parser raises on it; and the numbers are
    bounded, since an hour of 25 is refused too. *)
Lemma C5_contraejemplo :
  bloque_horario "8:75 - 9:15"
  = Raise (ValueError "minute must be in 0..59")
  /\ hhmm_to_time "25:00" = Raise (ValueError "hour must be in 0..23")
  /\ bloque_horario "25:00 - 26:00"
     = Raise (ValueError "hour must be in 0..23").
Proof. repeat split; vm_compute; reflexivity. Qed.

(** ** Cleaned texts *)


Lemma normal_sub_espacios (x : string) :
  forall b, normal b (sub_espacios b x) = true.
Proof.
  induction x as [|c x IH]; intros b; simpl; [reflexivity|].
  destruct (Py.isspace c) eqn:Hc.
  - destruct b; [apply IH|]. simpl. rewrite IH. reflexivity.
  - simpl. rewrite Hc. apply IH.
Qed.

Lemma normal_debil (s : string) (b : bool) :
  normal b s = true -> normal false s = true.
Proof.
  destruct s as [|c s]; simpl; [reflexivity|].
  destruct (Py.isspace c); [|intros H; exact H].
  intros H. apply andb_true_iff in H. destruct H as [H Hs].
  apply andb_true_iff in H. destruct H as [Hc _].
  rewrite Hc, Hs. reflexivity.
Qed.

Lemma normal_lstrip (s : string) :
  forall b, normal b s = true -> normal true (Py.lstrip s) = true.
Proof.
  induction s as [|c s IH]; intros b; simpl; [reflexivity|].
  destruct (Py.isspace c) eqn:Hc.
  - intros H. apply andb_true_iff in H. destruct H as [_ Hs].
    apply (IH true Hs).
  - intros H. simpl. rewrite Hc. exact H.
Qed.

Lemma limpio_no_vacio (s : string) :
  limpio_desde true s = true -> s <> EmptyString.
Proof. intros H ->. discriminate. Qed.

Lemma normal_rstrip (s : string) :
  forall b, normal b s = true ->
    Py.rstrip s = EmptyString \/ limpio_desde b (Py.rstrip s) = true.
Proof.
  induction s as [|c s IH]; intros b; [left; reflexivity|].
  cbn [normal Py.rstrip]. destruct (Py.isspace c) eqn:Hc.
  - intros H. apply andb_true_iff in H. destruct H as [H Hs].
    apply andb_true_iff in H. destruct H as [Hsp Hb].
    destruct (IH true Hs) as [Hr|Hr].
    + rewrite Hr. left. reflexivity.
    + right.
      destruct (Py.rstrip s) as [|c' r] eqn:Hrs; [discriminate|].
      cbn [Py.is_empty andb limpio_desde]. rewrite Hc, Hsp, Hb. exact Hr.
  - intros H. rewrite andb_false_r. right.
    cbn [limpio_desde]. rewrite Hc.
    destruct (IH false H) as [Hr|Hr]; [rewrite Hr; reflexivity|exact Hr].
Qed.

Section Limpieza.

Context {E : Externo}.

(** What [limpiar_texto] returns is empty or cleaned. *)
Lemma limpiar_texto_limpio (x : string) :
  limpiar_texto x = EmptyString \/ limpio_desde true (limpiar_texto x) = true.
Proof.
  unfold limpiar_texto, Py.strip.
  apply normal_rstrip. apply (normal_lstrip _ false).
  apply normal_sub_espacios.
Qed.

End Limpieza.

Lemma limpio_lstrip (s : string) :
  limpio_desde true s = true -> Py.lstrip s = s.
Proof.
  destruct s as [|c s]; simpl; [reflexivity|].
  destruct (Py.isspace c); [|reflexivity].
  rewrite andb_false_r. discriminate.
Qed.

Lemma limpio_rstrip (s : string) :
  forall b, limpio_desde b s = true -> Py.rstrip s = s.
Proof.
  induction s as [|c s IH]; intros b; [reflexivity|].
  cbn [limpio_desde Py.rstrip]. destruct (Py.isspace c) eqn:Hc.
  - intros H. apply andb_true_iff in H. destruct H as [_ Hs].
    rewrite (IH true Hs).
    destruct s; [discriminate|]. reflexivity.
  - intros H. rewrite (IH false H), andb_false_r. reflexivity.
Qed.

Lemma limpio_strip (s : string) :
  limpio_desde true s = true -> Py.strip s = s.
Proof.
  intros H. unfold Py.strip. rewrite (limpio_lstrip s H).
  apply (limpio_rstrip s true H).
Qed.

(** What precedes a space in a cleaned text is cleaned, and so is what
    follows it. *)
Lemma limpio_antes (antes resto : string) :
  forall b, limpio_desde b (antes ++ String " " resto) = true ->
    limpio_desde b antes = true.
Proof.
  induction antes as [|c antes IH]; intros b; cbn [append limpio_desde].
  - change (Py.isspace " ") with true. cbv iota.
    intros H. apply andb_true_iff in H. destruct H as [H _].
    apply andb_true_iff in H. destruct H as [_ Hb]. exact Hb.
  - destruct (Py.isspace c).
    + intros H. apply andb_true_iff in H. destruct H as [H Hs].
      rewrite H. apply (IH true Hs).
    + apply IH.
Qed.

Lemma limpio_despues (antes resto : string) :
  forall b, limpio_desde b (antes ++ String " " resto) = true ->
    limpio_desde true resto = true.
Proof.
  induction antes as [|c antes IH]; intros b; cbn [append limpio_desde].
  - change (Py.isspace " ") with true. cbv iota.
    intros H. apply andb_true_iff in H. apply H.
  - destruct (Py.isspace c).
    + intros H. apply andb_true_iff in H. destruct H as [_ Hs].
      apply (IH true Hs).
    + apply IH.
Qed.

Lemma espacio_o_no_salto (c : ascii) :
  Py.isspace c = false -> no_salto c = true.
Proof. por_caracter c. Qed.

Lemma limpio_sin_salto (s : string) :
  forall b, limpio_desde b s = true -> Py.todos no_salto s = true.
Proof.
  induction s as [|c s IH]; intros b; cbn [limpio_desde Py.todos];
    [reflexivity|].
  destruct (Py.isspace c) eqn:Hc.
  - intros H. apply andb_true_iff in H. destruct H as [H Hs].
    apply andb_true_iff in H. destruct H as [Hsp _].
    apply Ascii.eqb_eq in Hsp. subst c. rewrite (IH true Hs). reflexivity.
  - intros H. rewrite (espacio_o_no_salto c Hc), (IH false H). reflexivity.
Qed.

Lemma limpio_no_empieza (s : string) :
  limpio_desde true s = true -> no_empieza Py.isspace s = true.
Proof.
  destruct s as [|c s]; simpl; [reflexivity|].
  destruct (Py.isspace c); [|reflexivity].
  rewrite andb_false_r. discriminate.
Qed.

(** ** The first segment *)

Lemma prefix_drop (p s : string) :
  String.prefix p s = true -> s = p ++ Py.drop (String.length p) s.
Proof.
  revert s. induction p as [|a p IH]; intros s; [reflexivity|].
  destruct s as [|b s]; [discriminate|].
  simpl. destruct (ascii_dec a b) as [<-|]; [|discriminate].
  intros H. rewrite <- (IH s H). reflexivity.
Qed.

Lemma partition_partes (sep s antes despues : string) :
  Py.partition sep s = Some (antes, despues) ->
  s = antes ++ sep ++ despues.
Proof.
  revert antes despues. induction s as [|c s IH]; intros antes despues.
  - cbn [Py.partition]. destruct (String.prefix sep EmptyString) eqn:Hp;
      [|discriminate].
    intros [= <- <-]. apply (prefix_drop _ _ Hp).
  - cbn [Py.partition]. destruct (String.prefix sep (String c s)) eqn:Hp.
    + intros [= <- <-]. apply (prefix_drop _ _ Hp).
    + destruct (Py.partition sep s) as [[a d]|]; [|discriminate].
      intros [= <- <-]. simpl. rewrite <- (IH a d eq_refl). reflexivity.
Qed.

Lemma split_primero (sep s : string) :
  s <> EmptyString ->
  match Py.partition sep s with
  | Some (antes, _) => exists resto, Py.split sep s = antes :: resto
  | None => Py.split sep s = [s]
  end.
Proof.
  intros Hs. unfold Py.split. destruct s as [|c s]; [contradiction|].
  cbn [String.length Py.split_n].
  destruct (Py.partition sep (String c s)) as [[antes despues]|].
  - eexists. reflexivity.
  - reflexivity.
Qed.

(** In a cleaned text the first segment is itself cleaned: stripping it
    changes nothing and it is not empty, so the list of stripped,
    non-empty parts begins with it. *)
Lemma primer_segmento_limpio (c : string) :
  limpio_desde true c = true ->
  limpio_desde true (primer_segmento c) = true.
Proof.
  intros Hc. unfold primer_segmento.
  pose proof (split_primero " / " c (limpio_no_vacio c Hc)) as Hsp.
  destruct (Py.partition " / " c) as [[antes despues]|] eqn:Hp.
  - destruct Hsp as [resto ->]. simpl.
    apply partition_partes in Hp. rewrite Hp in Hc.
    apply (limpio_antes antes _ true Hc).
  - rewrite Hsp. exact Hc.
Qed.

Lemma partes_primer_segmento (c : string) :
  limpio_desde true c = true ->
  match filter (fun x => negb (Py.is_empty x))
               (map Py.strip (Py.split " / " c)) with
  | p :: _ => p
  | [] => c
  end = primer_segmento c.
Proof.
  intros Hc. pose proof (primer_segmento_limpio c Hc) as Hseg.
  unfold primer_segmento in *.
  destruct (Py.split " / " c) as [|s0 resto]; [discriminate|].
  simpl in Hseg. simpl. rewrite (limpio_strip s0 Hseg).
  destruct s0; [discriminate|]. reflexivity.
Qed.

(** ** Title and description in the two strategies *)

Lemma digito_no_s (a : ascii) :
  Py.isdigit a = true -> Ascii.eqb (Py.lower_char a) "s" = false.
Proof. por_caracter a. Qed.

Lemma sin_clases_digito (a : ascii) (s : string) :
  Py.isdigit a = true -> sin_clases (String a s) = false.
Proof.
  intros Ha. unfold sin_clases, Py.startswith. cbn [Py.is_empty Py.lower orb].
  change (String.prefix "sin clases" (String (Py.lower_char a) (Py.lower s)))
    with (if ascii_dec "s" (Py.lower_char a)
          then String.prefix "in clases" (Py.lower s) else false).
  destruct (ascii_dec "s" (Py.lower_char a)) as [Heq|_]; [|reflexivity].
  pose proof (digito_no_s a Ha) as Hs. rewrite <- Heq in Hs. discriminate.
Qed.

Lemma sin_clases_hora (hh s : string) :
  es_hora hh -> sin_clases (hh ++ s) = false.
Proof.
  intros Hh.
  destruct (es_hora_casos hh Hh) as [(c & -> & Hc)|(c & c2 & -> & Hc & _)];
    apply sin_clases_digito; exact Hc.
Qed.

(** The pattern of a mobile item on a text of the shape: time block, one
    space, cleaned content. *)
Lemma re_match_item (hh1 mm1 b1 b2 hh2 mm2 c : string) :
  es_hora hh1 -> es_minutos mm1 -> es_hora hh2 -> es_minutos mm2 ->
  Py.todos Py.isspace b1 = true -> Py.todos Py.isspace b2 = true ->
  limpio_desde true c = true ->
  exists todo,
    re_match RX_ITEM
      (hh1 ++ ":" ++ mm1 ++ b1 ++ "-" ++ b2 ++ hh2 ++ ":" ++ mm2 ++ " " ++ c)
    = Some (todo,
            [(3%nat, c); (2%nat, hh2 ++ ":" ++ mm2);
             (1%nat, hh1 ++ ":" ++ mm1)]).
Proof.
  intros Hh1 Hm1 Hh2 Hm2 Hb1 Hb2 Hc.
  eexists. apply re_match_primero with (s' := EmptyString). unfold RX_ITEM.
  eapply primero_Cat';
    [apply primero_Grp; apply primero_hhmm; assumption| |reflexivity].
  eapply primero_Cat';
    [apply primero_Star; [exact Hb1|reflexivity]| |reflexivity].
  eapply primero_Cat'; [apply primero_lit| |reflexivity].
  eapply primero_Cat';
    [apply primero_Star; [exact Hb2|apply no_empieza_espacio_hora; exact Hh2]
    | |reflexivity].
  eapply primero_Cat';
    [apply primero_Grp; apply primero_hhmm; assumption| |reflexivity].
  eapply primero_Cat';
    [apply (primero_Plus Py.isspace " " EmptyString c);
     [reflexivity|reflexivity|apply limpio_no_empieza; exact Hc]
    | |reflexivity].
  apply primero_Grp.
  destruct c as [|a w]; [discriminate|].
  pose proof (limpio_sin_salto _ _ Hc) as Hdot.
  cbn [Py.todos] in Hdot. apply andb_true_iff in Hdot. destruct Hdot as [Ha Hw].
  pose proof (primero_Plus no_salto a w EmptyString
                (last_char
                   (last_char
                      (last_char
                         (last_char
                            (last_char (last_char None (hh1 ++ ":" ++ mm1)) b1)
                            "-") b2) (hh2 ++ ":" ++ mm2)) " ")
                [(2%nat, hh2 ++ ":" ++ mm2); (1%nat, hh1 ++ ":" ++ mm1)]
                Ha Hw eq_refl) as Hp.
  rewrite app_nil_r_s in Hp. exact Hp.
Qed.

Section TituloDescripcion.

Context {E : Externo}.

Lemma limpiar_texto_no_sin_clases (x : string) :
  sin_clases (limpiar_texto x) = false ->
  limpio_desde true (limpiar_texto x) = true.
Proof.
  intros Hs. destruct (limpiar_texto_limpio x) as [H0|H]; [|exact H].
  rewrite H0 in Hs. discriminate.
Qed.

Lemma celda_evento anio mes headers_dias fechas t_ini t_fin idx td f :
  sin_clases (limpiar_texto (get_text_sep " " td)) = false ->
  fecha_de_celda anio mes headers_dias fechas idx = Ok (Some f) ->
  celda anio mes headers_dias fechas t_ini t_fin idx td
  = Ok [(f, t_ini, t_fin,
         primer_segmento (limpiar_texto (get_text_sep " " td)),
         limpiar_texto (get_text_sep " " td))].
Proof.
  intros Hs Hf. unfold celda. rewrite Hs, Hf. cbn [bind].
  rewrite (partes_primer_segmento _ (limpiar_texto_no_sin_clases _ Hs)).
  reflexivity.
Qed.

Lemma item_evento f item hh1 mm1 b1 b2 hh2 mm2 c :
  es_hora hh1 -> es_minutos mm1 -> es_hora hh2 -> es_minutos mm2 ->
  Py.todos Py.isspace b1 = true -> Py.todos Py.isspace b2 = true ->
  limpiar_texto (get_text_sep " " item)
  = (hh1 ++ ":" ++ mm1 ++ b1 ++ "-" ++ b2 ++ hh2 ++ ":" ++ mm2) ++ " " ++ c ->
  item_movil f item
  = (t_ini <- time_new (Py.valor hh1) (Py.valor mm1) ;;
     t_fin <- time_new (Py.valor hh2) (Py.valor mm2) ;;
     Ok [(f, t_ini, t_fin, primer_segmento c, c)]).
Proof.
  intros Hh1 Hm1 Hh2 Hm2 Hb1 Hb2 Htxt. unfold item_movil.
  assert (Hlimpio : limpio_desde true (limpiar_texto (get_text_sep " " item))
                    = true).
  { apply limpiar_texto_no_sin_clases. rewrite Htxt, app_assoc_s.
    apply sin_clases_hora. exact Hh1. }
  assert (Hc : limpio_desde true c = true).
  { rewrite Htxt in Hlimpio. apply (limpio_despues _ _ _ Hlimpio). }
  rewrite Htxt. rewrite !app_assoc_s.
  rewrite (sin_clases_hora hh1 _ Hh1).
  destruct (re_match_item _ _ _ _ _ _ c Hh1 Hm1 Hh2 Hm2 Hb1 Hb2 Hc)
    as [todo Hm].
  rewrite Hm.
  unfold group. cbn [snd lookup Nat.eqb].
  rewrite (hhmm_to_time_digitos hh1 mm1 Hh1 Hm1).
  rewrite (hhmm_to_time_digitos hh2 mm2 Hh2 Hm2).
  rewrite (limpio_strip c Hc). reflexivity.
Qed.

(** C8, as amended. Both strategies clean their texts with the one
    function [limpiar_texto].  For a content the desktop strategy keeps
    (cleaned, not empty, not beginning with [sin clases]), the desktop
    strategy gives the event the title that is the content's first segment
    delimited by [" / "] (a slash between two spaces; a slash alone does not
    delimit) and the whole content as description; and a mobile item whose
    cleaned text is a time block, one space and that content gives the
    same title and the same description.  With the same date and times
    the two events are equal, and so are their deduplication keys. *)
Theorem C8_titulo_y_descripcion (anio mes : Z) (headers_dias : list string)
  (fechas : list (option date)) (idx : nat) (td item : tag) (f : date)
  (t_ini t_fin : dtime) (hh1 mm1 b1 b2 hh2 mm2 : string) :
  let c := limpiar_texto (get_text_sep " " td) in
  sin_clases c = false ->
  fecha_de_celda anio mes headers_dias fechas idx = Ok (Some f) ->
  es_hora hh1 -> es_minutos mm1 -> es_hora hh2 -> es_minutos mm2 ->
  Py.todos Py.isspace b1 = true -> Py.todos Py.isspace b2 = true ->
  time_new (Py.valor hh1) (Py.valor mm1) = Ok t_ini ->
  time_new (Py.valor hh2) (Py.valor mm2) = Ok t_fin ->
  limpiar_texto (get_text_sep " " item)
  = (hh1 ++ ":" ++ mm1 ++ b1 ++ "-" ++ b2 ++ hh2 ++ ":" ++ mm2) ++ " " ++ c ->
  let ev := (f, t_ini, t_fin, primer_segmento c, c) in
  celda anio mes headers_dias fechas t_ini t_fin idx td = Ok [ev]
  /\ item_movil f item = Ok [ev]
  /\ forall ev1 ev2,
       celda anio mes headers_dias fechas t_ini t_fin idx td = Ok [ev1] ->
       item_movil f item = Ok [ev2] ->
       key ev1 = key ev2.
Proof.
  intros c Hs Hf Hh1 Hm1 Hh2 Hm2 Hb1 Hb2 Ht1 Ht2 Htxt ev.
  assert (Hcelda := celda_evento anio mes headers_dias fechas t_ini t_fin
                      idx td f Hs Hf).
  assert (Hitem := item_evento f item _ _ _ _ _ _ c Hh1 Hm1 Hh2 Hm2 Hb1 Hb2
                     Htxt).
  rewrite Ht1, Ht2 in Hitem. cbn [bind] in Hitem.
  fold c in Hcelda. fold ev in Hcelda, Hitem.
  split; [exact Hcelda|]. split; [exact Hitem|].
  intros ev1 ev2 H1 H2. rewrite Hcelda in H1. rewrite Hitem in H2.
  injection H1 as <-. injection H2 as <-. reflexivity.
Qed.

End TituloDescripcion.

(** The amended statement on the content of the specification's example,
    as a desktop cell and as a mobile item. *)
Lemma C8_testigo :
  let f := mk_date 2025 8 4 in
  celda (E := externo_de_ejemplo) 2025 8 ["Lunes 04"] [Some f]
        (mk_time 8 0 0) (mk_time 9 30 0) 0
        ["Calculo I / Sala 301 - Prof. Perez"]
  = Ok [evento_de_ejemplo]
  /\ item_movil (E := externo_de_ejemplo) f
       ["08:00 - 09:30"; "Calculo I / Sala 301 - Prof. Perez"]
     = Ok [evento_de_ejemplo].
Proof.
  intros f.
  destruct (C8_titulo_y_descripcion (E := externo_de_ejemplo)
              2025 8 ["Lunes 04"] [Some f] 0
              ["Calculo I / Sala 301 - Prof. Perez"]
              ["08:00 - 09:30"; "Calculo I / Sala 301 - Prof. Perez"]
              f (mk_time 8 0 0) (mk_time 9 30 0)
              "08" "00" " " " " "09" "30")
    as (Hc & Hi & _).
  - vm_compute. reflexivity.
  - reflexivity.
  - split; [reflexivity|right; reflexivity].
  - split; reflexivity.
  - split; [reflexivity|right; reflexivity].
  - split; reflexivity.
  - reflexivity.
  - reflexivity.
  - reflexivity.
  - reflexivity.
  - vm_compute. reflexivity.
  - split; [rewrite Hc|rewrite Hi]; vm_compute; reflexivity.
Defined.

(** C8 as stated fails.  The title is not the first segment delimited by
    a slash: for [Algebra/Calculo / Sala 2] it is [Algebra/Calculo], not
    [Algebra].  And the two strategies differ on a content that begins
    with [sin clases]: the desktop cell yields no event, the mobile item
    one. *)
Lemma C8_contraejemplo :
  let f := mk_date 2025 8 4 in
  let t_ini := mk_time 8 0 0 in
  let t_fin := mk_time 9 30 0 in
  celda (E := externo_de_ejemplo) 2025 8 ["Lunes 04"] [Some f] t_ini t_fin 0
        ["Algebra/Calculo / Sala 2"]
  = Ok [(f, t_ini, t_fin, "Algebra/Calculo", "Algebra/Calculo / Sala 2")]
  /\ primer_segmento_barra "Algebra/Calculo / Sala 2" = "Algebra"
  /\ celda (E := externo_de_ejemplo) 2025 8 ["Lunes 04"] [Some f] t_ini t_fin 0
           ["Sin clases por feriado"]
     = Ok []
  /\ item_movil (E := externo_de_ejemplo) f
       ["08:00 - 09:30"; "Sin clases por feriado"]
     = Ok [(f, t_ini, t_fin, "Sin clases por feriado",
            "Sin clases por feriado")].
Proof. repeat split; vm_compute; reflexivity. Qed.

(** ** Cells and items that yield no event *)

Lemma bind_ok_nil {A : Type} (x : result (list A)) :
  (evs' <- x ;; Ok ([] ++ evs')%list) = x.
Proof. destruct x; reflexivity. Qed.

Lemma dia_de_header_vacio : dia_de_header EmptyString = None.
Proof. reflexivity. Qed.

(** The column dates agree with the headers: a column without date has a
    header in which no day is found. *)
Lemma mapear_fechas_sin_dia (anio mes : Z) (headers_dias : list string)
  (fechas : list (option date)) :
  mapear_fechas anio mes headers_dias = Ok fechas ->
  forall idx,
    (forall f, nth_error fechas idx <> Some (Some f)) ->
    dia_de_header (nth idx headers_dias EmptyString) = None.
Proof.
  revert fechas. induction headers_dias as [|h hs IH]; intros fechas Hmap idx Hno.
  - destruct idx; apply dia_de_header_vacio.
  - simpl in Hmap.
    destruct (dia_de_header h) as [g|] eqn:Hg.
    + destruct (Py.int g) as [n|e]; simpl in Hmap; [|discriminate].
      destruct (date_new anio mes n) as [f|e]; simpl in Hmap; [|discriminate].
      destruct (mapear_fechas anio mes hs) as [fs|e] eqn:Hfs; simpl in Hmap;
        [|discriminate].
      injection Hmap as <-.
      destruct idx as [|idx]; simpl in *.
      * exfalso. apply (Hno f). reflexivity.
      * apply (IH fs eq_refl idx Hno).
    + destruct (mapear_fechas anio mes hs) as [fs|e] eqn:Hfs; simpl in Hmap;
        [|discriminate].
      injection Hmap as <-.
      destruct idx as [|idx]; simpl in *.
      * exact Hg.
      * apply (IH fs eq_refl idx Hno).
Qed.

Section SinEvento.

Context {E : Externo}.



Lemma fecha_de_celda_sin_fecha anio mes headers_dias fechas idx :
  mapear_fechas anio mes headers_dias = Ok fechas ->
  (forall f, nth_error fechas idx <> Some (Some f)) ->
  fecha_de_celda anio mes headers_dias fechas idx = Ok None.
Proof.
  intros Hmap Hno. unfold fecha_de_celda.
  rewrite (mapear_fechas_sin_dia _ _ _ _ Hmap idx Hno).
  destruct (nth_error fechas idx) as [[f|]|] eqn:Hn; try reflexivity.
  exfalso. apply (Hno f). reflexivity.
Qed.

Lemma celda_sin_fecha anio mes headers_dias fechas t_ini t_fin idx td :
  mapear_fechas anio mes headers_dias = Ok fechas ->
  (forall f, nth_error fechas idx <> Some (Some f)) ->
  celda anio mes headers_dias fechas t_ini t_fin idx td = Ok [].
Proof.
  intros Hmap Hno. unfold celda.
  destruct (sin_clases _); [reflexivity|].
  rewrite (fecha_de_celda_sin_fecha _ _ _ _ _ Hmap Hno). reflexivity.
Qed.











End SinEvento.



(** ** All the matches of a pattern *)

Lemma in_m_Chr p prev s g h :
  In h (m (Chr p) prev s g) ->
  exists a s', s = String a s' /\ p a = true
               /\ h = (String a EmptyString, s', g).
Proof.
  cbn [m]. destruct s as [|a s']; [intros []|].
  destruct (p a) eqn:Hp; [|intros []].
  intros [<-|[]]. exists a, s'. auto.
Qed.

Lemma in_m_Cat r1 r2 prev s g h :
  In h (m (Cat r1 r2) prev s g) ->
  exists c1 s1 g1 c2 s2 g2,
    In (c1, s1, g1) (m r1 prev s g)
    /\ In (c2, s2, g2) (m r2 (last_char prev c1) s1 g1)
    /\ h = (c1 ++ c2, s2, g2).
Proof.
  cbn [m]. intros H. apply in_flat_map in H.
  destruct H as ([[c1 s1] g1] & H1 & H2).
  apply in_map_iff in H2. destruct H2 as ([[c2 s2] g2] & <- & H2).
  exists c1, s1, g1, c2, s2, g2. auto.
Qed.

Lemma in_m_Opt r prev s g h :
  In h (m (Opt r) prev s g) ->
  In h (m r prev s g) \/ h = (EmptyString, s, g).
Proof.
  cbn [m]. intros H. apply in_app_or in H.
  destruct H as [H|[<-|[]]]; auto.
Qed.

Lemma in_m_Grp i r prev s g h :
  In h (m (Grp i r) prev s g) ->
  exists c s' g', In (c, s', g') (m r prev s g) /\ h = (c, s', (i, c) :: g').
Proof.
  cbn [m]. intros H. apply in_map_iff in H.
  destruct H as ([[c s'] g'] & <- & H). exists c, s', g'. auto.
Qed.

Lemma in_repetir_clase p n :
  forall prev s g h,
    In h (repetir (m (Chr p)) n prev s g) ->
    exists w s', h = (w, s', g) /\ Py.todos p w = true.
Proof.
  induction n as [|n IH]; intros prev s g h; cbn [repetir].
  - intros [<-|[]]. exists EmptyString, s. auto.
  - intros H. apply in_app_or in H. destruct H as [H|[<-|[]]].
    + apply in_flat_map in H. destruct H as ([[c1 s1] g1] & H1 & H2).
      apply in_m_Chr in H1. destruct H1 as (a & s' & -> & Hp & [= -> -> ->]).
      cbn [Py.is_empty] in H2. apply in_map_iff in H2.
      destruct H2 as (h2 & <- & H2).
      destruct (IH _ _ _ _ H2) as (w & s2 & -> & Hw).
      exists (String a w), s2. simpl. rewrite Hp, Hw. auto.
    + exists EmptyString, s. auto.
Qed.

(** Patterns without groups leave the groups as they are; those below
    consume a run of their class. *)
Lemma in_m_Star_clase p prev s g c s' g' :
  In (c, s', g') (m (Star (Chr p)) prev s g) ->
  g' = g /\ Py.todos p c = true.
Proof.
  cbn [m]. intros H. apply in_repetir_clase in H.
  destruct H as (w & s2 & [= -> -> ->] & Hw). auto.
Qed.

Lemma in_m_Plus_clase p prev s g c s' g' :
  In (c, s', g') (m (Plus (Chr p)) prev s g) ->
  g' = g /\ Py.todos p c = true /\ c <> EmptyString.
Proof.
  unfold Plus. intros H. apply in_m_Cat in H.
  destruct H as (c1 & s1 & g1 & c2 & s2 & g2 & H1 & H2 & [= -> -> ->]).
  apply in_m_Chr in H1. destruct H1 as (a & s0 & -> & Hp & [= -> -> ->]).
  apply in_m_Star_clase in H2. destruct H2 as [-> Hw].
  simpl. rewrite Hp, Hw. repeat split. discriminate.
Qed.

Lemma in_m_d12 prev s g c s' g' :
  In (c, s', g') (m d12 prev s g) ->
  g' = g /\ Py.todos Py.isdigit c = true /\ c <> EmptyString.
Proof.
  unfold d12, d. intros H. apply in_m_Cat in H.
  destruct H as (c1 & s1 & g1 & c2 & s2 & g2 & H1 & H2 & [= -> -> ->]).
  apply in_m_Chr in H1. destruct H1 as (a & s0 & -> & Hp & [= -> -> ->]).
  apply in_m_Opt in H2. destruct H2 as [H2|[= -> -> ->]].
  - apply in_m_Chr in H2. destruct H2 as (b & s3 & -> & Hq & [= -> -> ->]).
    simpl. rewrite Hp, Hq. repeat split. discriminate.
  - simpl. rewrite Hp. repeat split. discriminate.
Qed.

Lemma in_m_d4 prev s g c s' g' :
  In (c, s', g') (m d4 prev s g) ->
  g' = g /\ Py.todos Py.isdigit c = true /\ c <> EmptyString.
Proof.
  unfold d4, d. intros H.
  apply in_m_Cat in H.
  destruct H as (c1 & s1 & g1 & c2 & s2 & g2 & H1 & H & [= -> -> ->]).
  apply in_m_Chr in H1. destruct H1 as (a1 & z1 & -> & Hp1 & [= -> -> ->]).
  apply in_m_Cat in H.
  destruct H as (c1 & s1 & g1 & c3 & s3 & g3 & H1 & H & [= -> -> ->]).
  apply in_m_Chr in H1. destruct H1 as (a2 & z2 & -> & Hp2 & [= -> -> ->]).
  apply in_m_Cat in H.
  destruct H as (c1 & s1 & g1 & c4 & s4 & g4 & H1 & H & [= -> -> ->]).
  apply in_m_Chr in H1. destruct H1 as (a3 & z3 & -> & Hp3 & [= -> -> ->]).
  apply in_m_Chr in H. destruct H as (a4 & z4 & -> & Hp4 & [= -> -> ->]).
  simpl. rewrite Hp1, Hp2, Hp3, Hp4. repeat split. discriminate.
Qed.

Lemma in_m_lit a prev s g c s' g' :
  In (c, s', g') (m (lit a) prev s g) -> g' = g.
Proof.
  unfold lit. intros H. apply in_m_Chr in H.
  destruct H as (b & s0 & -> & _ & [= -> -> ->]). reflexivity.
Qed.

(** What [re.search] returns is a match of the pattern somewhere. *)
Lemma search_from_in r s :
  forall prev mt,
    search_from r prev s = Some mt ->
    exists prev' s0 s', In (fst mt, s', snd mt) (m r prev' s0 []).
Proof.
  induction s as [|a s IH]; intros prev mt; cbn [search_from].
  - destruct (m r prev EmptyString []) as [|[[c s'] g] l] eqn:Hm;
      cbn [first_hit]; [discriminate|].
    intros [= <-]. exists prev, EmptyString, s'. rewrite Hm. left. reflexivity.
  - destruct (m r prev (String a s) []) as [|[[c s'] g] l] eqn:Hm;
      cbn [first_hit].
    + apply IH.
    + intros [= <-]. exists prev, (String a s), s'. rewrite Hm.
      left. reflexivity.
Qed.

(** ** The range label *)

(** Every match of the range pattern has its four groups: two runs of
    digits, a token of the month, and a run of digits. *)
Lemma in_m_RX_RANGO prev s c s' g :
  In (c, s', g) (m RX_RANGO prev s []) ->
  exists k1 k2 k3 k4,
    g = [(4%nat, k4); (3%nat, k3); (2%nat, k2); (1%nat, k1)]
    /\ (Py.todos Py.isdigit k1 = true /\ k1 <> EmptyString)
    /\ (Py.todos Py.isdigit k2 = true /\ k2 <> EmptyString)
    /\ es_token_mes k3
    /\ (Py.todos Py.isdigit k4 = true /\ k4 <> EmptyString).
Proof.
  unfold RX_RANGO. intros H.
  apply in_m_Cat in H.
  destruct H as (a1 & t1 & h1 & a2 & t2 & h2 & H1 & H & [= -> -> ->]).
  apply in_m_Grp in H1. destruct H1 as (k1 & u1 & v1 & H1 & [= -> -> ->]).
  apply in_m_d12 in H1. destruct H1 as (-> & Hk1).
  apply in_m_Cat in H.
  destruct H as (a3 & t3 & h3 & a4 & t4 & h4 & H2 & H & [= -> -> ->]).
  apply in_m_Star_clase in H2. destruct H2 as [-> _].
  apply in_m_Cat in H.
  destruct H as (a5 & t5 & h5 & a6 & t6 & h6 & H2 & H & [= -> -> ->]).
  apply in_m_lit in H2. subst h5.
  apply in_m_Cat in H.
  destruct H as (a7 & t7 & h7 & a8 & t8 & h8 & H2 & H & [= -> -> ->]).
  apply in_m_Star_clase in H2. destruct H2 as [-> _].
  apply in_m_Cat in H.
  destruct H as (a9 & t9 & h9 & b1 & w1 & j1 & H2 & H & [= -> -> ->]).
  apply in_m_Grp in H2. destruct H2 as (k2 & u2 & v2 & H2 & [= -> -> ->]).
  apply in_m_d12 in H2. destruct H2 as (-> & Hk2).
  apply in_m_Cat in H.
  destruct H as (b2 & w2 & j2 & b3 & w3 & j3 & H3 & H & [= -> -> ->]).
  apply in_m_Plus_clase in H3. destruct H3 as (-> & _).
  apply in_m_Cat in H.
  destruct H as (b4 & w4 & j4 & b5 & w5 & j5 & H3 & H & [= -> -> ->]).
  apply in_m_Grp in H3. destruct H3 as (k3 & u3 & v3 & H3 & [= -> -> ->]).
  apply in_m_Plus_clase in H3. destruct H3 as (-> & Hk3).
  apply in_m_Cat in H.
  destruct H as (b6 & w6 & j6 & b7 & w7 & j7 & H4 & H & [= -> -> ->]).
  assert (Hg : j6 = [(3%nat, k3); (2%nat, k2); (1%nat, k1)]).
  { apply in_m_Opt in H4. destruct H4 as [H4|[= _ _ ->]]; [|reflexivity].
    apply in_m_lit in H4. exact H4. }
  subst j6.
  apply in_m_Cat in H.
  destruct H as (b8 & w8 & j8 & b9 & w9 & j9 & H5 & H & [= -> -> ->]).
  apply in_m_Plus_clase in H5. destruct H5 as (-> & _).
  apply in_m_Grp in H. destruct H as (k4 & u4 & v4 & H & [= -> -> ->]).
  apply in_m_d4 in H. destruct H as (-> & Hk4).
  exists k1, k2, k3, k4. repeat split; tauto.
Qed.

Lemma MESES_rango (k : string) (mes : Z) :
  dict_get k MESES = Some mes -> (1 <= mes <= 12)%Z.
Proof.
  unfold MESES. cbn [dict_get].
  repeat (match goal with
          | |- context [String.eqb k ?x] => destruct (String.eqb k x)
          end; [intros [= <-]; lia|]).
  discriminate.
Qed.

(** The result of the resolver is settled by the search and the table. *)
Lemma parse_fecha_rango_sin_rango (label : string) :
  re_search RX_RANGO (Py.lower (Py.strip label)) = None ->
  parse_fecha_rango label
  = Raise (ValueError ("No pude leer el rango de fechas desde: " ++ label)).
Proof. intros H. unfold parse_fecha_rango. rewrite H. reflexivity. Qed.

Lemma parse_fecha_rango_mes_desconocido (label : string) (mt : Match) :
  re_search RX_RANGO (Py.lower (Py.strip label)) = Some mt ->
  dict_get (Py.replace "." EmptyString (group 3 mt)) MESES = None ->
  parse_fecha_rango label
  = Raise (ValueError ("Mes no reconocido: "
                       ++ Py.replace "." EmptyString (group 3 mt))).
Proof.
  intros H Hm. unfold parse_fecha_rango. rewrite H, Hm. reflexivity.
Qed.

Lemma parse_fecha_rango_mes (label : string) (mt : Match) (mes : Z) :
  re_search RX_RANGO (Py.lower (Py.strip label)) = Some mt ->
  dict_get (Py.replace "." EmptyString (group 3 mt)) MESES = Some mes ->
  parse_fecha_rango label
  = Ok (Py.valor (group 1 mt), Py.valor (group 2 mt), mes,
        Py.valor (group 4 mt)).
Proof.
  intros H Hm. unfold parse_fecha_rango. rewrite H, Hm.
  unfold re_search in H. apply search_from_in in H.
  destruct H as (prev & s0 & s' & Hin).
  apply in_m_RX_RANGO in Hin.
  destruct Hin as (k1 & k2 & k3 & k4 & Hg & [H1 N1] & [H2 N2] & _ & [H4 N4]).
  unfold group. rewrite Hg. cbn [lookup Nat.eqb].
  rewrite (int_digitos k1 H1 N1), (int_digitos k2 H2 N2),
    (int_digitos k4 H4 N4).
  reflexivity.
Qed.

(** ** Labels of the expected shape *)

Lemma no_empieza_clase (p q : ascii -> bool) (w s : string) :
  (forall c, q c = true -> p c = false) ->
  Py.todos q w = true -> w <> EmptyString ->
  no_empieza p (w ++ s) = true.
Proof.
  intros Hpq Hw Hne. destruct w as [|a w]; [contradiction|].
  cbn [Py.todos] in Hw. apply andb_true_iff in Hw. destruct Hw as [Ha _].
  simpl. rewrite (Hpq a Ha). reflexivity.
Qed.

Lemma espacio_no_digito (c : ascii) :
  Py.isspace c = true -> Py.isdigit c = false.
Proof. por_caracter c. Qed.

Lemma espacio_no_mes (c : ascii) :
  Py.isspace c = true -> cls_mes c = false.
Proof. por_caracter c. Qed.

Lemma espacio_no_punto (c : ascii) :
  Py.isspace c = true -> Ascii.eqb "." c = false.
Proof. por_caracter c. Qed.

Lemma mes_no_espacio (c : ascii) :
  cls_mes c = true -> Py.isspace c = false.
Proof. por_caracter c. Qed.

Lemma no_empieza_blancos (p : ascii -> bool) (b s : string) :
  (forall c, Py.isspace c = true -> p c = false) ->
  Py.todos Py.isspace b = true -> no_empieza p s = true ->
  no_empieza p (b ++ s) = true.
Proof.
  intros Hp Hb Hs. destruct b as [|a b]; [exact Hs|].
  apply (no_empieza_clase p Py.isspace); [exact Hp|exact Hb|discriminate].
Qed.

Lemma primero_Plus' p w s prev g :
  Py.todos p w = true -> w <> EmptyString -> no_empieza p s = true ->
  primero (Plus (Chr p)) prev (w ++ s) g = Some (w, s, g).
Proof.
  intros Hw Hne Hs. destruct w as [|a w]; [contradiction|].
  cbn [Py.todos] in Hw. apply andb_true_iff in Hw. destruct Hw as [Ha Hw].
  apply primero_Plus; assumption.
Qed.

Lemma primero_d4 prev w s g :
  es_anio w -> primero d4 prev (w ++ s) g = Some (w, s, g).
Proof.
  intros [Hd Hl].
  destruct w as [|c1 [|c2 [|c3 [|c4 [|c5 w]]]]]; try discriminate.
  cbn [Py.todos] in Hd. rewrite andb_true_r in Hd.
  apply andb_true_iff in Hd. destruct Hd as [H1 Hd].
  apply andb_true_iff in Hd. destruct Hd as [H2 Hd].
  apply andb_true_iff in Hd. destruct Hd as [H3 H4].
  unfold d4.
  eapply primero_Cat'; [apply primero_Chr; exact H1| |reflexivity].
  eapply primero_Cat'; [apply primero_Chr; exact H2| |reflexivity].
  eapply primero_Cat'; [apply primero_Chr; exact H3| |reflexivity].
  apply primero_Chr. exact H4.
Qed.

Lemma no_empieza_digitos (p : ascii -> bool) (w s : string) :
  (forall c, Py.isdigit c = true -> p c = false) ->
  Py.todos Py.isdigit w = true -> w <> EmptyString ->
  no_empieza p (w ++ s) = true.
Proof. apply no_empieza_clase. Qed.

(** The range pattern on a text that begins with: day, blanks, dash,
    blanks, day, blanks, token of the month, blanks, year. *)
Lemma re_search_rango (d1 b1 b2 d2 b3 tok b4 anio resto : string) :
  es_dia d1 -> Py.todos Py.isspace b1 = true ->
  Py.todos Py.isspace b2 = true -> es_dia d2 ->
  Py.todos Py.isspace b3 = true -> b3 <> EmptyString ->
  es_token_mes tok ->
  Py.todos Py.isspace b4 = true -> b4 <> EmptyString ->
  es_anio anio ->
  re_search RX_RANGO
    (d1 ++ b1 ++ "-" ++ b2 ++ d2 ++ b3 ++ tok ++ b4 ++ anio ++ resto)
  = Some (d1 ++ b1 ++ "-" ++ b2 ++ d2 ++ b3 ++ tok ++ b4 ++ anio,
          [(4%nat, anio); (3%nat, tok); (2%nat, d2); (1%nat, d1)]).
Proof.
  intros Hd1 Hb1 Hb2 Hd2 Hb3 Nb3 [Htok Ntok] Hb4 Nb4 Hanio.
  assert (Nd2 : d2 <> EmptyString)
    by (intros ->; destruct Hd2 as [_ [H|H]]; discriminate).
  assert (Nanio : anio <> EmptyString)
    by (intros ->; destruct Hanio as [_ H]; discriminate).
  apply re_search_primero with (s' := resto). unfold RX_RANGO.
  eapply primero_Cat'.
  { apply primero_Grp. apply primero_d12; [exact Hd1|].
    apply no_empieza_blancos;
      [exact espacio_no_digito|exact Hb1|reflexivity]. }
  2: reflexivity.
  eapply primero_Cat';
    [apply primero_Star; [exact Hb1|reflexivity]| |reflexivity].
  eapply primero_Cat'; [apply primero_lit| |reflexivity].
  eapply primero_Cat'.
  { apply primero_Star; [exact Hb2|].
    apply no_empieza_espacio_hora. exact Hd2. }
  2: reflexivity.
  eapply primero_Cat'.
  { apply primero_Grp. apply primero_d12; [exact Hd2|].
    apply (no_empieza_clase _ Py.isspace);
      [exact espacio_no_digito|exact Hb3|exact Nb3]. }
  2: reflexivity.
  eapply primero_Cat'.
  { apply primero_Plus'; [exact Hb3|exact Nb3|].
    apply (no_empieza_clase _ cls_mes);
      [exact mes_no_espacio|exact Htok|exact Ntok]. }
  2: reflexivity.
  eapply primero_Cat'.
  { apply primero_Grp. apply primero_Plus'; [exact Htok|exact Ntok|].
    apply (no_empieza_clase _ Py.isspace);
      [exact espacio_no_mes|exact Hb4|exact Nb4]. }
  2: reflexivity.
  eapply primero_Cat'.
  { apply primero_Opt_no. apply m_Chr_no_empieza.
    apply (no_empieza_clase _ Py.isspace);
      [exact espacio_no_punto|exact Hb4|exact Nb4]. }
  2: reflexivity.
  eapply primero_Cat'.
  { apply primero_Plus'; [exact Hb4|exact Nb4|].
    apply (no_empieza_digitos _ anio);
      [exact digito_no_espacio|apply Hanio|exact Nanio]. }
  2: reflexivity.
  apply primero_Grp. apply primero_d4. exact Hanio.
Qed.

(** C3, as amended. The resolver lower-cases the label without its
    surrounding blanks and searches it for: one or two digits, optional
    blanks, a dash, optional blanks, one or two digits, blanks, a token
    made of letters [a-z], [ñ] and periods, an optional period, blanks,
    four digits.  When nothing of that shape is found (the empty label
    included) it raises the error that names the label.  When it is
    found, every period is removed from the token: a token that is then
    no key of the table of twelve abbreviations raises the error that
    names the month; otherwise the result is the two days, the month of
    the table, between 1 and 12, and the year.  Every label that begins
    with the shape is such a match with those four parts, and
    [04 - 09 ago. 2025] gives [(4, 9, 8, 2025)]. *)
Theorem C3_parse_fecha_rango (label : string) :
  let txt := Py.lower (Py.strip label) in
  (re_search RX_RANGO txt = None ->
   parse_fecha_rango label
   = Raise (ValueError ("No pude leer el rango de fechas desde: " ++ label)))
  /\ (forall mt,
        re_search RX_RANGO txt = Some mt ->
        let mes_txt := Py.replace "." EmptyString (group 3 mt) in
        (dict_get mes_txt MESES = None ->
         parse_fecha_rango label
         = Raise (ValueError ("Mes no reconocido: " ++ mes_txt)))
        /\ (forall mes,
              dict_get mes_txt MESES = Some mes ->
              parse_fecha_rango label
              = Ok (Py.valor (group 1 mt), Py.valor (group 2 mt), mes,
                    Py.valor (group 4 mt))
              /\ (1 <= mes <= 12)%Z))
  /\ (forall d1 b1 b2 d2 b3 tok b4 anio resto,
        es_dia d1 -> Py.todos Py.isspace b1 = true ->
        Py.todos Py.isspace b2 = true -> es_dia d2 ->
        Py.todos Py.isspace b3 = true -> b3 <> EmptyString ->
        es_token_mes tok ->
        Py.todos Py.isspace b4 = true -> b4 <> EmptyString ->
        es_anio anio ->
        txt = d1 ++ b1 ++ "-" ++ b2 ++ d2 ++ b3 ++ tok ++ b4 ++ anio ++ resto ->
        parse_fecha_rango label
        = match dict_get (Py.replace "." EmptyString tok) MESES with
          | Some mes => Ok (Py.valor d1, Py.valor d2, mes, Py.valor anio)
          | None =>
              Raise (ValueError ("Mes no reconocido: "
                                 ++ Py.replace "." EmptyString tok))
          end)
  /\ parse_fecha_rango "04 - 09 ago. 2025" = Ok (4, 9, 8, 2025)%Z
  /\ parse_fecha_rango EmptyString
     = Raise (ValueError "No pude leer el rango de fechas desde: ").
Proof.
  intros txt. split; [apply parse_fecha_rango_sin_rango|]. split; [|split].
  - intros mt Hmt mes_txt. split.
    + apply parse_fecha_rango_mes_desconocido. exact Hmt.
    + intros mes Hmes. split.
      * apply parse_fecha_rango_mes; assumption.
      * apply (MESES_rango mes_txt). exact Hmes.
  - intros d1 b1 b2 d2 b3 tok b4 anio resto
      Hd1 Hb1 Hb2 Hd2 Hb3 Nb3 Htok Hb4 Nb4 Hanio Htxt.
    pose proof (re_search_rango d1 b1 b2 d2 b3 tok b4 anio resto
                  Hd1 Hb1 Hb2 Hd2 Hb3 Nb3 Htok Hb4 Nb4 Hanio) as Hs.
    rewrite <- Htxt in Hs.
    destruct (dict_get (Py.replace "." EmptyString tok) MESES) as [mes|] eqn:Hm.
    + rewrite (parse_fecha_rango_mes label _ mes Hs Hm). reflexivity.
    + rewrite (parse_fecha_rango_mes_desconocido label _ Hs Hm). reflexivity.
  - split; reflexivity.
Qed.

(** The amended statement on the label [04-09  AGO. 2025 (semana 32)]. *)
Lemma C3_testigo :
  parse_fecha_rango "04-09  AGO. 2025 (semana 32)" = Ok (4, 9, 8, 2025)%Z.
Proof.
  destruct (C3_parse_fecha_rango "04-09  AGO. 2025 (semana 32)")
    as (_ & _ & Hforma & _).
  rewrite (Hforma "04" EmptyString EmptyString "09" "  " "ago." " " "2025"
                  " (semana 32)").
  - reflexivity.
  - split; [reflexivity|right; reflexivity].
  - reflexivity.
  - reflexivity.
  - split; [reflexivity|right; reflexivity].
  - reflexivity.
  - discriminate.
  - split; [reflexivity|discriminate].
  - reflexivity.
  - discriminate.
  - split; reflexivity.
  - reflexivity.
Defined.

(** C3 as stated fails: [a.g.o] is no abbreviation of the table, and the
    label is resolved all the same, to August. *)
Lemma C3_contraejemplo :
  dict_get "a.g.o" MESES = None
  /\ parse_fecha_rango "04 - 09 a.g.o 2025" = Ok (4, 9, 8, 2025)%Z.
Proof. split; reflexivity. Qed.

(** ** Numbers written and read back *)

Lemma leer_cifras_digitos (w : string) :
  Py.todos Py.isdigit w = true ->
  forall acc resto,
    leer_cifras (String.length w) acc (w ++ resto)
    = Some (Py.valor_desde acc w, resto).
Proof.
  induction w as [|c w IH]; intros Hw acc resto; [reflexivity|].
  cbn [Py.todos] in Hw. apply andb_true_iff in Hw. destruct Hw as [Hc Hw].
  cbn [String.length append leer_cifras Py.valor_desde]. rewrite Hc.
  apply IH. exact Hw.
Qed.


Lemma zpad_bien_hasta (ancho : nat) (cota : Z) :
  forallb (fun k => zpad_bien ancho (Z.of_nat k)) (seq 0 (Z.to_nat cota))
  = true ->
  forall n, (0 <= n < cota)%Z -> zpad_bien ancho n = true.
Proof.
  intros Hall n Hn. rewrite forallb_forall in Hall.
  specialize (Hall (Z.to_nat n)). rewrite Z2Nat.id in Hall by lia.
  apply Hall. apply in_seq. lia.
Qed.

Lemma zpad_4 (n : Z) : (0 <= n <= 9999)%Z -> zpad_bien 4 n = true.
Proof.
  intros Hn. apply (zpad_bien_hasta 4 10000); [vm_compute; reflexivity|lia].
Qed.

Lemma zpad_2 (n : Z) : (0 <= n <= 99)%Z -> zpad_bien 2 n = true.
Proof.
  intros Hn. apply (zpad_bien_hasta 2 100); [vm_compute; reflexivity|lia].
Qed.

Lemma leer_zpad (ancho : nat) (n : Z) (resto : string) :
  zpad_bien ancho n = true ->
  leer_cifras ancho 0 (Py.zpad ancho n ++ resto) = Some (n, resto).
Proof.
  unfold zpad_bien. intros H.
  apply andb_true_iff in H. destruct H as [H Hv].
  apply andb_true_iff in H. destruct H as [Hl Hd].
  apply Nat.eqb_eq in Hl. apply Z.eqb_eq in Hv.
  rewrite <- Hl at 1. rewrite (leer_cifras_digitos _ Hd).
  unfold Py.valor in Hv. rewrite Hv. reflexivity.
Qed.

(** ** Texts without line feed *)

Lemma string_of_uint_sin_salto (u : Decimal.uint) :
  Py.todos no_salto (NilEmpty.string_of_uint u) = true.
Proof. induction u; simpl; auto. Qed.

Lemma str_sin_salto (n : Z) : Py.todos no_salto (Py.str n) = true.
Proof.
  unfold Py.str, NilZero.string_of_int, NilZero.string_of_uint.
  destruct (Z.to_int n) as [u|u]; destruct u; simpl;
    auto using string_of_uint_sin_salto.
Qed.

Lemma zeros_sin_salto (k : nat) : Py.todos no_salto (Py.zeros k) = true.
Proof. induction k; simpl; auto. Qed.

Lemma zpad_sin_salto (ancho : nat) (n : Z) :
  Py.todos no_salto (Py.zpad ancho n) = true.
Proof.
  unfold Py.zpad. rewrite todos_app, zeros_sin_salto, str_sin_salto.
  reflexivity.
Qed.

Lemma replace_sin_salto (nuevo s : string) :
  Py.todos no_salto nuevo = true ->
  Py.todos no_salto (Py.replace "010" nuevo s) = true.
Proof.
  intros Hn. induction s as [|c s IH]; [reflexivity|].
  cbn [Py.replace]. destruct (Ascii.eqb c "010") eqn:Hc.
  - rewrite todos_app, Hn, IH. reflexivity.
  - cbn [Py.todos]. unfold no_salto at 1. rewrite Hc, IH. reflexivity.
Qed.

Lemma lstrip_sin_salto (s : string) :
  Py.todos no_salto s = true -> Py.todos no_salto (Py.lstrip s) = true.
Proof.
  induction s as [|c s IH]; [reflexivity|]. cbn [Py.lstrip].
  destruct (Py.isspace c); [|intros H; exact H].
  cbn [Py.todos]. intros H. apply andb_true_iff in H. apply IH, H.
Qed.

Lemma rstrip_sin_salto (s : string) :
  Py.todos no_salto s = true -> Py.todos no_salto (Py.rstrip s) = true.
Proof.
  induction s as [|c s IH]; [reflexivity|]. cbn [Py.rstrip Py.todos].
  intros H. apply andb_true_iff in H. destruct H as [Hc Hs].
  destruct (Py.is_empty (Py.rstrip s) && Py.isspace c)%bool; [reflexivity|].
  cbn [Py.todos]. rewrite Hc, (IH Hs). reflexivity.
Qed.

Lemma strip_sin_salto (s : string) :
  Py.todos no_salto s = true -> Py.todos no_salto (Py.strip s) = true.
Proof.
  intros H. unfold Py.strip. apply rstrip_sin_salto, lstrip_sin_salto, H.
Qed.

(** Replacing the line feeds of a text that has none changes nothing. *)
Lemma replace_nada (nuevo s : string) :
  Py.todos no_salto s = true -> Py.replace "010" nuevo s = s.
Proof.
  induction s as [|c s IH]; [reflexivity|]. cbn [Py.todos Py.replace].
  intros H. apply andb_true_iff in H. destruct H as [Hc Hs].
  unfold no_salto in Hc. apply negb_true_iff in Hc.
  rewrite Hc, (IH Hs). reflexivity.
Qed.

Lemma replace_app (nuevo a b : string) :
  Py.replace "010" nuevo (a ++ b)
  = Py.replace "010" nuevo a ++ Py.replace "010" nuevo b.
Proof.
  induction a as [|c a IH]; [reflexivity|]. cbn [append Py.replace].
  destruct (Ascii.eqb c "010"); rewrite IH.
  - rewrite app_assoc_s. reflexivity.
  - reflexivity.
Qed.

(** ** The calendar as lines *)

Lemma renglones_app (fin : string) (a b : list string) :
  renglones fin (a ++ b)%list = renglones fin a ++ renglones fin b.
Proof.
  induction a as [|l a IH]; [reflexivity|].
  cbn [app renglones]. rewrite IH, !app_assoc_s. reflexivity.
Qed.

Lemma texto_evento_renglones (v : vevent) (r : string) :
  texto_evento v ++ CRLF ++ r = renglones CRLF (lineas_evento v) ++ r.
Proof.
  unfold texto_evento, lineas_evento. cbn [renglones].
  rewrite !app_assoc_s. reflexivity.
Qed.

Lemma join_renglones (vs : list vevent) (r : string) :
  vs <> [] ->
  Py.join CRLF (map texto_evento vs) ++ CRLF ++ r
  = renglones CRLF (flat_map lineas_evento vs) ++ r.
Proof.
  induction vs as [|v vs IH]; [contradiction|]. intros _.
  destruct vs as [|v' vs].
  - cbn [map Py.join String.concat flat_map]. rewrite app_nil_r.
    apply texto_evento_renglones.
  - change (Py.join CRLF (map texto_evento (v :: v' :: vs)))
      with (texto_evento v ++ CRLF ++ Py.join CRLF (map texto_evento (v' :: vs))).
    rewrite !app_assoc_s. rewrite IH by discriminate.
    rewrite texto_evento_renglones.
    change (flat_map lineas_evento (v :: v' :: vs))
      with (lineas_evento v ++ flat_map lineas_evento (v' :: vs))%list.
    rewrite renglones_app, app_assoc_s. reflexivity.
Qed.

Lemma vtimezone_renglones : vtimezone = renglones CRLF zona.
Proof. reflexivity. Qed.

Lemma contenido_lineas reloj nombre eventos :
  contenido_ics reloj nombre eventos
  = renglones CRLF (lineas_ics reloj nombre eventos).
Proof.
  unfold contenido_ics, lineas_ics.
  rewrite bloques_entradas, vtimezone_renglones.
  rewrite !renglones_app.
  assert (Hcuerpo : forall r,
            Py.join CRLF (map texto_evento (entradas reloj eventos))
            ++ CRLF ++ r
            = renglones CRLF
                (match entradas reloj eventos with
                 | [] => [EmptyString]
                 | vs => flat_map lineas_evento vs
                 end) ++ r).
  { intros r. destruct (entradas reloj eventos) as [|v vs].
    - reflexivity.
    - apply join_renglones. discriminate. }
  rewrite Hcuerpo. cbn [renglones cabecera]. rewrite !app_assoc_s.
  reflexivity.
Qed.

(** ** Lines of the file *)


Lemma exportar_renglones (ls : list string) :
  Forall (fun l => Py.todos no_salto l = true) ls ->
  Py.replace "010" CRLF (renglones CRLF ls) = renglones CRCRLF ls.
Proof.
  induction 1 as [|l ls Hl _ IH]; [reflexivity|].
  cbn [renglones]. rewrite !replace_app, IH, (replace_nada _ l Hl).
  reflexivity.
Qed.

Lemma prefix_salto (c : ascii) (s : string) :
  no_salto c = true -> String.prefix LF (String c s) = false.
Proof.
  intros H.
  change (String.prefix LF (String c s))
    with (if ascii_dec "010" c then String.prefix EmptyString s else false).
  destruct (ascii_dec "010" c) as [<-|_]; [discriminate|reflexivity].
Qed.

Lemma partition_salto (a b : string) :
  Py.todos no_salto a = true ->
  Py.partition LF (a ++ LF ++ b) = Some (a, b).
Proof.
  induction a as [|c a IH]; intros Ha.
  - simpl. destruct b; reflexivity.
  - cbn [Py.todos] in Ha. apply andb_true_iff in Ha. destruct Ha as [Hc Ha].
    cbn [append Py.partition]. rewrite (prefix_salto c _ Hc).
    change (String "010" b) with (LF ++ b).
    rewrite (IH Ha). reflexivity.
Qed.

Lemma partition_largo (sep s antes despues : string) :
  sep <> EmptyString ->
  Py.partition sep s = Some (antes, despues) ->
  (String.length despues < String.length s)%nat.
Proof.
  intros Hsep H. apply partition_partes in H. subst s.
  rewrite !length_app_s. destruct sep; [contradiction|]. simpl. lia.
Qed.

(** Fuel beyond the length of the text changes nothing. *)
Lemma split_n_suficiente (sep : string) :
  sep <> EmptyString ->
  forall n k s,
    (String.length s <= n)%nat -> (String.length s <= k)%nat ->
    Py.split_n n sep s = Py.split_n k sep s.
Proof.
  intros Hsep. induction n as [|n IH]; intros k s Hn Hk.
  - destruct s; [|simpl in Hn; lia].
    destruct k; [reflexivity|]. cbn [Py.split_n Py.partition].
    destruct sep; [contradiction|]. reflexivity.
  - destruct k as [|k].
    + destruct s; [|simpl in Hk; lia].
      cbn [Py.split_n Py.partition]. destruct sep; [contradiction|].
      reflexivity.
    + cbn [Py.split_n].
      destruct (Py.partition sep s) as [[antes despues]|] eqn:Hp;
        [|reflexivity].
      pose proof (partition_largo _ _ _ _ Hsep Hp).
      f_equal. apply IH; lia.
Qed.

Lemma split_salto (a b : string) :
  Py.todos no_salto a = true ->
  Py.split LF (a ++ LF ++ b) = a :: Py.split LF b.
Proof.
  intros Ha. unfold Py.split.
  destruct (String.length (a ++ LF ++ b)) as [|n] eqn:Hn.
  - rewrite length_app_s in Hn. simpl in Hn. lia.
  - cbn [Py.split_n]. rewrite (partition_salto a b Ha). f_equal.
    apply split_n_suficiente; [discriminate| |apply le_n].
    rewrite length_app_s in Hn. simpl in Hn. lia.
Qed.

Lemma split_renglones (ls : list string) :
  Forall (fun l => Py.todos no_salto l = true) ls ->
  Py.split LF (renglones CRCRLF ls)
  = (map (fun l => (l ++ CRCR)%string) ls ++ [EmptyString])%list.
Proof.
  induction 1 as [|l ls Hl _ IH]; [reflexivity|].
  cbn [renglones map app].
  change (l ++ CRCRLF ++ renglones CRCRLF ls)
    with (l ++ CRCR ++ LF ++ renglones CRCRLF ls).
  rewrite <- app_assoc_s.
  rewrite split_salto, IH; [reflexivity|].
  rewrite todos_app, Hl. reflexivity.
Qed.

(** ** The fields read back *)

Lemma todos_app_true (p : ascii -> bool) (a b : string) :
  Py.todos p a = true -> Py.todos p b = true -> Py.todos p (a ++ b) = true.
Proof. intros Ha Hb. rewrite todos_app, Ha, Hb. reflexivity. Qed.

Lemma strftime_Ymd_sin_salto f : Py.todos no_salto (strftime_Ymd f) = true.
Proof.
  unfold strftime_Ymd, strftime_Y.
  rewrite !todos_app, !zpad_sin_salto, str_sin_salto. reflexivity.
Qed.

(** From the year 1000 on [%Y] writes four digits. *)
Lemma strftime_Y_cuatro (y : Z) :
  (1000 <= y <= 9999)%Z -> strftime_Y y = Py.zpad 4 y.
Proof.
  intros Hy.
  assert (Hall : forallb (fun k => String.eqb (strftime_Y (Z.of_nat k))
                                               (Py.zpad 4 (Z.of_nat k)))
                         (seq (Z.to_nat 1000) (Z.to_nat 9000)) = true)
    by (vm_compute; reflexivity).
  rewrite forallb_forall in Hall. specialize (Hall (Z.to_nat y)).
  rewrite Z2Nat.id in Hall by lia. apply String.eqb_eq. apply Hall.
  apply in_seq. lia.
Qed.

Lemma strftime_HMS_sin_salto t : Py.todos no_salto (strftime_HMS t) = true.
Proof.
  unfold strftime_HMS. rewrite !todos_app, !zpad_sin_salto. reflexivity.
Qed.

Lemma strftime_HM_sin_salto t : Py.todos no_salto (strftime_HM t) = true.
Proof.
  unfold strftime_HM. rewrite !todos_app, !zpad_sin_salto. reflexivity.
Qed.

Lemma lineas_evento_sin_salto ahora i resumen fecha t_ini t_fin descripcion :
  Forall (fun l => Py.todos no_salto l = true)
         (lineas_evento
            (campos_evento ahora i resumen fecha t_ini t_fin descripcion)).
Proof.
  unfold lineas_evento, campos_evento.
  cbn [v_uid v_dtstamp v_dtstart v_dtend v_resumen v_desc].
  assert (Hres : Py.todos no_salto (Py.strip (Py.replace "010" " " resumen))
                 = true)
    by (apply strip_sin_salto, replace_sin_salto; reflexivity).
  assert (Hdes : Py.todos no_salto (Py.replace "010" "\n" descripcion) = true)
    by (apply replace_sin_salto; reflexivity).
  repeat constructor;
    rewrite ?todos_app, ?strftime_Ymd_sin_salto, ?strftime_HMS_sin_salto,
      ?strftime_HM_sin_salto, ?str_sin_salto, ?Hres, ?Hdes;
    reflexivity.
Qed.

Lemma entradas_sin_salto reloj eventos :
  Forall (fun v => Forall (fun l => Py.todos no_salto l = true)
                          (lineas_evento v))
         (entradas reloj eventos).
Proof.
  unfold entradas. apply Forall_forall. intros v Hin.
  apply in_map_iff in Hin.
  destruct Hin as ([i [[[[ev0 ev1] ev2] ev3] ev4]] & <- & _).
  apply lineas_evento_sin_salto.
Qed.

Lemma lineas_ics_sin_salto reloj nombre eventos :
  Py.todos no_salto nombre = true ->
  Forall (fun l => Py.todos no_salto l = true)
         (lineas_ics reloj nombre eventos).
Proof.
  intros Hn. unfold lineas_ics.
  apply Forall_app; split; [|apply Forall_app; split; [|apply Forall_app; split]].
  - unfold cabecera. repeat constructor; try reflexivity.
    apply todos_app_true; [reflexivity|exact Hn].
  - unfold zona. repeat constructor; reflexivity.
  - pose proof (entradas_sin_salto reloj eventos) as H.
    destruct (entradas reloj eventos) as [|v vs];
      [repeat constructor|].
    apply Forall_flat_map. exact H.
  - repeat constructor.
Qed.


Lemma flat_map_map {A B C : Type} (f : A -> B) (g : B -> list C) (l : list A) :
  flat_map g (map f l) = flat_map (fun x => g (f x)) l.
Proof. induction l as [|x l IH]; simpl; [reflexivity|rewrite IH; reflexivity]. Qed.

Lemma flat_map_flat_map {A B C : Type} (f : A -> list B) (g : B -> list C)
  (l : list A) :
  flat_map g (flat_map f l) = flat_map (fun x => flat_map g (f x)) l.
Proof.
  induction l as [|x l IH]; simpl; [reflexivity|].
  rewrite flat_map_app, IH. reflexivity.
Qed.

Lemma campos_exportar reloj nombre_cal eventos nombre :
  Py.todos no_salto nombre_cal = true ->
  leer_campo nombre EmptyString = None ->
  campos nombre (exportar_ics reloj nombre_cal eventos)
  = flat_map (de_linea nombre) (lineas_ics reloj nombre_cal eventos).
Proof.
  intros Hn Hvacia. unfold campos, exportar_ics.
  pose proof (lineas_ics_sin_salto reloj nombre_cal eventos Hn) as Hls.
  rewrite contenido_lineas, (exportar_renglones _ Hls),
    (split_renglones _ Hls).
  rewrite flat_map_app, flat_map_map. cbn [flat_map]. rewrite Hvacia.
  rewrite app_nil_r. reflexivity.
Qed.

Lemma prefix_vacio (s : string) : String.prefix EmptyString s = true.
Proof. destruct s; reflexivity. Qed.

Lemma de_linea_evento (nombre uid stamp x y res des : string) :
  (nombre = "DTSTART" ->
   flat_map (de_linea nombre)
     (lineas_evento
        {| v_uid := uid; v_dtstamp := stamp;
           v_dtstart := "TZID=" ++ TZID ++ ":" ++ x;
           v_dtend := "TZID=" ++ TZID ++ ":" ++ y;
           v_resumen := res; v_desc := des |})
   = [leer_fecha_hora (x ++ CRCR)])
  /\ (nombre = "DTEND" ->
      flat_map (de_linea nombre)
        (lineas_evento
           {| v_uid := uid; v_dtstamp := stamp;
              v_dtstart := "TZID=" ++ TZID ++ ":" ++ x;
              v_dtend := "TZID=" ++ TZID ++ ":" ++ y;
              v_resumen := res; v_desc := des |})
      = [leer_fecha_hora (y ++ CRCR)]).
Proof.
  split; intros ->; unfold lineas_evento, de_linea, leer_campo;
    cbn -[leer_fecha_hora]; rewrite prefix_vacio; reflexivity.
Qed.

Lemma de_linea_fijas (nombre nombre_cal : string) :
  nombre = "DTSTART" \/ nombre = "DTEND" ->
  flat_map (de_linea nombre) (cabecera nombre_cal) = []
  /\ flat_map (de_linea nombre) zona = []
  /\ flat_map (de_linea nombre) [EmptyString] = []
  /\ flat_map (de_linea nombre) ["END:VCALENDAR"] = []
  /\ leer_campo nombre EmptyString = None.
Proof.
  intros [->| ->]; unfold de_linea, leer_campo, cabecera, zona;
    cbn -[leer_fecha_hora]; repeat split.
Qed.

Lemma leer_fecha_hora_escrita (f : date) (t : dtime) :
  date_ok f -> (1000 <= year f)%Z -> time_ok t ->
  leer_fecha_hora ((strftime_Ymd f ++ "T" ++ strftime_HMS t) ++ CRCR)
  = Some (f, t).
Proof.
  intros (Hy & Hm & Hd) Hy4 (Hh & Hmi & Hs).
  assert (Hd' : (day f <= 31)%Z).
  { unfold days_in_month in Hd.
    destruct (month f =? 2)%Z; [destruct (is_leap (year f)); lia|].
    destruct ((month f =? 4)%Z || (month f =? 6)%Z || (month f =? 9)%Z
              || (month f =? 11)%Z)%bool; lia. }
  unfold strftime_Ymd, strftime_HMS.
  rewrite (strftime_Y_cuatro (year f)) by lia. rewrite !app_assoc_s.
  unfold leer_fecha_hora.
  rewrite (leer_zpad 4 (year f)) by (apply zpad_4; lia).
  rewrite (leer_zpad 2 (month f)) by (apply zpad_2; lia).
  rewrite (leer_zpad 2 (day f)) by (apply zpad_2; lia).
  cbn [append]. change (negb (Ascii.eqb "T" "T")) with false. cbv iota.
  rewrite (leer_zpad 2 (hour t)) by (apply zpad_2; lia).
  rewrite (leer_zpad 2 (minute t)) by (apply zpad_2; lia).
  rewrite (leer_zpad 2 (second t)) by (apply zpad_2; lia).
  change (Py.todos (Ascii.eqb CR) CRCR) with true. cbv iota.
  destruct f, t. reflexivity.
Qed.

Lemma de_linea_entradas reloj (eventos : list RawEvent) :
  Forall (fun ev => evento_ok ev /\ anio_de_cuatro_cifras ev) eventos ->
  forall k,
    flat_map (fun v => flat_map (de_linea "DTSTART") (lineas_evento v))
      (map (fun iev : Z * RawEvent =>
              let '(i, (ev0, ev1, ev2, ev3, ev4)) := iev in
              campos_evento (reloj i) (i + 1) ev3 ev0 ev1 ev2 ev4)
           (enumerate k eventos))
    = map (fun ev : RawEvent =>
             let '(ev0, ev1, _, _, _) := ev in Some (ev0, ev1)) eventos
    /\ flat_map (fun v => flat_map (de_linea "DTEND") (lineas_evento v))
         (map (fun iev : Z * RawEvent =>
                 let '(i, (ev0, ev1, ev2, ev3, ev4)) := iev in
                 campos_evento (reloj i) (i + 1) ev3 ev0 ev1 ev2 ev4)
              (enumerate k eventos))
       = map (fun ev : RawEvent =>
                let '(ev0, _, ev2, _, _) := ev in Some (ev0, ev2)) eventos.
Proof.
  induction 1 as [|[[[[ev0 ev1] ev2] ev3] ev4] eventos Hok _ IH]; intros k.
  - split; reflexivity.
  - destruct Hok as [(Hf & Hi & Hn) Hy4].
    cbn [anio_de_cuatro_cifras] in Hy4.
    destruct (IH (k + 1)%Z) as [IH1 IH2].
    cbn [enumerate map flat_map]. rewrite IH1, IH2.
    unfold campos_evento.
    destruct (de_linea_evento "DTSTART"
                ("inacap-" ++ strftime_Ymd ev0 ++ "-" ++ strftime_HM ev1
                 ++ "-" ++ Py.str (k + 1) ++ "@siga")
                (strftime_Ymd (fst (reloj k)) ++ "T"
                 ++ strftime_HMS (snd (reloj k)) ++ "Z")
                (strftime_Ymd ev0 ++ "T" ++ strftime_HMS ev1)
                (strftime_Ymd ev0 ++ "T" ++ strftime_HMS ev2)
                (Py.strip (Py.replace "010" " " ev3))
                (Py.replace "010" "\n" ev4)) as [H1 _].
    destruct (de_linea_evento "DTEND"
                ("inacap-" ++ strftime_Ymd ev0 ++ "-" ++ strftime_HM ev1
                 ++ "-" ++ Py.str (k + 1) ++ "@siga")
                (strftime_Ymd (fst (reloj k)) ++ "T"
                 ++ strftime_HMS (snd (reloj k)) ++ "Z")
                (strftime_Ymd ev0 ++ "T" ++ strftime_HMS ev1)
                (strftime_Ymd ev0 ++ "T" ++ strftime_HMS ev2)
                (Py.strip (Py.replace "010" " " ev3))
                (Py.replace "010" "\n" ev4)) as [_ H2].
    rewrite (H1 eq_refl), (H2 eq_refl).
    rewrite (leer_fecha_hora_escrita ev0 ev1 Hf Hy4 Hi).
    rewrite (leer_fecha_hora_escrita ev0 ev2 Hf Hy4 Hn).
    split; reflexivity.
Qed.

Lemma campos_lineas_ics reloj nombre_cal (eventos : list RawEvent) :
  Forall (fun ev => evento_ok ev /\ anio_de_cuatro_cifras ev) eventos ->
  flat_map (de_linea "DTSTART") (lineas_ics reloj nombre_cal eventos)
  = map (fun ev : RawEvent =>
           let '(ev0, ev1, _, _, _) := ev in Some (ev0, ev1)) eventos
  /\ flat_map (de_linea "DTEND") (lineas_ics reloj nombre_cal eventos)
     = map (fun ev : RawEvent =>
              let '(ev0, _, ev2, _, _) := ev in Some (ev0, ev2)) eventos.
Proof.
  intros Hok. unfold lineas_ics.
  destruct (de_linea_fijas "DTSTART" nombre_cal (or_introl eq_refl))
    as (Hc1 & Hz1 & Hv1 & He1 & _).
  destruct (de_linea_fijas "DTEND" nombre_cal (or_intror eq_refl))
    as (Hc2 & Hz2 & Hv2 & He2 & _).
  destruct (de_linea_entradas reloj eventos Hok 0) as [H1 H2].
  fold (entradas reloj eventos) in H1, H2.
  rewrite !flat_map_app, Hc1, Hz1, Hc2, Hz2, He1, He2, !app_nil_r.
  cbn [app].
  destruct (entradas reloj eventos) as [|v vs].
  - rewrite Hv1, Hv2. cbn [flat_map] in H1, H2. split; assumption.
  - rewrite !flat_map_flat_map. split; assumption.
Qed.

(** C9, as amended. For events whose date and times are date and
    time-of-day values (as every [date] and [time] object is) and whose
    year has four digits (1000 to 9999), and a calendar name without line
    feed, the lines [DTSTART;TZID=America/Santiago:] and
    [DTEND;TZID=America/Santiago:] of the calendar file, taken in order
    and read back as [YYYYMMDDTHHMMSS], are exactly the date with the
    start time and the date with the end time of each event, in order:
    the local wall-clock values are written as they are, with no
    conversion, and nothing else in the file reads as such a line.  For
    every event, whatever its year, the two fields are the named time
    zone followed by the date and the time as [strftime] writes them. *)
Theorem C9_ida_y_vuelta (reloj : Z -> date * dtime) (nombre : string)
  (eventos : list RawEvent) :
  Py.todos no_salto nombre = true ->
  Forall evento_ok eventos ->
  Forall anio_de_cuatro_cifras eventos ->
  campos "DTSTART" (exportar_ics reloj nombre eventos)
  = map (fun ev : RawEvent =>
           let '(ev0, ev1, _, _, _) := ev in Some (ev0, ev1)) eventos
  /\ campos "DTEND" (exportar_ics reloj nombre eventos)
     = map (fun ev : RawEvent =>
              let '(ev0, _, ev2, _, _) := ev in Some (ev0, ev2)) eventos
  /\ Forall (fun v =>
               exists ev0 ev1 ev2,
                 v_dtstart v = "TZID=" ++ TZID ++ ":" ++ strftime_Ymd ev0
                               ++ "T" ++ strftime_HMS ev1
                 /\ v_dtend v = "TZID=" ++ TZID ++ ":" ++ strftime_Ymd ev0
                                ++ "T" ++ strftime_HMS ev2)
            (entradas reloj eventos).
Proof.
  intros Hn Hok Hy4.
  destruct (campos_lineas_ics reloj nombre eventos
              (Forall_and Hok Hy4)) as [H1 H2].
  rewrite !campos_exportar by (exact Hn || reflexivity).
  split; [exact H1|]. split; [exact H2|].
  unfold entradas. apply Forall_forall. intros v Hin.
  apply in_map_iff in Hin.
  destruct Hin as ([i [[[[ev0 ev1] ev2] ev3] ev4]] & <- & _).
  exists ev0, ev1, ev2. split; reflexivity.
Qed.

(** The calendar of the example event, read back. *)
Lemma C9_testigo :
  campos "DTSTART"
    (exportar_ics reloj_de_ejemplo "Horario INACAP" [evento_de_ejemplo])
  = [Some (mk_date 2025 8 4, mk_time 8 0 0)]
  /\ campos "DTEND"
       (exportar_ics reloj_de_ejemplo "Horario INACAP" [evento_de_ejemplo])
     = [Some (mk_date 2025 8 4, mk_time 9 30 0)].
Proof.
  destruct (C9_ida_y_vuelta reloj_de_ejemplo "Horario INACAP"
              [evento_de_ejemplo]) as (H1 & H2 & _).
  - reflexivity.
  - constructor; [|constructor].
    unfold evento_ok, evento_de_ejemplo, date_ok, time_ok. simpl.
    repeat split; discriminate.
  - constructor; [|constructor]. vm_compute. discriminate.
  - split; [exact H1|exact H2].
Defined.

(** C9 as stated fails: the week labelled with the year 0999 gives an
    event of the year 999, whose date [strftime] writes with seven digits;
    its [DTSTART] and [DTEND] are not of the form [YYYYMMDDTHHMMSS] and do
    not read back as the date and the times of the event. *)
Lemma C9_contraejemplo :
  extraer_eventos_desde_html (E := externo_de_ejemplo) pagina_anio_999
  = Ok [evento_anio_999]
  /\ evento_ok evento_anio_999
  /\ map v_dtstart (entradas reloj_de_ejemplo [evento_anio_999])
     = ["TZID=America/Santiago:9990104T080000"]
  /\ map v_dtend (entradas reloj_de_ejemplo [evento_anio_999])
     = ["TZID=America/Santiago:9990104T093000"]
  /\ campos "DTSTART"
       (exportar_ics reloj_de_ejemplo "Horario INACAP" [evento_anio_999])
     <> [Some (mk_date 999 1 4, mk_time 8 0 0)]
  /\ campos "DTEND"
       (exportar_ics reloj_de_ejemplo "Horario INACAP" [evento_anio_999])
     <> [Some (mk_date 999 1 4, mk_time 9 30 0)].
Proof.
  split; [vm_compute; reflexivity|].
  split; [vm_compute; repeat split; discriminate|].
  split; [vm_compute; reflexivity|].
  split; [vm_compute; reflexivity|].
  split; vm_compute; discriminate.
Qed.

(** * Further properties *)

(** ** More on deduplication *)

Lemma dict_set_nuevo {V : Type} (k : Key) (v : V) (dct : dict V) :
  ~ In k (map fst dct) -> dict_set k v dct = (dct ++ [(k, v)])%list.
Proof.
  induction dct as [|[k' v'] dct IH]; simpl; intros Hno; [reflexivity|].
  destruct (key_eqb k k') eqn:Hk.
  - apply key_eqb_eq in Hk. exfalso. apply Hno. left. symmetry. exact Hk.
  - rewrite IH; [reflexivity|]. intros Hin. apply Hno. right. exact Hin.
Qed.

Lemma dict_set_presente {V : Type} (k : Key) (v : V) (dct : dict V) :
  In k (map fst dct) -> map fst (dict_set k v dct) = map fst dct.
Proof.
  induction dct as [|[k' v'] dct IH]; simpl; intros Hin; [contradiction|].
  destruct (key_eqb k k') eqn:Hk; simpl.
  - apply key_eqb_eq in Hk. subst k'. reflexivity.
  - apply key_eqb_neq in Hk. destruct Hin as [Heq|Hin]; [congruence|].
    rewrite (IH Hin). reflexivity.
Qed.

Lemma cargar_distintos (l : list RawEvent) :
  NoDup (map key l) -> cargar l = map (fun ev => (key ev, ev)) l.
Proof.
  induction l as [|x l IH] using rev_ind; intros Hnd; [reflexivity|].
  rewrite map_app in Hnd. apply NoDup_app_remove_r in Hnd as Hl.
  rewrite cargar_snoc, (IH Hl), map_app. simpl.
  apply dict_set_nuevo. rewrite map_map. simpl.
  intros Hin. apply (NoDup_remove_2 _ _ _ Hnd). rewrite app_nil_r.
  exact Hin.
Qed.

Lemma deduplicar_distintos (l : list RawEvent) :
  NoDup (map key l) -> deduplicar l = l.
Proof.
  intros Hnd. unfold deduplicar, values. rewrite (cargar_distintos l Hnd).
  rewrite map_map. simpl. apply map_id.
Qed.

Lemma deduplicar_claves_distintas (l : list RawEvent) :
  NoDup (map key (deduplicar l)).
Proof. rewrite cargar_keys. apply cargar_inv. Qed.

Lemma deduplicar_snoc_claves (l : list RawEvent) (x : RawEvent) :
  (In (key x) (map key l) ->
   map key (deduplicar (l ++ [x])) = map key (deduplicar l))
  /\ (~ In (key x) (map key l) ->
      map key (deduplicar (l ++ [x]))
      = (map key (deduplicar l) ++ [key x])%list).
Proof.
  rewrite !cargar_keys, cargar_snoc.
  destruct (cargar_inv l) as (_ & Hkeys & _). split; intros H.
  - apply dict_set_presente. apply Hkeys. exact H.
  - rewrite dict_set_nuevo; [rewrite map_app; reflexivity|].
    intros Hin. apply H. apply Hkeys. exact Hin.
Qed.

(** X1. Deduplication leaves a sequence whose identities are pairwise
    distinct as it is, so deduplicating twice is deduplicating once; and
    the identities keep the order of their first occurrence: an event
    whose identity was seen before does not change that order, an event
    with a new identity puts it last. *)
Theorem X1_deduplicar_orden (l : list RawEvent) (x : RawEvent) :
  (NoDup (map key l) -> deduplicar l = l)
  /\ deduplicar (deduplicar l) = deduplicar l
  /\ (In (key x) (map key l) ->
      map key (deduplicar (l ++ [x])) = map key (deduplicar l))
  /\ (~ In (key x) (map key l) ->
      map key (deduplicar (l ++ [x]))
      = (map key (deduplicar l) ++ [key x])%list).
Proof.
  split; [apply deduplicar_distintos|]. split.
  - apply deduplicar_distintos. apply deduplicar_claves_distintas.
  - apply deduplicar_snoc_claves.
Qed.

(** ** Identities and events *)

Lemma app_inj_largo (a b x y : string) :
  String.length a = String.length b -> a ++ x = b ++ y -> a = b /\ x = y.
Proof.
  revert b. induction a as [|c a IH]; intros [|d b] Hl H; try discriminate.
  - split; [reflexivity|exact H].
  - simpl in Hl. injection Hl as Hl. simpl in H. injection H as -> H.
    destruct (IH b Hl H) as [-> ->]. split; reflexivity.
Qed.

Lemma zpad_bien_largo (ancho : nat) (n : Z) :
  zpad_bien ancho n = true -> String.length (Py.zpad ancho n) = ancho.
Proof.
  unfold zpad_bien. intros H. apply andb_true_iff in H. destruct H as [H _].
  apply andb_true_iff in H. destruct H as [H _]. apply Nat.eqb_eq. exact H.
Qed.

Lemma zpad_bien_valor (ancho : nat) (n : Z) :
  zpad_bien ancho n = true -> Py.valor (Py.zpad ancho n) = n.
Proof.
  unfold zpad_bien. intros H. apply andb_true_iff in H. destruct H as [_ H].
  apply Z.eqb_eq. exact H.
Qed.

Lemma zpad_inj (ancho : nat) (a b : Z) :
  zpad_bien ancho a = true -> zpad_bien ancho b = true ->
  Py.zpad ancho a = Py.zpad ancho b -> a = b.
Proof.
  intros Ha Hb H. rewrite <- (zpad_bien_valor ancho a Ha).
  rewrite <- (zpad_bien_valor ancho b Hb). rewrite H. reflexivity.
Qed.

Lemma dia_cota (f : date) : date_ok f -> (1 <= day f <= 31)%Z.
Proof.
  intros (_ & _ & Hd). unfold days_in_month in Hd.
  destruct (month f =? 2)%Z; [destruct (is_leap (year f)); lia|].
  destruct ((month f =? 4)%Z || (month f =? 6)%Z || (month f =? 9)%Z
            || (month f =? 11)%Z)%bool; lia.
Qed.

Lemma isoformat_inj (f1 f2 : date) :
  date_ok f1 -> date_ok f2 -> isoformat f1 = isoformat f2 -> f1 = f2.
Proof.
  intros H1 H2 H. pose proof (dia_cota f1 H1). pose proof (dia_cota f2 H2).
  destruct H1 as (Hy1 & Hm1 & _), H2 as (Hy2 & Hm2 & _).
  assert (Y1 := zpad_4 (year f1) ltac:(lia)).
  assert (Y2 := zpad_4 (year f2) ltac:(lia)).
  assert (M1 := zpad_2 (month f1) ltac:(lia)).
  assert (M2 := zpad_2 (month f2) ltac:(lia)).
  assert (D1 := zpad_2 (day f1) ltac:(lia)).
  assert (D2 := zpad_2 (day f2) ltac:(lia)).
  unfold isoformat in H.
  apply app_inj_largo in H;
    [|rewrite !zpad_bien_largo by assumption; reflexivity].
  destruct H as [Hy H]. cbn [append] in H. injection H as H.
  apply app_inj_largo in H;
    [|rewrite !zpad_bien_largo by assumption; reflexivity].
  destruct H as [Hm H]. cbn [append] in H. injection H as Hd.
  apply zpad_inj in Hy; [|assumption|assumption].
  apply zpad_inj in Hm; [|assumption|assumption].
  apply zpad_inj in Hd; [|assumption|assumption].
  destruct f1, f2. simpl in *. subst. reflexivity.
Qed.

Lemma strftime_H_M_inj (t1 t2 : dtime) :
  time_ok t1 -> time_ok t2 -> second t1 = second t2 ->
  strftime_H_M t1 = strftime_H_M t2 -> t1 = t2.
Proof.
  intros (Hh1 & Hm1 & _) (Hh2 & Hm2 & _) Hs H.
  assert (A1 := zpad_2 (hour t1) ltac:(lia)).
  assert (A2 := zpad_2 (hour t2) ltac:(lia)).
  assert (B1 := zpad_2 (minute t1) ltac:(lia)).
  assert (B2 := zpad_2 (minute t2) ltac:(lia)).
  unfold strftime_H_M in H.
  apply app_inj_largo in H;
    [|rewrite !zpad_bien_largo by assumption; reflexivity].
  destruct H as [Hh H]. cbn [append] in H. injection H as Hm.
  apply zpad_inj in Hh; [|assumption|assumption].
  apply zpad_inj in Hm; [|assumption|assumption].
  destruct t1, t2. simpl in *. subst. reflexivity.
Qed.

Lemma key_inj (e1 e2 : RawEvent) :
  evento_ok e1 -> sin_segundos e1 -> evento_ok e2 -> sin_segundos e2 ->
  key e1 = key e2 -> e1 = e2.
Proof.
  destruct e1 as [[[[f1 a1] b1] r1] c1], e2 as [[[[f2 a2] b2] r2] c2].
  intros (Hf1 & Ha1 & Hb1) [Sa1 Sb1] (Hf2 & Ha2 & Hb2) [Sa2 Sb2] H.
  unfold key in H. injection H as Hf Ha Hb -> ->.
  apply isoformat_inj in Hf; [|assumption|assumption].
  apply strftime_H_M_inj in Ha; [|assumption|assumption|congruence].
  apply strftime_H_M_inj in Hb; [|assumption|assumption|congruence].
  subst. reflexivity.
Qed.

Lemma deduplicar_en_entrada (l : list RawEvent) (ev : RawEvent) :
  In ev (deduplicar l) -> In ev l.
Proof.
  unfold deduplicar, values. intros Hin. apply in_map_iff in Hin.
  destruct Hin as ([k ev0] & Hsnd & Hin). simpl in Hsnd. subst ev0.
  destruct (cargar_inv l) as (_ & _ & Hlast).
  destruct (Hlast k ev Hin) as (_ & antes & despues & -> & _).
  apply in_or_app. right. left. reflexivity.
Qed.

Lemma deduplicar_representa (l : list RawEvent) (ev : RawEvent) :
  In ev l -> exists ev', In ev' (deduplicar l) /\ key ev' = key ev.
Proof.
  intros Hin. destruct (cargar_inv l) as (_ & Hkeys & _).
  assert (Hk : In (key ev) (map key (deduplicar l))).
  { rewrite cargar_keys. apply Hkeys. apply in_map. exact Hin. }
  apply in_map_iff in Hk. destruct Hk as (ev' & Heq & Hin').
  exists ev'. split; assumption.
Qed.

Lemma deduplicar_mismos (l : list RawEvent) :
  Forall (fun ev => evento_ok ev /\ sin_segundos ev) l ->
  forall ev, In ev (deduplicar l) <-> In ev l.
Proof.
  intros Hok ev. rewrite Forall_forall in Hok. split.
  - apply deduplicar_en_entrada.
  - intros Hin. destruct (deduplicar_representa l ev Hin) as (ev' & Hin' & Hk).
    pose proof (deduplicar_en_entrada l ev' Hin') as Hl.
    destruct (Hok ev Hin) as [O1 S1]. destruct (Hok ev' Hl) as [O2 S2].
    rewrite <- (key_inj ev' ev O2 S2 O1 S1 Hk). exact Hin'.
Qed.

(** X2. On events whose date and times are valid and without seconds (as
    the extractors build them), the identity determines the event: two
    such events with one identity are equal. *)
Theorem X2_identidad_inyectiva (e1 e2 : RawEvent) :
  evento_ok e1 -> sin_segundos e1 -> evento_ok e2 -> sin_segundos e2 ->
  key e1 = key e2 -> e1 = e2.
Proof. apply key_inj. Qed.

Lemma X2_testigo :
  (mk_date 2025 8 4, mk_time 8 0 0, mk_time 9 30 0, "Calculo I",
   "Calculo I / Sala 301 - Prof. Perez") = evento_de_ejemplo.
Proof.
  apply X2_identidad_inyectiva;
    unfold evento_ok, sin_segundos, evento_de_ejemplo, date_ok, time_ok;
    simpl; repeat split; discriminate.
Defined.

(** X3. Deduplicating such events loses none of them and invents none:
    the deduplicated sequence holds exactly the events of the input. *)
Theorem X3_deduplicar_conserva (l : list RawEvent) :
  Forall (fun ev => evento_ok ev /\ sin_segundos ev) l ->
  forall ev, In ev (deduplicar l) <-> In ev l.
Proof. apply deduplicar_mismos. Qed.

Lemma X3_testigo :
  In evento_de_ejemplo (deduplicar [evento_de_ejemplo; evento_de_ejemplo])
  <-> In evento_de_ejemplo [evento_de_ejemplo; evento_de_ejemplo].
Proof.
  apply X3_deduplicar_conserva.
  repeat constructor;
    unfold evento_ok, sin_segundos, evento_de_ejemplo, date_ok, time_ok;
    simpl; repeat split; discriminate.
Defined.

(** ** What the extractors return *)

Lemma date_new_inv (y mo dd : Z) (f : date) :
  date_new y mo dd = Ok f ->
  date_ok f /\ year f = y /\ month f = mo /\ day f = dd.
Proof.
  unfold date_new.
  destruct (c_int y) as [y'|e] eqn:Cy; [|discriminate].
  destruct (c_int mo) as [mo'|e] eqn:Cm; [|discriminate].
  destruct (c_int dd) as [dd'|e] eqn:Cd; [|discriminate].
  apply c_int_inv in Cy, Cm, Cd.
  destruct Cy as [-> _], Cm as [-> _], Cd as [-> _]. cbn [bind].
  destruct ((1 <=? y)%Z && (y <=? 9999)%Z)%bool eqn:Hy; simpl; [|discriminate].
  destruct ((1 <=? mo)%Z && (mo <=? 12)%Z)%bool eqn:Hm; simpl; [|discriminate].
  destruct ((1 <=? dd)%Z && (dd <=? days_in_month y mo)%Z)%bool eqn:Hd; simpl;
    [|discriminate].
  intros [= <-]. apply andb_true_iff in Hy, Hm, Hd.
  unfold date_ok. simpl. repeat split; lia.
Qed.

Lemma time_new_inv (h mi : Z) (t : dtime) :
  time_new h mi = Ok t ->
  time_ok t /\ second t = 0%Z /\ hour t = h /\ minute t = mi.
Proof.
  unfold time_new.
  destruct (c_int h) as [h'|e] eqn:Ch; [|discriminate].
  destruct (c_int mi) as [mi'|e] eqn:Cm; [|discriminate].
  apply c_int_inv in Ch, Cm. destruct Ch as [-> _], Cm as [-> _]. cbn [bind].
  destruct ((0 <=? h)%Z && (h <=? 23)%Z)%bool eqn:Hh; simpl; [|discriminate].
  destruct ((0 <=? mi)%Z && (mi <=? 59)%Z)%bool eqn:Hm; simpl; [|discriminate].
  intros [= <-]. apply andb_true_iff in Hh, Hm.
  unfold time_ok. simpl. repeat split; lia.
Qed.

Lemma hhmm_to_time_inv (s : string) (t : dtime) :
  hhmm_to_time s = Ok t -> time_ok t /\ second t = 0%Z.
Proof.
  unfold hhmm_to_time.
  destruct (map_int (Py.split ":" s)) as [[|h [|mi [|x xs]]]|e]; simpl;
    try discriminate.
  intros H. apply time_new_inv in H. tauto.
Qed.



Section Extraidos.

Context {E : Externo}.
Variables (anio mes : Z) (headers_dias : list string)
          (fechas : list (option date)).
Hypothesis Hfechas : mapear_fechas anio mes headers_dias = Ok fechas.





End Extraidos.

Section ExtraidosMovil.

Context {E : Externo}.

Lemma item_movil_inv anio mes (f : date) item evs :
  (date_ok f /\ year f = anio /\ month f = mes) ->
  item_movil f item = Ok evs -> Forall (evento_de anio mes) evs.
Proof.
  intros Hf. unfold item_movil.
  destruct (sin_clases _); [intros [= <-]; constructor|].
  destruct (re_match RX_ITEM _) as [m2|]; [|intros [= <-]; constructor].
  destruct (hhmm_to_time (group 1 m2)) as [t1|e] eqn:H1; simpl; [|discriminate].
  destruct (hhmm_to_time (group 2 m2)) as [t2|e] eqn:H2; simpl; [|discriminate].
  intros [= <-]. constructor; [|constructor].
  apply hhmm_to_time_inv in H1, H2.
  unfold evento_de, evento_ok, sin_segundos. tauto.
Qed.

Lemma items_movil_inv anio mes (f : date) items :
  (date_ok f /\ year f = anio /\ month f = mes) ->
  forall evs, items_movil f items = Ok evs -> Forall (evento_de anio mes) evs.
Proof.
  intros Hf. induction items as [|item items IH]; intros evs; simpl.
  - intros [= <-]. constructor.
  - destruct (item_movil f item) as [evs1|e] eqn:H1; simpl; [|discriminate].
    destruct (items_movil f items) as [evs2|e] eqn:H2; simpl; [|discriminate].
    intros [= <-]. apply Forall_app. split.
    + apply (item_movil_inv _ _ _ _ _ Hf H1).
    + apply IH. reflexivity.
Qed.

Lemma articulos_inv anio mes arts :
  forall evs, articulos anio mes arts = Ok evs -> Forall (evento_de anio mes) evs.
Proof.
  induction arts as [|art arts IH]; intros evs; simpl.
  - intros [= <-]. constructor.
  - destruct (articulo anio mes art) as [evs1|e] eqn:H1; simpl; [|discriminate].
    destruct (articulos anio mes arts) as [evs2|e] eqn:H2; simpl;
      [|discriminate].
    intros [= <-]. apply Forall_app. split; [|apply IH; reflexivity].
    unfold articulo in H1.
    destruct (schedule_title art) as [titulo_el|];
      [|injection H1 as <-; constructor].
    destruct (re_search RX_DIA_FIN _) as [mt|];
      [|injection H1 as <-; constructor].
    destruct (Py.int (group 1 mt)) as [n|e]; simpl in H1; [|discriminate].
    destruct (date_new anio mes n) as [f|e] eqn:Hf; simpl in H1; [|discriminate].
    apply date_new_inv in Hf.
    apply (items_movil_inv anio mes f _ ltac:(tauto) _ H1).
Qed.


Lemma movil_inv html evs :
  extraer_eventos_fallback_movil html = Ok evs ->
  exists d1 d2 mes anio,
    parse_fecha_rango (etiqueta_movil html) = Ok (d1, d2, mes, anio)
    /\ Forall (evento_de anio mes) evs.
Proof.
  unfold extraer_eventos_fallback_movil.
  destruct (parse_fecha_rango (etiqueta_movil html))
    as [[[[d1 d2] mes] anio]|e]; simpl; [|discriminate].
  intros H. exists d1, d2, mes, anio. split; [reflexivity|].
  apply (articulos_inv _ _ _ _ H).
Qed.


(** X5. Every event the mobile strategy returns has a valid date in the
    month and the year of the week's label, and valid start and end times
    without seconds. *)
Theorem X5_eventos_movil (html : snapshot) (evs : list RawEvent) :
  extraer_eventos_fallback_movil html = Ok evs ->
  exists d1 d2 mes anio,
    parse_fecha_rango (etiqueta_movil html) = Ok (d1, d2, mes, anio)
    /\ Forall (evento_de anio mes) evs.
Proof. apply movil_inv. Qed.

End ExtraidosMovil.


Lemma X5_testigo :
  exists d1 d2 mes anio,
    parse_fecha_rango (etiqueta_movil pagina_movil) = Ok (d1, d2, mes, anio)
    /\ Forall (evento_de anio mes) [evento_de_ejemplo].
Proof.
  apply (X5_eventos_movil (E := externo_de_ejemplo) pagina_movil).
  vm_compute. reflexivity.
Defined.

(** ** The lines of the calendar file *)

Lemma enumerate_length {A : Type} (xs : list A) :
  forall k, List.length (enumerate k xs) = List.length xs.
Proof.
  induction xs as [|x xs IH]; intros k; simpl; [reflexivity|].
  rewrite IH. reflexivity.
Qed.

Lemma entradas_length (reloj : Z -> date * dtime) (eventos : list RawEvent) :
  List.length (entradas reloj eventos) = List.length eventos.
Proof. unfold entradas. rewrite length_map. apply enumerate_length. Qed.

Lemma lineas_evento_length (vs : list vevent) :
  List.length (flat_map lineas_evento vs) = (8 * List.length vs)%nat.
Proof.
  induction vs as [|v vs IH]; [reflexivity|].
  cbn [flat_map]. rewrite length_app, IH. cbn [lineas_evento List.length]. lia.
Qed.

Lemma lineas_ics_length (reloj : Z -> date * dtime) (nombre : string)
  (eventos : list RawEvent) :
  List.length (lineas_ics reloj nombre eventos)
  = (26 + Nat.max 1 (8 * List.length eventos))%nat.
Proof.
  unfold lineas_ics. rewrite !length_app.
  rewrite <- (entradas_length reloj eventos).
  destruct (entradas reloj eventos) as [|v vs] eqn:He.
  - reflexivity.
  - rewrite lineas_evento_length.
    cbn [cabecera zona List.length]. lia.
Qed.

(** X8. The calendar file, for a calendar name without line feed: it is
    made of lines that hold no line feed, each followed by CR CR LF (the
    text is built with CR LF and the file is opened with [newline="\r\n"],
    which writes the line feed of each CR LF as CR LF again); there are
    26 lines of heading, time zone and closing, and 8 lines per event, or
    one empty line when there is no event. *)
Theorem X8_renglones_del_archivo (reloj : Z -> date * dtime)
  (nombre : string) (eventos : list RawEvent) :
  Py.todos no_salto nombre = true ->
  exportar_ics reloj nombre eventos
  = renglones CRCRLF (lineas_ics reloj nombre eventos)
  /\ Forall (fun l => Py.todos no_salto l = true)
            (lineas_ics reloj nombre eventos)
  /\ List.length (lineas_ics reloj nombre eventos)
     = (26 + Nat.max 1 (8 * List.length eventos))%nat.
Proof.
  intros Hn.
  pose proof (lineas_ics_sin_salto reloj nombre eventos Hn) as Hls.
  split; [|split; [exact Hls|apply lineas_ics_length]].
  unfold exportar_ics. rewrite contenido_lineas.
  apply (exportar_renglones _ Hls).
Qed.

Lemma X8_testigo :
  exportar_ics reloj_de_ejemplo "Horario INACAP" [evento_de_ejemplo]
  = renglones CRCRLF
      (lineas_ics reloj_de_ejemplo "Horario INACAP" [evento_de_ejemplo])
  /\ Forall (fun l => Py.todos no_salto l = true)
            (lineas_ics reloj_de_ejemplo "Horario INACAP" [evento_de_ejemplo])
  /\ List.length
       (lineas_ics reloj_de_ejemplo "Horario INACAP" [evento_de_ejemplo])
     = (26 + Nat.max 1 (8 * List.length [evento_de_ejemplo]))%nat.
Proof.
  apply (X8_renglones_del_archivo reloj_de_ejemplo "Horario INACAP"
           [evento_de_ejemplo]).
  reflexivity.
Defined.

(** ** Cleaning a text twice *)

Lemma limpio_sub_espacios (s : string) :
  forall b, limpio_desde b s = true -> sub_espacios b s = s.
Proof.
  induction s as [|c s IH]; intros b; [reflexivity|].
  cbn [limpio_desde sub_espacios]. destruct (Py.isspace c) eqn:Hc.
  - intros H. apply andb_true_iff in H. destruct H as [H Hs].
    apply andb_true_iff in H. destruct H as [Hsp Hb].
    apply Ascii.eqb_eq in Hsp. subst c.
    destruct b; [discriminate|]. rewrite (IH true Hs). reflexivity.
  - intros H. rewrite (IH false H). reflexivity.
Qed.

Lemma limpio_sub_espacios_inicio (s : string) :
  limpio_desde true s = true -> sub_espacios false s = s.
Proof.
  destruct s as [|c s]; [reflexivity|].
  cbn [limpio_desde sub_espacios]. destruct (Py.isspace c) eqn:Hc.
  - rewrite andb_false_r. discriminate.
  - intros H. rewrite (limpio_sub_espacios s false H). reflexivity.
Qed.

Section DosVeces.

Context {E : Externo}.

Lemma limpiar_texto_fijo (s : string) :
  Py.contains_char "&" s = false ->
  s = EmptyString \/ limpio_desde true s = true ->
  limpiar_texto s = s.
Proof.
  intros Ha Hs. unfold limpiar_texto, unescape. rewrite Ha.
  destruct Hs as [->|Hs]; [reflexivity|].
  rewrite (limpio_sub_espacios_inicio s Hs). apply (limpio_strip s Hs).
Qed.

(** X9. Whatever the text, what [limpiar_texto] returns is empty or has
    single spaces as its only blanks and none at either end; and cleaning
    it again changes nothing, provided it holds no ampersand (an ampersand
    left by the first pass, as in [&amp;amp;], is read as the start of an
    entity by the second). *)
Theorem X9_limpiar_texto (x : string) :
  (limpiar_texto x = EmptyString
   \/ limpio_desde true (limpiar_texto x) = true)
  /\ (Py.contains_char "&" (limpiar_texto x) = false ->
      limpiar_texto (limpiar_texto x) = limpiar_texto x).
Proof.
  split; [apply limpiar_texto_limpio|].
  intros Ha. apply (limpiar_texto_fijo _ Ha). apply limpiar_texto_limpio.
Qed.

End DosVeces.

(** ** Times written and read back *)

Lemma zpad_2_forma (n : Z) :
  (0 <= n <= 99)%Z ->
  Py.todos Py.isdigit (Py.zpad 2 n) = true
  /\ String.length (Py.zpad 2 n) = 2%nat
  /\ Py.valor (Py.zpad 2 n) = n.
Proof.
  intros Hn. pose proof (zpad_2 n Hn) as H. unfold zpad_bien in H.
  apply andb_true_iff in H. destruct H as [H Hv].
  apply andb_true_iff in H. destruct H as [Hl Hd].
  apply Nat.eqb_eq in Hl. apply Z.eqb_eq in Hv. auto.
Qed.

Lemma hhmm_escrita (t : dtime) :
  time_ok t -> second t = 0%Z -> hhmm_to_time (strftime_H_M t) = Ok t.
Proof.
  intros (Hh & Hm & _) Hs. unfold strftime_H_M.
  destruct (zpad_2_forma (hour t)) as (Hd1 & Hl1 & Hv1); [lia|].
  destruct (zpad_2_forma (minute t)) as (Hd2 & Hl2 & Hv2); [lia|].
  rewrite hhmm_to_time_digitos.
  - rewrite Hv1, Hv2, (time_new_ok _ _ Hh Hm).
    destruct t as [h mi s]. simpl in Hs. subst s. reflexivity.
  - split; [exact Hd1|right; exact Hl1].
  - split; [exact Hd2|exact Hl2].
Qed.

(** X10. The text [HH:MM] under which the deduplication key holds a time
    of day reads back, through [hhmm_to_time], as that time, for every
    time of day without seconds; and whatever [hhmm_to_time] returns is a
    time of day without seconds, so the parser and the key's format are
    inverse of each other on the times the extractors produce. *)
Theorem X10_hora_escrita_y_leida (t : dtime) :
  (time_ok t -> second t = 0%Z -> hhmm_to_time (strftime_H_M t) = Ok t)
  /\ (forall s, hhmm_to_time s = Ok t ->
        time_ok t /\ second t = 0%Z
        /\ hhmm_to_time (strftime_H_M t) = Ok t).
Proof.
  split; [apply hhmm_escrita|].
  intros s H. apply hhmm_to_time_inv in H. destruct H as [Hok Hs].
  repeat split; try apply Hok; try exact Hs. apply (hhmm_escrita t Hok Hs).
Qed.

(** ** The identifiers of a batch *)

Lemma str_inj (a b : Z) : Py.str a = Py.str b -> a = b.
Proof.
  unfold Py.str. intros H.
  assert (Hn : forall n, Z.to_int n <> Decimal.Pos Decimal.Nil
                         /\ Z.to_int n <> Decimal.Neg Decimal.Nil).
  { intros [|p|p]; simpl; split; try discriminate;
      intros [= Hp]; apply (DecimalPos.Unsigned.to_uint_nonnil p Hp). }
  destruct (Hn a) as [Ha1 Ha2], (Hn b) as [Hb1 Hb2].
  pose proof (NilZero.isi _ Ha1 Ha2) as Ia.
  pose proof (NilZero.isi _ Hb1 Hb2) as Ib.
  rewrite H, Ib in Ia. injection Ia as Iab.
  rewrite <- (DecimalZ.of_to a), <- (DecimalZ.of_to b), Iab. reflexivity.
Qed.

Lemma app_inv_cola (a b c : string) : a ++ c = b ++ c -> a = b.
Proof.
  intros H. apply (app_inj_largo a b c c); [|exact H].
  apply (f_equal String.length) in H. rewrite !length_app_s in H. lia.
Qed.

(** The counter is what follows the last dash of a [uid], whatever the
    width of the date before it. *)
Lemma string_of_uint_digitos (u : Decimal.uint) :
  Py.todos Py.isdigit (NilEmpty.string_of_uint u) = true.
Proof. induction u; simpl; auto. Qed.

Lemma str_digitos (n : Z) :
  (0 <= n)%Z -> Py.todos Py.isdigit (Py.str n) = true.
Proof.
  intros Hn. unfold Py.str, NilZero.string_of_int, NilZero.string_of_uint.
  destruct n as [|p|p]; [reflexivity| |lia]. cbn [Z.to_int].
  destruct (Pos.to_uint p); try reflexivity; apply string_of_uint_digitos.
Qed.

Lemma ultimo_guion (a a' d0 d1 : string) :
  Py.todos (fun c => negb (Ascii.eqb c "-")) d0 = true ->
  Py.todos (fun c => negb (Ascii.eqb c "-")) d1 = true ->
  a ++ "-" ++ d0 = a' ++ "-" ++ d1 -> d0 = d1.
Proof.
  intros H0 H1. revert a'.
  induction a as [|c a IH]; intros [|c' a'] H; cbn [append] in H.
  - injection H as H. exact H.
  - injection H as _ H. rewrite H, todos_app in H0.
    cbn [Py.todos Ascii.eqb] in H0. rewrite andb_false_r in H0. discriminate.
  - injection H as _ H. rewrite <- H, todos_app in H1.
    cbn [Py.todos Ascii.eqb] in H1. rewrite andb_false_r in H1. discriminate.
  - injection H as _ H. apply (IH a' H).
Qed.

Lemma contador_sin_guion (n : Z) :
  (0 <= n)%Z ->
  Py.todos (fun c => negb (Ascii.eqb c "-")) (Py.str n ++ "@siga") = true.
Proof.
  intros Hn. rewrite todos_app. apply andb_true_iff. split; [|reflexivity].
  pose proof (str_digitos n Hn) as Hd.
  induction (Py.str n) as [|c s IH]; [reflexivity|].
  cbn [Py.todos] in *. apply andb_true_iff in Hd. destruct Hd as [Hc Hs].
  destruct (digito_no_signo c Hc) as (-> & _). rewrite (IH Hs). reflexivity.
Qed.

Lemma uid_de_contador (i j : Z) (e1 e2 : RawEvent) :
  (0 <= i)%Z -> (0 <= j)%Z -> uid_de i e1 = uid_de j e2 -> i = j.
Proof.
  destruct e1 as [[[[f1 a1] b1] r1] c1], e2 as [[[[f2 a2] b2] r2] c2].
  intros Hi Hj. unfold uid_de. intros H.
  assert (Hf : forall f a n,
            "inacap-" ++ strftime_Ymd f ++ "-" ++ strftime_HM a ++ "-"
            ++ Py.str n ++ "@siga"
            = ("inacap-" ++ strftime_Ymd f ++ "-" ++ strftime_HM a)
              ++ "-" ++ (Py.str n ++ "@siga"))
    by (intros; rewrite !app_assoc_s; reflexivity).
  rewrite !Hf in H.
  apply ultimo_guion in H; try (apply contador_sin_guion; assumption).
  apply app_inv_cola in H. apply str_inj. exact H.
Qed.

Lemma enumerate_in {A : Type} (xs : list A) :
  forall k j x, In (j, x) (enumerate k xs) -> (k <= j)%Z /\ In x xs.
Proof.
  induction xs as [|y xs IH]; intros k j x; simpl; [intros []|].
  intros [[= <- <-]|Hin]; [split; [lia|left; reflexivity]|].
  apply IH in Hin. destruct Hin as [Hk Hx]. split; [lia|right; exact Hx].
Qed.

Lemma uid_de_distintos (eventos : list RawEvent) :
  forall k, (0 <= k)%Z ->
    NoDup (map (fun iev : Z * RawEvent => uid_de (fst iev) (snd iev))
               (enumerate k eventos)).
Proof.
  induction eventos as [|ev l IH]; intros k Hk; simpl; [constructor|].
  constructor; [|apply IH; lia].
  intros Hin. apply in_map_iff in Hin. destruct Hin as ([j y] & Hu & Hin).
  simpl in Hu. apply enumerate_in in Hin. destruct Hin as [Hj Hy].
  apply (uid_de_contador j k y ev) in Hu; lia.
Qed.

(** X11. Within one batch of events with valid dates and times, the
    identifiers [uid] are pairwise different, in the calendar file and
    in the requests sent to the remote calendar alike: the counter at the
    end of a [uid] tells its position, so two events with the same date
    and start time (or the very same event twice) still get different
    identifiers. *)
Theorem X11_uid_distintos {E : Externo} (reloj : Z -> date * dtime)
  (eventos : list RawEvent) :
  Forall evento_ok eventos ->
  NoDup (map v_uid (entradas reloj eventos))
  /\ NoDup (map p_uid (push_to_google_calendar eventos))
  /\ forall i j ev1 ev2,
       nth_error (enumerate 1 eventos) i = Some ev1 ->
       nth_error (enumerate 1 eventos) j = Some ev2 ->
       uid_de (fst ev1) (snd ev1) = uid_de (fst ev2) (snd ev2) -> i = j.
Proof.
  intros _.
  pose proof (uid_de_distintos eventos 1 ltac:(lia)) as Hnd.
  split; [|split].
  - unfold entradas. rewrite (uid_entradas reloj eventos 0). exact Hnd.
  - unfold push_to_google_calendar. rewrite uid_push. exact Hnd.
  - intros i j ev1 ev2 H1 H2 Hu.
    apply (proj1 (NoDup_nth_error _) Hnd i j).
    + rewrite length_map. apply nth_error_Some. rewrite H1. discriminate.
    + rewrite !nth_error_map, H1, H2. simpl. rewrite Hu. reflexivity.
Qed.

Lemma X11_testigo :
  NoDup (map v_uid (entradas reloj_de_ejemplo
                      [evento_de_ejemplo; evento_de_ejemplo]))
  /\ NoDup (map p_uid (push_to_google_calendar (E := externo_de_ejemplo)
                         [evento_de_ejemplo; evento_de_ejemplo]))
  /\ forall i j ev1 ev2,
       nth_error (enumerate 1 [evento_de_ejemplo; evento_de_ejemplo]) i
       = Some ev1 ->
       nth_error (enumerate 1 [evento_de_ejemplo; evento_de_ejemplo]) j
       = Some ev2 ->
       uid_de (fst ev1) (snd ev1) = uid_de (fst ev2) (snd ev2) -> i = j.
Proof.
  apply (X11_uid_distintos (E := externo_de_ejemplo)).
  repeat (apply Forall_cons;
          [vm_compute; repeat split; discriminate|]).
  apply Forall_nil.
Defined.

(** ** What a match tells about the text *)

(** A match consumes a prefix of the text and leaves the rest. *)
Lemma repetir_partes (paso : option ascii -> string -> caps -> list hit) :
  (forall prev s g c s' g',
      In (c, s', g') (paso prev s g) -> s = c ++ s') ->
  forall n prev s g c s' g',
    In (c, s', g') (repetir paso n prev s g) -> s = c ++ s'.
Proof.
  intros Hpaso. induction n as [|n IH]; intros prev s g c s' g';
    cbn [repetir].
  - intros [[= <- <- <-]|[]]. reflexivity.
  - intros H. apply in_app_or in H.
    destruct H as [H|[[= <- <- <-]|[]]]; [|reflexivity].
    apply in_flat_map in H. destruct H as ([[c1 s1] g1] & H1 & H2).
    destruct (Py.is_empty c1); [destruct H2|].
    apply in_map_iff in H2. destruct H2 as ([[c2 s2] g2] & Heq & H2).
    cbn [seguido] in Heq. injection Heq as <- <- <-.
    rewrite (Hpaso _ _ _ _ _ _ H1), (IH _ _ _ _ _ _ H2).
    symmetry. apply app_assoc_s.
Qed.

Lemma m_partes (r : regex) :
  forall prev s g c s' g',
    In (c, s', g') (m r prev s g) -> s = c ++ s'.
Proof.
  induction r as [p|r1 IH1 r2 IH2|r1 IH1|r1 IH1|i r1 IH1| |];
    intros prev s g c s' g' H.
  - apply in_m_Chr in H. destruct H as (a & s0 & -> & _ & [= -> -> ->]).
    reflexivity.
  - apply in_m_Cat in H.
    destruct H as (c1 & s1 & g1 & c2 & s2 & g2 & H1 & H2 & [= -> -> ->]).
    rewrite (IH1 _ _ _ _ _ _ H1), (IH2 _ _ _ _ _ _ H2).
    symmetry. apply app_assoc_s.
  - apply in_m_Opt in H. destruct H as [H|[= -> -> ->]]; [|reflexivity].
    apply (IH1 _ _ _ _ _ _ H).
  - cbn [m] in H. apply (repetir_partes (m r1) IH1 _ _ _ _ _ _ _ H).
  - apply in_m_Grp in H. destruct H as (c0 & s0 & g0 & H & [= -> -> ->]).
    apply (IH1 _ _ _ _ _ _ H).
  - cbn [m] in H. destruct s as [|a [|b s]].
    + destruct H as [[= <- <- <-]|[]]. reflexivity.
    + destruct (Ascii.eqb a "010"); [|destruct H].
      destruct H as [[= <- <- <-]|[]]. reflexivity.
    + destruct H.
  - cbn [m] in H.
    destruct (xorb (isword_at prev) (isword_at (first_char s))); [|destruct H].
    destruct H as [[= <- <- <-]|[]]. reflexivity.
Qed.

Lemma re_match_in (r : regex) (s : string) (mt : Match) :
  re_match r s = Some mt ->
  exists s', In (fst mt, s', snd mt) (m r None s []).
Proof.
  unfold re_match. destruct (m r None s []) as [|[[c s'] g] l];
    cbn [first_hit]; [discriminate|].
  intros [= <-]. exists s'. left. reflexivity.
Qed.

Lemma in_m_hora prev s g c s' g' :
  In (c, s', g') (m d12 prev s g) -> g' = g /\ es_hora c.
Proof.
  unfold d12, d. intros H. apply in_m_Cat in H.
  destruct H as (c1 & s1 & g1 & c2 & s2 & g2 & H1 & H2 & [= -> -> ->]).
  apply in_m_Chr in H1. destruct H1 as (a & s0 & -> & Hp & [= -> -> ->]).
  apply in_m_Opt in H2. destruct H2 as [H2|[= -> -> ->]].
  - apply in_m_Chr in H2. destruct H2 as (b & s3 & -> & Hq & [= -> -> ->]).
    split; [reflexivity|]. split; [simpl; rewrite Hp, Hq; reflexivity|].
    right. reflexivity.
  - split; [reflexivity|]. split; [simpl; rewrite Hp; reflexivity|].
    left. reflexivity.
Qed.

Lemma in_m_minutos prev s g c s' g' :
  In (c, s', g') (m d2 prev s g) -> g' = g /\ es_minutos c.
Proof.
  unfold d2, d. intros H. apply in_m_Cat in H.
  destruct H as (c1 & s1 & g1 & c2 & s2 & g2 & H1 & H2 & [= -> -> ->]).
  apply in_m_Chr in H1. destruct H1 as (a & s0 & -> & Hp & [= -> -> ->]).
  apply in_m_Chr in H2. destruct H2 as (b & s3 & -> & Hq & [= -> -> ->]).
  split; [reflexivity|]. split; [simpl; rewrite Hp, Hq|]; reflexivity.
Qed.

Lemma in_m_literal a prev s g c s' g' :
  In (c, s', g') (m (lit a) prev s g) ->
  g' = g /\ c = String a EmptyString.
Proof.
  unfold lit. intros H. apply in_m_Chr in H.
  destruct H as (b & s0 & -> & Hb & [= -> -> ->]).
  apply Ascii.eqb_eq in Hb. subst b. split; reflexivity.
Qed.

Lemma in_m_hhmm prev s g c s' g' :
  In (c, s', g') (m hhmm prev s g) ->
  g' = g /\ exists hh mm, c = hh ++ ":" ++ mm /\ es_hora hh /\ es_minutos mm.
Proof.
  unfold hhmm. intros H. apply in_m_Cat in H.
  destruct H as (c1 & s1 & g1 & c2 & s2 & g2 & H1 & H & [= -> -> ->]).
  apply in_m_hora in H1. destruct H1 as [-> Hh].
  apply in_m_Cat in H.
  destruct H as (c3 & s3 & g3 & c4 & s4 & g4 & H3 & H4 & [= -> -> ->]).
  apply in_m_literal in H3. destruct H3 as [-> ->].
  apply in_m_minutos in H4. destruct H4 as [-> Hm].
  split; [reflexivity|]. exists c1, c4. auto.
Qed.

(** The shape of a text on which the pattern of the time block matches. *)
Lemma in_m_RX_BLOQUE prev s c s' g :
  In (c, s', g) (m RX_BLOQUE prev s []) ->
  exists hh1 mm1 b1 b2 hh2 mm2,
    c = hh1 ++ ":" ++ mm1 ++ b1 ++ "-" ++ b2 ++ hh2 ++ ":" ++ mm2
    /\ g = [(2%nat, hh2 ++ ":" ++ mm2); (1%nat, hh1 ++ ":" ++ mm1)]
    /\ es_hora hh1 /\ es_minutos mm1 /\ es_hora hh2 /\ es_minutos mm2
    /\ Py.todos Py.isspace b1 = true /\ Py.todos Py.isspace b2 = true.
Proof.
  unfold RX_BLOQUE. intros H.
  apply in_m_Cat in H.
  destruct H as (k1 & t1 & h1 & r1 & u1 & v1 & H1 & H & [= -> -> ->]).
  apply in_m_Grp in H1. destruct H1 as (k1' & t1' & h1' & H1 & [= -> -> ->]).
  apply in_m_hhmm in H1. destruct H1 as (-> & hh1 & mm1 & -> & Hh1 & Hm1).
  apply in_m_Cat in H.
  destruct H as (b1 & t2 & h2 & r2 & u2 & v2 & H2 & H & [= -> -> ->]).
  apply in_m_Star_clase in H2. destruct H2 as [-> Hb1].
  apply in_m_Cat in H.
  destruct H as (k3 & t3 & h3 & r3 & u3 & v3 & H3 & H & [= -> -> ->]).
  apply in_m_literal in H3. destruct H3 as [-> ->].
  apply in_m_Cat in H.
  destruct H as (b2 & t4 & h4 & r4 & u4 & v4 & H4 & H & [= -> -> ->]).
  apply in_m_Star_clase in H4. destruct H4 as [-> Hb2].
  apply in_m_Grp in H. destruct H as (k5 & t5 & h5 & H5 & [= -> -> ->]).
  apply in_m_hhmm in H5. destruct H5 as (-> & hh2 & mm2 & -> & Hh2 & Hm2).
  exists hh1, mm1, b1, b2, hh2, mm2.
  rewrite !app_assoc_s. cbn [append]. repeat split; assumption || apply Hh1
    || apply Hm1 || apply Hh2 || apply Hm2.
Qed.

Lemma time_new_casos (h mi : Z) :
  (0 <= h <= 2147483647)%Z -> (0 <= mi <= 2147483647)%Z ->
  (time_new h mi = Ok (mk_time h mi 0) /\ (h <= 23)%Z /\ (mi <= 59)%Z)
  \/ (time_new h mi = Raise (ValueError "hour must be in 0..23")
      /\ (23 < h)%Z)
  \/ (time_new h mi = Raise (ValueError "minute must be in 0..59")
      /\ (h <= 23)%Z /\ (59 < mi)%Z).
Proof.
  intros Hh Hm. destruct (Z_le_gt_dec h 23) as [H1|H1].
  - destruct (Z_le_gt_dec mi 59) as [H2|H2].
    + left. rewrite time_new_ok by lia. auto.
    + right. right. rewrite time_new_minuto by lia. split; [reflexivity|lia].
  - right. left. rewrite time_new_hora by lia. split; [reflexivity|lia].
Qed.

(** The time block of a row, read backwards. *)
Lemma bloque_horario_casos (bloque : string) :
  (forall t_ini t_fin,
      bloque_horario bloque = Ok (Some (t_ini, t_fin)) ->
      exists hh1 mm1 b1 b2 hh2 mm2 resto,
        bloque = hh1 ++ ":" ++ mm1 ++ b1 ++ "-" ++ b2
                 ++ hh2 ++ ":" ++ mm2 ++ resto
        /\ es_hora hh1 /\ es_minutos mm1 /\ es_hora hh2 /\ es_minutos mm2
        /\ Py.todos Py.isspace b1 = true /\ Py.todos Py.isspace b2 = true
        /\ t_ini = mk_time (Py.valor hh1) (Py.valor mm1) 0
        /\ t_fin = mk_time (Py.valor hh2) (Py.valor mm2) 0
        /\ (Py.valor hh1 <= 23 /\ Py.valor mm1 <= 59
            /\ Py.valor hh2 <= 23 /\ Py.valor mm2 <= 59)%Z)
  /\ (forall e,
        bloque_horario bloque = Raise e ->
        e = ValueError "hour must be in 0..23"
        \/ e = ValueError "minute must be in 0..59").
Proof.
  unfold bloque_horario.
  destruct (re_match RX_BLOQUE bloque) as [mt|] eqn:Hmt;
    [|split; intros; discriminate].
  destruct (re_match_in _ _ _ Hmt) as [resto Hin].
  pose proof (m_partes _ _ _ _ _ _ _ Hin) as Hpartes.
  destruct mt as [c g]. cbn [fst snd] in Hin, Hpartes.
  apply in_m_RX_BLOQUE in Hin.
  destruct Hin as (hh1 & mm1 & b1 & b2 & hh2 & mm2 & -> & -> & Hh1 & Hm1
                   & Hh2 & Hm2 & Hb1 & Hb2).
  unfold group. cbn [snd lookup Nat.eqb].
  rewrite (hhmm_to_time_digitos hh1 mm1 Hh1 Hm1).
  rewrite (hhmm_to_time_digitos hh2 mm2 Hh2 Hm2).
  pose proof (es_hora_cota hh1 Hh1) as C1.
  pose proof (es_minutos_cota mm1 Hm1) as C2.
  pose proof (es_hora_cota hh2 Hh2) as C3.
  pose proof (es_minutos_cota mm2 Hm2) as C4.
  destruct (time_new_casos (Py.valor hh1) (Py.valor mm1))
    as [(-> & L1 & L2)|[(-> & _)|(-> & _)]]; try lia;
    cbn [bind];
    [|split; [intros; discriminate|intros e [= <-]; auto]
     |split; [intros; discriminate|intros e [= <-]; auto]].
  destruct (time_new_casos (Py.valor hh2) (Py.valor mm2))
    as [(-> & L3 & L4)|[(-> & _)|(-> & _)]]; try lia;
    cbn [bind];
    [|split; [intros; discriminate|intros e [= <-]; auto]
     |split; [intros; discriminate|intros e [= <-]; auto]].
  split; [|intros; discriminate].
  intros t_ini t_fin [= <- <-].
  exists hh1, mm1, b1, b2, hh2, mm2, resto.
  rewrite Hpartes, !app_assoc_s. cbn [append].
  repeat split; assumption || apply Hh1 || apply Hm1 || apply Hh2
    || apply Hm2.
Qed.

(** X12. The time block of a row, on any text.  The parser returns two
    times only on a text that begins with [H:MM], blanks, a dash, blanks,
    [H:MM] ([H] one or two digits), and then they are those numbers, with
    hours at most 23 and minutes at most 59 and no seconds; and the only
    errors it can raise are the two of the constructor of [time]: the
    split at the colon always gives two parts and [int] always reads
    them. *)
Theorem X12_bloque_horario_inverso (bloque : string) :
  (forall t_ini t_fin,
      bloque_horario bloque = Ok (Some (t_ini, t_fin)) ->
      exists hh1 mm1 b1 b2 hh2 mm2 resto,
        bloque = hh1 ++ ":" ++ mm1 ++ b1 ++ "-" ++ b2
                 ++ hh2 ++ ":" ++ mm2 ++ resto
        /\ es_hora hh1 /\ es_minutos mm1 /\ es_hora hh2 /\ es_minutos mm2
        /\ Py.todos Py.isspace b1 = true /\ Py.todos Py.isspace b2 = true
        /\ t_ini = mk_time (Py.valor hh1) (Py.valor mm1) 0
        /\ t_fin = mk_time (Py.valor hh2) (Py.valor mm2) 0
        /\ (Py.valor hh1 <= 23 /\ Py.valor mm1 <= 59
            /\ Py.valor hh2 <= 23 /\ Py.valor mm2 <= 59)%Z)
  /\ (forall e,
        bloque_horario bloque = Raise e ->
        e = ValueError "hour must be in 0..23"
        \/ e = ValueError "minute must be in 0..59").
Proof. apply bloque_horario_casos. Qed.

(** ** The texts of the events *)

Section PorCelda.

Context {E : Externo}.
Variable P : RawEvent -> Prop.

(** What holds of the events of every cell holds of the events of the
    desktop strategy, and likewise for the items of the mobile one. *)
Lemma desktop_por_celda :
  (forall anio mes headers_dias fechas t_ini t_fin idx td evs,
      celda anio mes headers_dias fechas t_ini t_fin idx td = Ok evs ->
      Forall P evs) ->
  forall html evs,
    extraer_eventos_desde_html html = Ok evs -> Forall P evs.
Proof.
  intros Hcelda html evs. unfold extraer_eventos_desde_html.
  destruct (parse_fecha_rango (etiqueta_desktop html))
    as [[[[d1 d2] mes] anio]|e]; simpl; [|discriminate].
  destruct (horario_table html) as [tabla|]; [|intros [= <-]; constructor].
  destruct (thead_tr tabla) as [header_cells|];
    [|intros [= <-]; constructor].
  destruct (mapear_fechas anio mes _) as [fechas|e]; simpl; [|discriminate].
  generalize (map (fun c => limpiar_texto (get_text c)) (tl header_cells)).
  intros hs. revert evs.
  induction (tbody_tr tabla) as [|tr trs IH]; intros evs; simpl.
  - intros [= <-]. constructor.
  - destruct (fila anio mes hs fechas tr) as [evs1|e] eqn:H1; simpl;
      [|discriminate].
    destruct (filas anio mes hs fechas trs) as [evs2|e]; simpl;
      [|discriminate].
    intros [= <-]. apply Forall_app. split; [|apply IH; reflexivity].
    unfold fila in H1. destruct tr as [|c0 tds];
      [injection H1 as <-; constructor|].
    destruct (bloque_horario (limpiar_texto (get_text c0)))
      as [[[t_ini t_fin]|]|e]; simpl in H1;
      [|injection H1 as <-; constructor|discriminate].
    clear IH. revert H1. generalize 0%nat. revert evs1.
    induction tds as [|td tds IHt]; intros evs1 idx; simpl.
    + intros [= <-]. constructor.
    + destruct (celda anio mes hs fechas t_ini t_fin idx td)
        as [e1|e] eqn:Hc; simpl; [|discriminate].
      destruct (celdas anio mes hs fechas t_ini t_fin (S idx) tds)
        as [e2|e] eqn:Hcs; simpl; [|discriminate].
      intros [= <-]. apply Forall_app. split.
      * apply (Hcelda _ _ _ _ _ _ _ _ _ Hc).
      * apply (IHt _ _ Hcs).
Qed.

Lemma movil_por_item :
  (forall f item evs, item_movil f item = Ok evs -> Forall P evs) ->
  forall html evs,
    extraer_eventos_fallback_movil html = Ok evs -> Forall P evs.
Proof.
  intros Hitem html evs. unfold extraer_eventos_fallback_movil.
  destruct (parse_fecha_rango (etiqueta_movil html))
    as [[[[d1 d2] mes] anio]|e]; simpl; [|discriminate].
  revert evs. induction (schedule_mob html) as [|art arts IH]; intros evs;
    simpl.
  - intros [= <-]. constructor.
  - destruct (articulo anio mes art) as [evs1|e] eqn:H1; simpl;
      [|discriminate].
    destruct (articulos anio mes arts) as [evs2|e]; simpl; [|discriminate].
    intros [= <-]. apply Forall_app. split; [|apply IH; reflexivity].
    unfold articulo in H1.
    destruct (schedule_title art) as [titulo_el|];
      [|injection H1 as <-; constructor].
    destruct (re_search RX_DIA_FIN _) as [mt|];
      [|injection H1 as <-; constructor].
    destruct (Py.int (group 1 mt)) as [n|e]; simpl in H1; [|discriminate].
    destruct (date_new anio mes n) as [f|e]; simpl in H1; [|discriminate].
    clear IH. revert evs1 H1.
    induction (schedule_item_list art) as [|item items IHi]; intros evs1;
      simpl.
    + intros [= <-]. constructor.
    + destruct (item_movil f item) as [e1|e] eqn:Hi; simpl; [|discriminate].
      destruct (items_movil f items) as [e2|e]; simpl; [|discriminate].
      intros [= <-]. apply Forall_app. split.
      * apply (Hitem _ _ _ Hi).
      * apply IHi. reflexivity.
Qed.

End PorCelda.

Lemma limpio_blanco (antes : string) (a : ascii) (r : string) :
  forall b, limpio_desde b (antes ++ String a r) = true ->
    Py.isspace a = true -> a = " "%char.
Proof.
  induction antes as [|c antes IH]; intros b; cbn [append limpio_desde].
  - intros H Ha. rewrite Ha in H.
    apply andb_true_iff in H. destruct H as [H _].
    apply andb_true_iff in H. destruct H as [H _].
    apply Ascii.eqb_eq in H. exact H.
  - destruct (Py.isspace c).
    + intros H. apply andb_true_iff in H. destruct H as [_ Hs].
      apply (IH true Hs).
    + apply IH.
Qed.

(** The shape of a text on which the pattern of a mobile item matches. *)
Lemma in_m_RX_ITEM prev s c s' g :
  In (c, s', g) (m RX_ITEM prev s []) ->
  exists hh1 mm1 b1 b2 hh2 mm2 b3 c3,
    c = (hh1 ++ ":" ++ mm1 ++ b1 ++ "-" ++ b2 ++ hh2 ++ ":" ++ mm2)
        ++ b3 ++ c3
    /\ es_hora hh1 /\ es_minutos mm1 /\ es_hora hh2 /\ es_minutos mm2
    /\ Py.todos Py.isspace b1 = true /\ Py.todos Py.isspace b2 = true
    /\ Py.todos Py.isspace b3 = true /\ b3 <> EmptyString.
Proof.
  unfold RX_ITEM. intros H.
  apply in_m_Cat in H.
  destruct H as (k1 & t1 & h1 & r1 & u1 & v1 & H1 & H & [= -> -> ->]).
  apply in_m_Grp in H1. destruct H1 as (k1' & t1' & h1' & H1 & [= -> -> ->]).
  apply in_m_hhmm in H1. destruct H1 as (-> & hh1 & mm1 & -> & Hh1 & Hm1).
  apply in_m_Cat in H.
  destruct H as (b1 & t2 & h2 & r2 & u2 & v2 & H2 & H & [= -> -> ->]).
  apply in_m_Star_clase in H2. destruct H2 as [-> Hb1].
  apply in_m_Cat in H.
  destruct H as (k3 & t3 & h3 & r3 & u3 & v3 & H3 & H & [= -> -> ->]).
  apply in_m_literal in H3. destruct H3 as [-> ->].
  apply in_m_Cat in H.
  destruct H as (b2 & t4 & h4 & r4 & u4 & v4 & H4 & H & [= -> -> ->]).
  apply in_m_Star_clase in H4. destruct H4 as [-> Hb2].
  apply in_m_Cat in H.
  destruct H as (k5 & t5 & h5 & r5 & u5 & v5 & H5 & H & [= -> -> ->]).
  apply in_m_Grp in H5. destruct H5 as (k5' & t5' & h5' & H5 & [= -> -> ->]).
  apply in_m_hhmm in H5. destruct H5 as (-> & hh2 & mm2 & -> & Hh2 & Hm2).
  apply in_m_Cat in H.
  destruct H as (b3 & t6 & h6 & c3 & u6 & v6 & H6 & H & [= -> -> ->]).
  apply in_m_Plus_clase in H6. destruct H6 as (-> & Hb3 & Nb3).
  exists hh1, mm1, b1, b2, hh2, mm2, b3, c3.
  rewrite !app_assoc_s. cbn [append].
  repeat split; assumption || apply Hh1 || apply Hm1 || apply Hh2
    || apply Hm2.
Qed.

Section Textos.

Context {E : Externo}.

Lemma celda_textos anio mes headers_dias fechas t_ini t_fin idx td evs :
  celda anio mes headers_dias fechas t_ini t_fin idx td = Ok evs ->
  Forall (fun ev => texto_ok ev /\ sin_clases (snd ev) = false) evs.
Proof.
  unfold celda.
  destruct (sin_clases (limpiar_texto (get_text_sep " " td))) eqn:Hs;
    [intros [= <-]; constructor|].
  destruct (fecha_de_celda anio mes headers_dias fechas idx) as [[f|]|e];
    simpl; try discriminate; intros [= <-]; constructor; [|constructor].
  pose proof (limpiar_texto_no_sin_clases _ Hs) as Hl.
  rewrite (partes_primer_segmento _ Hl).
  split; [|exact Hs]. unfold texto_ok.
  split; [exact Hl|]. split; [reflexivity|].
  apply (primer_segmento_limpio _ Hl).
Qed.

(** A mobile item that gives an event, read backwards. *)
Lemma item_movil_forma (f : date) (item : tag) :
  (forall evs,
      item_movil f item = Ok evs ->
      evs = []
      \/ exists hh1 mm1 b1 b2 hh2 mm2 c,
           limpiar_texto (get_text_sep " " item)
           = (hh1 ++ ":" ++ mm1 ++ b1 ++ "-" ++ b2 ++ hh2 ++ ":" ++ mm2)
             ++ " " ++ c
           /\ es_hora hh1 /\ es_minutos mm1 /\ es_hora hh2 /\ es_minutos mm2
           /\ Py.todos Py.isspace b1 = true /\ Py.todos Py.isspace b2 = true
           /\ limpio_desde true c = true
           /\ evs = [(f, mk_time (Py.valor hh1) (Py.valor mm1) 0,
                      mk_time (Py.valor hh2) (Py.valor mm2) 0,
                      primer_segmento c, c)]
           /\ (Py.valor hh1 <= 23 /\ Py.valor mm1 <= 59
               /\ Py.valor hh2 <= 23 /\ Py.valor mm2 <= 59)%Z)
  /\ (forall e,
        item_movil f item = Raise e ->
        e = ValueError "hour must be in 0..23"
        \/ e = ValueError "minute must be in 0..59").
Proof.
  destruct (sin_clases (limpiar_texto (get_text_sep " " item))) eqn:Hs.
  { unfold item_movil. rewrite Hs.
    split; [intros evs [= <-]; left; reflexivity|intros; discriminate]. }
  destruct (re_match RX_ITEM (limpiar_texto (get_text_sep " " item)))
    as [mt|] eqn:Hmt.
  2: { unfold item_movil. rewrite Hs, Hmt.
       split; [intros evs [= <-]; left; reflexivity|intros; discriminate]. }
  pose proof (limpiar_texto_no_sin_clases _ Hs) as Hl.
  destruct (re_match_in _ _ _ Hmt) as [resto Hin].
  pose proof (m_partes _ _ _ _ _ _ _ Hin) as Hpartes.
  apply in_m_RX_ITEM in Hin.
  destruct Hin as (hh1 & mm1 & b1 & b2 & hh2 & mm2 & b3 & c3 & Hc & Hh1 & Hm1
                   & Hh2 & Hm2 & Hb1 & Hb2 & Hb3 & Nb3).
  rewrite Hc in Hpartes. destruct b3 as [|a b3]; [contradiction|].
  cbn [Py.todos] in Hb3. apply andb_true_iff in Hb3. destruct Hb3 as [Ha _].
  assert (Htxt : limpiar_texto (get_text_sep " " item)
                 = (hh1 ++ ":" ++ mm1 ++ b1 ++ "-" ++ b2 ++ hh2 ++ ":" ++ mm2)
                   ++ String a ((b3 ++ c3) ++ resto)).
  { rewrite Hpartes, !app_assoc_s. reflexivity. }
  rewrite Htxt in Hl.
  pose proof (limpio_blanco _ _ _ _ Hl Ha) as Hesp. subst a.
  pose proof (limpio_despues _ _ _ Hl) as Hcont.
  rewrite (item_evento f item hh1 mm1 b1 b2 hh2 mm2 ((b3 ++ c3) ++ resto)
             Hh1 Hm1 Hh2 Hm2 Hb1 Hb2 Htxt).
  pose proof (es_hora_cota hh1 Hh1) as C1.
  pose proof (es_minutos_cota mm1 Hm1) as C2.
  pose proof (es_hora_cota hh2 Hh2) as C3.
  pose proof (es_minutos_cota mm2 Hm2) as C4.
  destruct (time_new_casos (Py.valor hh1) (Py.valor mm1))
    as [(-> & L1 & L2)|[(-> & _)|(-> & _)]]; try lia;
    cbn [bind];
    [|split; [intros; discriminate|intros e [= <-]; auto]
     |split; [intros; discriminate|intros e [= <-]; auto]].
  destruct (time_new_casos (Py.valor hh2) (Py.valor mm2))
    as [(-> & L3 & L4)|[(-> & _)|(-> & _)]]; try lia;
    cbn [bind];
    [|split; [intros; discriminate|intros e [= <-]; auto]
     |split; [intros; discriminate|intros e [= <-]; auto]].
  split; [|intros; discriminate].
  intros evs [= <-]. right.
  exists hh1, mm1, b1, b2, hh2, mm2, ((b3 ++ c3) ++ resto).
  repeat split; assumption || apply Hh1 || apply Hm1 || apply Hh2
    || apply Hm2.
Qed.

Lemma item_movil_textos (f : date) (item : tag) (evs : list RawEvent) :
  item_movil f item = Ok evs -> Forall texto_ok evs.
Proof.
  intros H. destruct (item_movil_forma f item) as [Hf _].
  destruct (Hf evs H) as [->|(hh1 & mm1 & b1 & b2 & hh2 & mm2 & c & _ & _ & _
                              & _ & _ & _ & _ & Hc & -> & _)];
    constructor; [|constructor].
  unfold texto_ok. split; [exact Hc|]. split; [reflexivity|].
  apply (primer_segmento_limpio _ Hc).
Qed.

(** X13. The texts of the events, in both strategies: the description is
    a cleaned text that is not empty, and the title is the first segment
    of the description delimited by [" / "], itself cleaned and not empty
    (no event has an empty title).  In the desktop strategy the
    description never begins with [sin clases]. *)
Theorem X13_textos_de_los_eventos (html : snapshot) (evs : list RawEvent) :
  (extraer_eventos_desde_html html = Ok evs ->
   Forall (fun ev => texto_ok ev /\ sin_clases (snd ev) = false) evs)
  /\ (extraer_eventos_fallback_movil html = Ok evs -> Forall texto_ok evs).
Proof.
  split.
  - apply desktop_por_celda. intros anio mes hs fechas t_ini t_fin idx td.
    apply celda_textos.
  - apply movil_por_item. apply item_movil_textos.
Qed.

(** X14. A mobile item, read backwards.  When the item gives an event,
    its cleaned text is a time block [H:MM - H:MM], one space, and a
    cleaned content that is not empty; the event has the times of the
    block (hours at most 23, minutes at most 59, no seconds), the content
    as description and its first segment as title.  Otherwise the item
    gives no event, or raises one of the two errors of the constructor of
    [time] and no other. *)
Theorem X14_item_movil_inverso (f : date) (item : tag) :
  (forall evs,
      item_movil f item = Ok evs ->
      evs = []
      \/ exists hh1 mm1 b1 b2 hh2 mm2 c,
           limpiar_texto (get_text_sep " " item)
           = (hh1 ++ ":" ++ mm1 ++ b1 ++ "-" ++ b2 ++ hh2 ++ ":" ++ mm2)
             ++ " " ++ c
           /\ es_hora hh1 /\ es_minutos mm1 /\ es_hora hh2 /\ es_minutos mm2
           /\ Py.todos Py.isspace b1 = true /\ Py.todos Py.isspace b2 = true
           /\ limpio_desde true c = true
           /\ evs = [(f, mk_time (Py.valor hh1) (Py.valor mm1) 0,
                      mk_time (Py.valor hh2) (Py.valor mm2) 0,
                      primer_segmento c, c)]
           /\ (Py.valor hh1 <= 23 /\ Py.valor mm1 <= 59
               /\ Py.valor hh2 <= 23 /\ Py.valor mm2 <= 59)%Z)
  /\ (forall e,
        item_movil f item = Raise e ->
        e = ValueError "hour must be in 0..23"
        \/ e = ValueError "minute must be in 0..59").
Proof. apply item_movil_forma. Qed.

End Textos.

(** ** The resolver of the week's label, read backwards *)

Lemma search_from_donde r s :
  forall prev mt,
    search_from r prev s = Some mt ->
    exists antes prev' s0 s',
      s = antes ++ s0 /\ In (fst mt, s', snd mt) (m r prev' s0 []).
Proof.
  induction s as [|a s IH]; intros prev mt; cbn [search_from].
  - destruct (m r prev EmptyString []) as [|[[c s'] g] l] eqn:Hm;
      cbn [first_hit]; [discriminate|].
    intros [= <-]. exists EmptyString, prev, EmptyString, s'.
    split; [reflexivity|]. rewrite Hm. left. reflexivity.
  - destruct (m r prev (String a s) []) as [|[[c s'] g] l] eqn:Hm;
      cbn [first_hit].
    + intros H. destruct (IH _ _ H) as (antes & prev' & s0 & s' & -> & Hin).
      exists (String a antes), prev', s0, s'. split; [reflexivity|exact Hin].
    + intros [= <-]. exists EmptyString, prev, (String a s), s'.
      split; [reflexivity|]. rewrite Hm. left. reflexivity.
Qed.

Lemma in_m_anio prev s g c s' g' :
  In (c, s', g') (m d4 prev s g) -> g' = g /\ es_anio c.
Proof.
  unfold d4, d. intros H.
  apply in_m_Cat in H.
  destruct H as (c1 & s1 & g1 & c2 & s2 & g2 & H1 & H & [= -> -> ->]).
  apply in_m_Chr in H1. destruct H1 as (a1 & z1 & -> & Hp1 & [= -> -> ->]).
  apply in_m_Cat in H.
  destruct H as (c1 & s1 & g1 & c3 & s3 & g3 & H1 & H & [= -> -> ->]).
  apply in_m_Chr in H1. destruct H1 as (a2 & z2 & -> & Hp2 & [= -> -> ->]).
  apply in_m_Cat in H.
  destruct H as (c1 & s1 & g1 & c4 & s4 & g4 & H1 & H & [= -> -> ->]).
  apply in_m_Chr in H1. destruct H1 as (a3 & z3 & -> & Hp3 & [= -> -> ->]).
  apply in_m_Chr in H. destruct H as (a4 & z4 & -> & Hp4 & [= -> -> ->]).
  split; [reflexivity|].
  split; [simpl; rewrite Hp1, Hp2, Hp3, Hp4|]; reflexivity.
Qed.

Lemma es_anio_cota (s : string) : es_anio s -> (0 <= Py.valor s <= 9999)%Z.
Proof.
  intros [Hd Hl].
  destruct s as [|c1 [|c2 [|c3 [|c4 [|c5 s]]]]]; try discriminate.
  cbn [Py.todos] in Hd.
  repeat (apply andb_true_iff in Hd;
          let H := fresh "D" in destruct Hd as [H Hd]).
  pose proof (digito_valor c1 D). pose proof (digito_valor c2 D0).
  pose proof (digito_valor c3 D1). pose proof (digito_valor c4 D2).
  unfold Py.valor. cbn [Py.valor_desde]. lia.
Qed.

Lemma replace_punto_app (a b : string) :
  Py.replace "." EmptyString (a ++ b)
  = Py.replace "." EmptyString a ++ Py.replace "." EmptyString b.
Proof.
  induction a as [|c a IH]; [reflexivity|]. cbn [append Py.replace].
  destruct (Ascii.eqb c "."); rewrite IH; reflexivity.
Qed.

(** Every match of the range pattern, part by part. *)
Lemma in_m_RX_RANGO_forma prev s c s' g :
  In (c, s', g) (m RX_RANGO prev s []) ->
  exists k1 b1 b2 k2 b3 k3 p b4 k4,
    c = k1 ++ b1 ++ "-" ++ b2 ++ k2 ++ b3 ++ k3 ++ p ++ b4 ++ k4
    /\ g = [(4%nat, k4); (3%nat, k3); (2%nat, k2); (1%nat, k1)]
    /\ es_dia k1 /\ es_dia k2 /\ es_token_mes k3
    /\ (p = EmptyString \/ p = ".") /\ es_anio k4
    /\ Py.todos Py.isspace b1 = true /\ Py.todos Py.isspace b2 = true
    /\ (Py.todos Py.isspace b3 = true /\ b3 <> EmptyString)
    /\ (Py.todos Py.isspace b4 = true /\ b4 <> EmptyString).
Proof.
  unfold RX_RANGO. intros H.
  apply in_m_Cat in H.
  destruct H as (a1 & t1 & h1 & a2 & t2 & h2 & H1 & H & [= -> -> ->]).
  apply in_m_Grp in H1. destruct H1 as (k1 & u1 & v1 & H1 & [= -> -> ->]).
  apply in_m_hora in H1. destruct H1 as (-> & Hk1).
  apply in_m_Cat in H.
  destruct H as (b1 & t3 & h3 & a4 & t4 & h4 & H2 & H & [= -> -> ->]).
  apply in_m_Star_clase in H2. destruct H2 as [-> Hb1].
  apply in_m_Cat in H.
  destruct H as (a5 & t5 & h5 & a6 & t6 & h6 & H2 & H & [= -> -> ->]).
  apply in_m_literal in H2. destruct H2 as [-> ->].
  apply in_m_Cat in H.
  destruct H as (b2 & t7 & h7 & a8 & t8 & h8 & H2 & H & [= -> -> ->]).
  apply in_m_Star_clase in H2. destruct H2 as [-> Hb2].
  apply in_m_Cat in H.
  destruct H as (a9 & t9 & h9 & a10 & w1 & j1 & H2 & H & [= -> -> ->]).
  apply in_m_Grp in H2. destruct H2 as (k2 & u2 & v2 & H2 & [= -> -> ->]).
  apply in_m_hora in H2. destruct H2 as (-> & Hk2).
  apply in_m_Cat in H.
  destruct H as (b3 & w2 & j2 & a11 & w3 & j3 & H3 & H & [= -> -> ->]).
  apply in_m_Plus_clase in H3. destruct H3 as (-> & Hb3).
  apply in_m_Cat in H.
  destruct H as (a12 & w4 & j4 & a13 & w5 & j5 & H3 & H & [= -> -> ->]).
  apply in_m_Grp in H3. destruct H3 as (k3 & u3 & v3 & H3 & [= -> -> ->]).
  apply in_m_Plus_clase in H3. destruct H3 as (-> & Hk3).
  apply in_m_Cat in H.
  destruct H as (p & w6 & j6 & a14 & w7 & j7 & H4 & H & [= -> -> ->]).
  assert (Hp : j6 = [(3%nat, k3); (2%nat, k2); (1%nat, k1)]
               /\ (p = EmptyString \/ p = ".")).
  { apply in_m_Opt in H4. destruct H4 as [H4|[= -> _ ->]].
    - apply in_m_literal in H4. destruct H4 as [-> ->]. auto.
    - auto. }
  destruct Hp as [-> Hp].
  apply in_m_Cat in H.
  destruct H as (b4 & w8 & j8 & a15 & w9 & j9 & H5 & H & [= -> -> ->]).
  apply in_m_Plus_clase in H5. destruct H5 as (-> & Hb4).
  apply in_m_Grp in H. destruct H as (k4 & u4 & v4 & H & [= -> -> ->]).
  apply in_m_anio in H. destruct H as (-> & Hk4).
  exists k1, b1, b2, k2, b3, k3, p, b4, k4.
  split; [reflexivity|]. split; [reflexivity|].
  repeat split; try tauto; try apply Hk1; try apply Hk2; try apply Hk4.
Qed.

Lemma token_con_punto (k3 p : string) :
  es_token_mes k3 -> p = EmptyString \/ p = "." -> es_token_mes (k3 ++ p).
Proof.
  intros [Hk Nk] Hp. split.
  - rewrite todos_app, Hk. destruct Hp as [->| ->]; reflexivity.
  - destruct k3; [contradiction|discriminate].
Qed.

Lemma replace_punto_cola (k3 p : string) :
  p = EmptyString \/ p = "." ->
  Py.replace "." EmptyString (k3 ++ p) = Py.replace "." EmptyString k3.
Proof.
  intros Hp. rewrite replace_punto_app.
  destruct Hp as [->| ->]; cbn [Py.replace Ascii.eqb]; apply app_nil_r_s.
Qed.

Lemma parse_fecha_rango_casos (label : string) :
  (forall d1 d2 mes anio,
      parse_fecha_rango label = Ok (d1, d2, mes, anio) ->
      exists antes k1 b1 b2 k2 b3 tok b4 k4 resto,
        Py.lower (Py.strip label)
        = antes ++ k1 ++ b1 ++ "-" ++ b2 ++ k2 ++ b3 ++ tok ++ b4 ++ k4
          ++ resto
        /\ es_dia k1 /\ es_dia k2 /\ es_token_mes tok /\ es_anio k4
        /\ Py.todos Py.isspace b1 = true /\ Py.todos Py.isspace b2 = true
        /\ (Py.todos Py.isspace b3 = true /\ b3 <> EmptyString)
        /\ (Py.todos Py.isspace b4 = true /\ b4 <> EmptyString)
        /\ d1 = Py.valor k1 /\ d2 = Py.valor k2 /\ anio = Py.valor k4
        /\ dict_get (Py.replace "." EmptyString tok) MESES = Some mes
        /\ (0 <= d1 <= 99 /\ 0 <= d2 <= 99 /\ 1 <= mes <= 12
            /\ 0 <= anio <= 9999)%Z)
  /\ (forall e,
        parse_fecha_rango label = Raise e ->
        e = ValueError ("No pude leer el rango de fechas desde: " ++ label)
        \/ exists mes_txt,
             e = ValueError ("Mes no reconocido: " ++ mes_txt)
             /\ dict_get mes_txt MESES = None).
Proof.
  destruct (re_search RX_RANGO (Py.lower (Py.strip label))) as [mt|] eqn:Hs.
  2: { rewrite (parse_fecha_rango_sin_rango label Hs).
       split; [intros; discriminate|intros e [= <-]; left; reflexivity]. }
  destruct (dict_get (Py.replace "." EmptyString (group 3 mt)) MESES)
    as [mes|] eqn:Hm.
  2: { rewrite (parse_fecha_rango_mes_desconocido label mt Hs Hm).
       split; [intros; discriminate|].
       intros e [= <-]. right. eexists. split; [reflexivity|exact Hm]. }
  rewrite (parse_fecha_rango_mes label mt mes Hs Hm).
  split; [|intros; discriminate].
  intros d1 d2 mes' anio [= <- <- <- <-].
  unfold re_search in Hs. apply search_from_donde in Hs.
  destruct Hs as (antes & prev & s0 & resto & Htxt & Hin).
  pose proof (m_partes _ _ _ _ _ _ _ Hin) as Hs0.
  apply in_m_RX_RANGO_forma in Hin.
  destruct Hin as (k1 & b1 & b2 & k2 & b3 & k3 & p & b4 & k4 & Hc & Hg
                   & Hk1 & Hk2 & Hk3 & Hp & Hk4 & Hb1 & Hb2 & Hb3 & Hb4).
  unfold group in *. rewrite Hg in *. cbn [lookup Nat.eqb] in *.
  exists antes, k1, b1, b2, k2, b3, (k3 ++ p), b4, k4, resto.
  split.
  { rewrite Htxt, Hs0, Hc, !app_assoc_s. reflexivity. }
  rewrite (replace_punto_cola k3 p Hp).
  pose proof (es_hora_cota k1 Hk1). pose proof (es_hora_cota k2 Hk2).
  pose proof (es_anio_cota k4 Hk4). pose proof (MESES_rango _ _ Hm).
  pose proof (token_con_punto k3 p Hk3 Hp) as Htok.
  repeat split; try assumption; try tauto; try lia;
    try apply Hk1; try apply Hk2; try apply Hk4; try apply Hb3;
    try apply Hb4; apply Htok.
Qed.

(** X15. The resolver of the week's label, read backwards.  It returns a
    result only when the label, without its surrounding blanks and in
    lower case, holds somewhere: one or two digits, blanks, a dash,
    blanks, one or two digits, at least one blank, a token of letters
    [a-z], [ñ] and periods, at least one blank, four digits.  The result
    is then the two numbers, the month the table gives for the token
    without its periods, and the year; the days are between 0 and 99 (they
    are not checked against the month), the month between 1 and 12, the
    year between 0 and 9999.  The only errors it can raise are the one that
    names the label and the one that names a month the table does not
    have; [int] never fails on what the pattern captured. *)
Theorem X15_parse_fecha_rango_inverso (label : string) :
  (forall d1 d2 mes anio,
      parse_fecha_rango label = Ok (d1, d2, mes, anio) ->
      exists antes k1 b1 b2 k2 b3 tok b4 k4 resto,
        Py.lower (Py.strip label)
        = antes ++ k1 ++ b1 ++ "-" ++ b2 ++ k2 ++ b3 ++ tok ++ b4 ++ k4
          ++ resto
        /\ es_dia k1 /\ es_dia k2 /\ es_token_mes tok /\ es_anio k4
        /\ Py.todos Py.isspace b1 = true /\ Py.todos Py.isspace b2 = true
        /\ (Py.todos Py.isspace b3 = true /\ b3 <> EmptyString)
        /\ (Py.todos Py.isspace b4 = true /\ b4 <> EmptyString)
        /\ d1 = Py.valor k1 /\ d2 = Py.valor k2 /\ anio = Py.valor k4
        /\ dict_get (Py.replace "." EmptyString tok) MESES = Some mes
        /\ (0 <= d1 <= 99 /\ 0 <= d2 <= 99 /\ 1 <= mes <= 12
            /\ 0 <= anio <= 9999)%Z)
  /\ (forall e,
        parse_fecha_rango label = Raise e ->
        e = ValueError ("No pude leer el rango de fechas desde: " ++ label)
        \/ exists mes_txt,
             e = ValueError ("Mes no reconocido: " ++ mes_txt)
             /\ dict_get mes_txt MESES = None).
Proof. apply parse_fecha_rango_casos. Qed.

(** ** The run as a trace of effects *)

Lemma stdout_imprime (ls : list linea) : stdout (map Imprime ls) = ls.
Proof.
  unfold stdout. induction ls as [|l ls IH]; simpl; [|rewrite IH];
    reflexivity.
Qed.






Lemma mover_semana_falla (icons : result (list string))
  (pulsar : result unit) (e : exn) :
  mover_semana icons pulsar "next" = Raise e ->
  icons = Raise e
  \/ exists l,
       icons = Ok l
       /\ ((Forall (fun ic => Py.strip ic <> "chevron_right") l
            /\ e = RuntimeError sin_boton)
           \/ (Exists (fun ic => Py.strip ic = "chevron_right") l
               /\ pulsar = Raise e)).
Proof.
  unfold mover_semana. destruct icons as [l|e0]; cbn [bind].
  2: { intros [= <-]. left. reflexivity. }
  intros H. right. exists l. split; [reflexivity|].
  destruct (find _ l) as [ic|] eqn:Hf.
  - right. split; [|exact H]. apply find_some in Hf. destruct Hf as [Hin Hc].
    apply Exists_exists. exists ic. split; [exact Hin|].
    cbn in Hc. rewrite Bool.orb_false_r in Hc. apply String.eqb_eq. exact Hc.
  - left. injection H as <-. split; [|reflexivity].
    apply Forall_forall. intros ic Hin Heq.
    pose proof (find_none _ _ Hf ic Hin) as Hc. cbn in Hc.
    rewrite Bool.orb_false_r in Hc. apply String.eqb_neq in Hc.
    apply Hc. exact Heq.
Qed.

Section Traza.

Context {E : Externo}.
Variable ent : entorno.

Local Open Scope nat_scope.

Lemma turno_inv_ok (dump_ : bool) (i : nat) (ultimo : bool)
  (tr : list efecto) (evs : list RawEvent) :
  turno ent dump_ i ultimo = (tr, Ok evs) ->
  exists html out,
    page_source ent i = Ok html
    /\ semana html = (out, Ok evs)
    /\ tr = map Imprime (aviso_dump ent dump_ i ++ out)
    /\ (ultimo = false ->
        mover_semana (iconos ent i) (click ent i) "next" = Ok tt).
Proof.
  unfold turno, aviso_dump, luego, eleva, de_semana, imprime, hace, ret.
  destruct (page_source ent i) as [html|e0]; [|discriminate].
  destruct (semana html) as [out [evs0|e0]] eqn:Hs; cbn [fst snd].
  2: { destruct (dump_ && Nat.eqb i 0 && volcado ent)%bool; discriminate. }
  destruct ultimo.
  - destruct (dump_ && Nat.eqb i 0 && volcado ent)%bool; cbn;
      intros [= <- <-]; exists html, out; rewrite ?app_nil_r;
      repeat split; try assumption; discriminate.
  - destruct (mover_semana (iconos ent i) (click ent i) "next") as [[]|e0];
      destruct (dump_ && Nat.eqb i 0 && volcado ent)%bool; cbn;
      try discriminate;
      intros [= <- <-]; exists html, out; rewrite ?app_nil_r;
      repeat split; assumption.
Qed.

Lemma turno_inv_raise (dump_ : bool) (i : nat) (ultimo : bool)
  (tr : list efecto) (e : exn) :
  turno ent dump_ i ultimo = (tr, Raise e) ->
  (page_source ent i = Raise e /\ tr = [])
  \/ exists html out,
       page_source ent i = Ok html
       /\ tr = map Imprime (aviso_dump ent dump_ i ++ out)
       /\ (semana html = (out, Raise e)
           \/ exists evs,
                semana html = (out, Ok evs)
                /\ ultimo = false
                /\ mover_semana (iconos ent i) (click ent i) "next"
                   = Raise e).
Proof.
  unfold turno, aviso_dump, luego, eleva, de_semana, imprime, hace, ret.
  destruct (page_source ent i) as [html|e0].
  2: { intros [= <- <-]. left. split; reflexivity. }
  intros H. right. exists html.
  destruct (semana html) as [out [evs0|e0]] eqn:Hs; cbn [fst snd] in H.
  - exists out. destruct ultimo.
    + destruct (dump_ && Nat.eqb i 0 && volcado ent)%bool; cbn in H;
        discriminate.
    + destruct (mover_semana (iconos ent i) (click ent i) "next")
        as [[]|e0] eqn:Hm;
        destruct (dump_ && Nat.eqb i 0 && volcado ent)%bool; cbn in H;
        try discriminate; injection H as <- <-; rewrite ?app_nil_r;
        (split; [reflexivity|]); (split; [reflexivity|]);
        right; exists evs0; repeat split; assumption.
  - exists out.
    destruct (dump_ && Nat.eqb i 0 && volcado ent)%bool; cbn in H;
      injection H as <- <-; repeat split; left; reflexivity.
Qed.


(** The turns of a capture that ends without error. *)
Lemma capturar_ok (dump_ : bool) (total : nat) :
  forall n i acumulados tr res,
    i + n = total ->
    capturar ent dump_ i n acumulados = (tr, Ok res) ->
    exists semanas,
      Forall2 (turno_ok ent dump_ total) (seq i n) semanas
      /\ res = (acumulados ++ List.concat (map snd semanas))%list
      /\ tr = map Imprime (List.concat (map fst semanas)).
Proof.
  induction n as [|n IH]; intros i acumulados tr res Ht; cbn [capturar].
  - intros [= <- <-]. exists []. split; [constructor|].
    simpl. rewrite app_nil_r. split; reflexivity.
  - unfold luego at 1.
    destruct (turno ent dump_ i (Nat.eqb n 0)) as [t0 [evs|e0]] eqn:Hturno;
      [|discriminate].
    destruct (capturar ent dump_ (S i) n (acumulados ++ evs)%list)
      as [t1 r1] eqn:Hc.
    intros [= <- ->].
    destruct (IH (S i) _ _ _ ltac:(lia) Hc) as (ss & Hturnos & -> & ->).
    destruct (turno_inv_ok _ _ _ _ _ Hturno) as (html & out & Hp & Hs & -> & Hm).
    exists (((aviso_dump ent dump_ i ++ out)%list, evs) :: ss)%list.
    split; [|split].
    + cbn [seq]. constructor; [|exact Hturnos].
      exists html, out. repeat split; try assumption.
      intros Hlt. apply Hm. apply Nat.eqb_neq. lia.
    + cbn [map List.concat fst snd]. rewrite <- app_assoc. reflexivity.
    + cbn [map List.concat fst snd]. rewrite <- map_app. reflexivity.
Qed.

(** The turns of a capture that ends with an error. *)
Lemma capturar_raise (dump_ : bool) (total : nat) :
  forall n i acumulados tr e,
    i + n = total ->
    capturar ent dump_ i n acumulados = (tr, Raise e) ->
    exists k semanas trk,
      k < n
      /\ Forall2 (turno_ok ent dump_ total) (seq i k) semanas
      /\ turno ent dump_ (i + k) (Nat.eqb (S (i + k)) total) = (trk, Raise e)
      /\ tr = (map Imprime (List.concat (map fst semanas)) ++ trk)%list.
Proof.
  induction n as [|n IH]; intros i acumulados tr e Ht; cbn [capturar];
    [discriminate|].
  unfold luego at 1.
  destruct (turno ent dump_ i (Nat.eqb n 0)) as [t0 [evs|e0]] eqn:Hturno.
  - destruct (capturar ent dump_ (S i) n (acumulados ++ evs)%list)
      as [t1 r1] eqn:Hc.
    intros [= <- ->].
    destruct (IH (S i) _ _ _ ltac:(lia) Hc)
      as (k & ss & trk & Hk & Hturnos & Hfalla & ->).
    destruct (turno_inv_ok _ _ _ _ _ Hturno) as (html & out & Hp & Hs & -> & Hm).
    exists (S k), (((aviso_dump ent dump_ i ++ out)%list, evs) :: ss)%list, trk.
    split; [lia|]. split; [|split].
    + cbn [seq]. constructor; [|exact Hturnos].
      exists html, out. repeat split; try assumption.
      intros Hlt. apply Hm. apply Nat.eqb_neq. lia.
    + replace (i + S k) with (S i + k) by lia. exact Hfalla.
    + cbn [map List.concat fst snd]. rewrite !map_app, <- !app_assoc.
      reflexivity.
  - intros [= <- <-]. exists 0, [], t0.
    split; [lia|]. split; [constructor|].
    split; [|reflexivity].
    rewrite Nat.add_0_r.
    replace (Nat.eqb (S i) total) with (Nat.eqb n 0); [exact Hturno|].
    destruct (Nat.eqb_spec n 0), (Nat.eqb_spec (S i) total); try reflexivity;
      lia.
Qed.

(** What ends a capture with an error: the browser did not deliver the
    page of a turn, or the extraction of that page raised, or the move to
    the week after it did. *)
Lemma capturar_raise_causas (dump_ : bool) (n : nat) (tr : list efecto)
  (e : exn) :
  capturar ent dump_ 0 n [] = (tr, Raise e) ->
  exists k semanas,
    k < n
    /\ Forall2 (turno_ok ent dump_ n) (seq 0 k) semanas
    /\ ((page_source ent k = Raise e
         /\ tr = map Imprime (List.concat (map fst semanas)))
        \/ exists html out,
             page_source ent k = Ok html
             /\ tr = map Imprime (List.concat (map fst semanas)
                                  ++ aviso_dump ent dump_ k ++ out)
             /\ (semana html = (out, Raise e)
                 \/ exists evs,
                      semana html = (out, Ok evs)
                      /\ S k < n
                      /\ mover_semana (iconos ent k) (click ent k) "next"
                         = Raise e)).
Proof.
  intros H.
  destruct (capturar_raise dump_ n n 0 [] tr e eq_refl H)
    as (k & ss & trk & Hk & Hturnos & Hf & ->).
  exists k, ss. split; [exact Hk|]. split; [exact Hturnos|].
  cbn [Nat.add] in Hf.
  destruct (turno_inv_raise _ _ _ _ _ Hf)
    as [[Hp ->]|(html & out & Hp & -> & Hcausa)].
  - left. split; [exact Hp|]. rewrite app_nil_r. reflexivity.
  - right. exists html, out. split; [exact Hp|].
    split; [rewrite <- map_app; reflexivity|].
    destruct Hcausa as [Hs|(evs & Hs & Hu & Hm)]; [left; exact Hs|].
    right. exists evs. split; [exact Hs|]. split; [|exact Hm].
    apply Nat.eqb_neq in Hu. lia.
Qed.




End Traza.

(** ** A week whose label cannot be read *)

Section RangoIlegible.

Context {E : Externo}.







End RangoIlegible.


(** ** The capture loop, the push and the run as a whole *)



Section Corrida.

Context {E : Externo}.
Variable ent : entorno.






(** *** The loop of the push *)

Lemma upsert_inv_ok (i : nat) (p : peticion) (t : list efecto) (u : unit) :
  upsert ent i p = (t, Ok u) -> upsert_ok ent i p t.
Proof.
  unfold upsert, upsert_ok, luego, eleva, hace, imprime.
  destruct (localize ent i) as [[]|e0]; [|discriminate].
  destruct (update ent i) as [[]|e1].
  - intros [= <-]. split; [reflexivity|]. left. split; reflexivity.
  - destruct (insert ent i) as [[]|e2]; [|discriminate].
    intros [= <-]. split; [reflexivity|]. right.
    split; [exists e1; reflexivity|]. split; reflexivity.
Qed.

Lemma upsert_inv_raise (i : nat) (p : peticion) (t : list efecto) (e : exn) :
  upsert ent i p = (t, Raise e) ->
  (localize ent i = Raise e /\ t = [])
  \/ (localize ent i = Ok tt
      /\ (exists e0, update ent i = Raise e0)
      /\ insert ent i = Raise e
      /\ t = [Update p; Insert p]).
Proof.
  unfold upsert, luego, eleva, hace, imprime.
  destruct (localize ent i) as [[]|e0].
  2: { intros [= <- <-]. left. split; reflexivity. }
  destruct (update ent i) as [[]|e1]; [discriminate|].
  destruct (insert ent i) as [[]|e2]; [discriminate|].
  intros [= <- <-]. right. split; [reflexivity|].
  split; [exists e1; reflexivity|]. split; reflexivity.
Qed.

Lemma upserts_ok (ps : list peticion) :
  forall i tr u,
    upserts ent i ps = (tr, Ok u) ->
    exists ts,
      Forall2 (fun ip t => upsert_ok ent (fst ip) (snd ip) t)
              (combine (seq i (List.length ps)) ps) ts
      /\ tr = List.concat ts.
Proof.
  induction ps as [|p ps IH]; intros i tr u; cbn [upserts].
  - intros [= <-]. exists []. split; [constructor|reflexivity].
  - unfold luego at 1.
    destruct (upsert ent i p) as [t0 [u0|e0]] eqn:Hu; [|discriminate].
    destruct (upserts ent (S i) ps) as [t1 r1] eqn:Hr.
    intros [= <- ->]. destruct (IH _ _ _ Hr) as (ts & HF & ->).
    exists (t0 :: ts). split; [|reflexivity].
    cbn [List.length seq combine]. constructor; [|exact HF].
    apply (upsert_inv_ok _ _ _ _ Hu).
Qed.

Lemma upserts_raise (ps : list peticion) :
  forall i tr e,
    upserts ent i ps = (tr, Raise e) ->
    exists antes p despues ts,
      ps = (antes ++ p :: despues)%list
      /\ Forall2 (fun ip t => upsert_ok ent (fst ip) (snd ip) t)
                 (combine (seq i (List.length antes)) antes) ts
      /\ let k := (i + List.length antes)%nat in
         (localize ent k = Raise e /\ tr = List.concat ts)
         \/ (localize ent k = Ok tt
             /\ (exists e0, update ent k = Raise e0)
             /\ insert ent k = Raise e
             /\ tr = (List.concat ts ++ [Update p; Insert p])%list).
Proof.
  induction ps as [|p ps IH]; intros i tr e; cbn [upserts]; [discriminate|].
  unfold luego at 1.
  destruct (upsert ent i p) as [t0 [u0|e0]] eqn:Hu.
  - destruct (upserts ent (S i) ps) as [t1 r1] eqn:Hr.
    intros [= <- ->].
    destruct (IH _ _ _ Hr) as (antes & q & despues & ts & -> & HF & Hq).
    exists (p :: antes), q, despues, (t0 :: ts).
    split; [reflexivity|]. split.
    + cbn [List.length seq combine]. constructor; [|exact HF].
      apply (upsert_inv_ok _ _ _ _ Hu).
    + cbn [List.length]. replace (i + S (List.length antes))%nat
        with (S i + List.length antes)%nat by lia.
      cbv zeta in Hq |- *.
      destruct Hq as [(Hl & ->)|(Hl & Hup & Hin & ->)].
      * left. split; [exact Hl|reflexivity].
      * right. repeat (split; [assumption|]).
        cbn [List.concat]. rewrite app_assoc. reflexivity.
  - intros [= <- <-]. exists [], p, ps, [].
    split; [reflexivity|]. split; [constructor|].
    cbn [List.length]. rewrite Nat.add_0_r. cbv zeta.
    destruct (upsert_inv_raise _ _ _ _ Hu) as [(Hl & ->)|(Hl & Hup & Hin & ->)].
    + left. split; [exact Hl|reflexivity].
    + right. repeat (split; [assumption|]). reflexivity.
Qed.



(** *** The run *)



(** X6. The capture loop of [main], turn by turn.  When it ends without
    error, every turn went through: the browser delivered the page, the
    extraction of the page gave its events, and, unless the turn was the
    last, the move to the next week succeeded; the accumulated events are
    those of the turns one after the other, and the loop only printed: the
    notice of the dump in the first turn when [--dump] is given and the
    dump block reached its print, and the lines of the weeks.  When it ends
    with an error, the turns before some turn went through, and at that
    turn the browser did not deliver the page, or the extraction of the
    page raised, or the move to the next week did; no later page was
    asked for.  The move raises when the icons cannot be listed, when
    none of them reads [chevron_right] once stripped (the error of the
    missing button), or when the click or the wait after it raises. *)
Theorem X6_bucle_de_captura (dump_ : bool) (n : nat) :
  (forall tr res,
      capturar ent dump_ 0 n [] = (tr, Ok res) ->
      exists semanas,
        Forall2 (turno_ok ent dump_ n) (seq 0 n) semanas
        /\ res = List.concat (map snd semanas)
        /\ tr = map Imprime (List.concat (map fst semanas)))
  /\ (forall tr e,
        capturar ent dump_ 0 n [] = (tr, Raise e) ->
        exists k semanas,
          (k < n)%nat
          /\ Forall2 (turno_ok ent dump_ n) (seq 0 k) semanas
          /\ ((page_source ent k = Raise e
               /\ tr = map Imprime (List.concat (map fst semanas)))
              \/ exists html out,
                   page_source ent k = Ok html
                   /\ tr = map Imprime (List.concat (map fst semanas)
                                        ++ aviso_dump ent dump_ k ++ out)
                   /\ (semana html = (out, Raise e)
                       \/ exists evs,
                            semana html = (out, Ok evs)
                            /\ (S k < n)%nat
                            /\ mover_semana (iconos ent k) (click ent k)
                                 "next" = Raise e)))
  /\ (forall icons pulsar e,
        mover_semana icons pulsar "next" = Raise e ->
        icons = Raise e
        \/ exists l,
             icons = Ok l
             /\ ((Forall (fun ic => Py.strip ic <> "chevron_right") l
                  /\ e = RuntimeError sin_boton)
                 \/ (Exists (fun ic => Py.strip ic = "chevron_right") l
                     /\ pulsar = Raise e))).
Proof.
  split; [|split].
  - intros tr res H.
    destruct (capturar_ok ent dump_ n n 0%nat [] tr res eq_refl H)
      as (ss & HF & -> & ->).
    exists ss. repeat split. exact HF.
  - intros tr e. apply capturar_raise_causas.
  - apply mover_semana_falla.
Qed.


(** X21. The loop of [push_to_google_calendar], request by request.
    When the push ends without error, the remote calendar was opened and
    every request went through, in the order of the events: the two
    instants were localized, [update] was called and its notice printed,
    or [update] raised, whatever it raised, and then [insert] was called
    and its notice printed.  When the push ends with an error, either the
    remote calendar could not be opened and nothing was sent, or the
    requests before some request went through and, at that request,
    [localize] raised before anything was sent for it, or [update] and
    then [insert] were both called and both raised; the error is that of
    [localize] or of [insert], and no later request was sent. *)
Theorem X21_bucle_del_push (eventos : list RawEvent) :
  (forall tr,
      push_to_google_calendar_run ent eventos = (tr, Ok tt) ->
      servicio ent = Ok tt
      /\ exists ts,
           Forall2 (fun ip t => upsert_ok ent (fst ip) (snd ip) t)
                   (combine (seq 0 (List.length eventos))
                            (push_to_google_calendar eventos)) ts
           /\ tr = List.concat ts)
  /\ (forall tr e,
        push_to_google_calendar_run ent eventos = (tr, Raise e) ->
        (servicio ent = Raise e /\ tr = [])
        \/ (servicio ent = Ok tt
            /\ exists antes p despues ts,
                 push_to_google_calendar eventos
                 = (antes ++ p :: despues)%list
                 /\ Forall2 (fun ip t => upsert_ok ent (fst ip) (snd ip) t)
                            (combine (seq 0 (List.length antes)) antes) ts
                 /\ ((localize ent (List.length antes) = Raise e
                      /\ tr = List.concat ts)
                     \/ (localize ent (List.length antes) = Ok tt
                         /\ (exists e0,
                               update ent (List.length antes) = Raise e0)
                         /\ insert ent (List.length antes) = Raise e
                         /\ tr = (List.concat ts
                                  ++ [Update p; Insert p])%list)))).
Proof.
  assert (Hlen : List.length (push_to_google_calendar eventos)
                 = List.length eventos).
  { unfold push_to_google_calendar. rewrite length_map.
    generalize 1%Z. induction eventos as [|x l IH]; intros z; simpl;
      [reflexivity|]. rewrite IH. reflexivity. }
  unfold push_to_google_calendar_run, luego at 1, eleva.
  destruct (servicio ent) as [[]|e0]; split.
  - intros tr. destruct (upserts ent 0 (push_to_google_calendar eventos))
      as [t1 r1] eqn:Hu.
    cbn [app]. intros [= <- ->]. split; [reflexivity|].
    rewrite <- Hlen. apply (upserts_ok _ _ _ _ Hu).
  - intros tr e. destruct (upserts ent 0 (push_to_google_calendar eventos))
      as [t1 r1] eqn:Hu.
    cbn [app]. intros [= <- ->]. right. split; [reflexivity|].
    destruct (upserts_raise _ _ _ _ Hu)
      as (antes & p & despues & ts & Hps & HF & Hk).
    exists antes, p, despues, ts. split; [exact Hps|]. split; [exact HF|].
    exact Hk.
  - intros tr. discriminate.
  - intros tr e. intros [= <- <-]. left. split; reflexivity.
Qed.

End Corrida.

(** ** The errors of the strategies *)





Lemma es_hora_int (k : string) : es_hora k -> Py.int k = Ok (Py.valor k).
Proof.
  intros [Hd Hl]. apply int_digitos; [exact Hd|].
  intros ->. destruct Hl; discriminate.
Qed.




Section Errores.

Context {E : Externo}.
Variables (etiqueta : string) (anio mes : Z).
Hypothesis Hmes : (1 <= mes <= 12)%Z.
Hypothesis Hanio : (0 <= anio <= 9999)%Z.









End Errores.

Section ErroresDeLasEstrategias.

Context {E : Externo}.





End ErroresDeLasEstrategias.

(** ** Title and description on their way out *)

Lemma campos_evento_textos ahora uid_counter resumen fecha t_ini t_fin desc :
  limpio_desde true resumen = true ->
  limpio_desde true desc = true ->
  v_resumen (campos_evento ahora uid_counter resumen fecha t_ini t_fin desc)
  = resumen
  /\ v_desc (campos_evento ahora uid_counter resumen fecha t_ini t_fin desc)
     = desc.
Proof.
  intros Hr Hd. unfold campos_evento. cbn [v_resumen v_desc].
  rewrite (replace_nada _ resumen (limpio_sin_salto _ _ Hr)).
  rewrite (replace_nada _ desc (limpio_sin_salto _ _ Hd)).
  rewrite (limpio_strip resumen Hr). split; reflexivity.
Qed.

Lemma entradas_textos (reloj : Z -> date * dtime) (eventos : list RawEvent) :
  Forall texto_ok eventos ->
  forall k,
    map (fun v => (v_resumen v, v_desc v))
        (map (fun iev : Z * RawEvent =>
                let '(i, (ev0, ev1, ev2, ev3, ev4)) := iev in
                campos_evento (reloj i) (i + 1) ev3 ev0 ev1 ev2 ev4)
             (enumerate k eventos))
    = map (fun ev : RawEvent => let '(_, _, _, ev3, ev4) := ev in (ev3, ev4))
          eventos.
Proof.
  induction 1 as [|[[[[ev0 ev1] ev2] ev3] ev4] l Hev _ IH]; intros k;
    [reflexivity|].
  cbn [enumerate map]. rewrite IH. f_equal.
  destruct Hev as (Hd & _ & Hr).
  destruct (campos_evento_textos (reloj k) (k + 1) ev3 ev0 ev1 ev2 ev4 Hr Hd)
    as [-> ->].
  reflexivity.
Qed.

Lemma push_textos {E : Externo} (eventos : list RawEvent) :
  forall k,
    map (fun p => (p_summary p, p_description p))
        (map (fun iev : Z * RawEvent =>
                let '(i, (f, t_ini, t_fin, resumen, descripcion)) := iev in
                let uid :=
                  "inacap-" ++ strftime_Ymd f ++ "-" ++ strftime_HM t_ini
                  ++ "-" ++ Py.str i ++ "@siga" in
                let event_id := _event_id_from_uid uid in
                {| p_uid := uid; p_event_id := event_id;
                   p_summary := resumen; p_description := descripcion;
                   p_start := (f, t_ini); p_end := (f, t_fin) |})
             (enumerate k eventos))
    = map (fun ev : RawEvent => let '(_, _, _, ev3, ev4) := ev in (ev3, ev4))
          eventos.
Proof.
  induction eventos as [|[[[[ev0 ev1] ev2] ev3] ev4] l IH]; intros k;
    [reflexivity|].
  cbn [enumerate map]. rewrite IH. reflexivity.
Qed.

(** X17. For events whose texts are as the extractors leave them (cleaned,
    not empty), the calendar builder changes nothing in them: the
    [SUMMARY] of each entry is the title and its [DESCRIPTION] is the
    description, character for character (nothing is escaped), and they
    are the [summary] and the [description] of the request the push
    adapter sends for the same event. *)
Theorem X17_textos_en_ics_y_push {E : Externo} (reloj : Z -> date * dtime)
  (eventos : list RawEvent) :
  Forall texto_ok eventos ->
  map (fun v => (v_resumen v, v_desc v)) (entradas reloj eventos)
  = map (fun ev : RawEvent => let '(_, _, _, ev3, ev4) := ev in (ev3, ev4))
        eventos
  /\ map (fun p => (p_summary p, p_description p))
         (push_to_google_calendar eventos)
     = map (fun v => (v_resumen v, v_desc v)) (entradas reloj eventos).
Proof.
  intros H. unfold entradas, push_to_google_calendar.
  rewrite (entradas_textos reloj eventos H 0), (push_textos eventos 1).
  split; reflexivity.
Qed.

Lemma X17_testigo :
  map (fun v => (v_resumen v, v_desc v))
      (entradas reloj_de_ejemplo [evento_de_ejemplo])
  = map (fun ev : RawEvent => let '(_, _, _, ev3, ev4) := ev in (ev3, ev4))
        [evento_de_ejemplo]
  /\ map (fun p => (p_summary p, p_description p))
         (push_to_google_calendar (E := externo_de_ejemplo)
            [evento_de_ejemplo])
     = map (fun v => (v_resumen v, v_desc v))
           (entradas reloj_de_ejemplo [evento_de_ejemplo]).
Proof.
  apply (X17_textos_en_ics_y_push (E := externo_de_ejemplo)).
  repeat constructor.
Defined.

(** ** The day number of a header *)

Lemma search_from_primero r prev s c s' g :
  primero r prev s [] = Some (c, s', g) -> search_from r prev s = Some (c, g).
Proof.
  unfold primero. intros H.
  destruct s; cbn [search_from];
    destruct (m r prev _ []) as [|[[c0 s0] g0] l]; simpl in H;
    try discriminate; injection H as -> -> ->; reflexivity.
Qed.

Lemma search_from_salta r w s :
  (forall prev' u v, w = u ++ v -> v <> EmptyString ->
     m r prev' (v ++ s) [] = []) ->
  forall prev, search_from r prev (w ++ s) = search_from r (last_char prev w) s.
Proof.
  induction w as [|a w IH]; intros Hno prev; [reflexivity|].
  cbn [append search_from last_char].
  pose proof (Hno prev EmptyString (String a w) eq_refl) as H0.
  cbn [append] in H0. rewrite H0 by discriminate.
  cbn [first_hit]. apply IH.
  intros prev' u v -> Hv. apply (Hno prev' (String a u) v eq_refl Hv).
Qed.

Lemma search_from_ninguno r s :
  (forall prev' antes s0, s = antes ++ s0 -> m r prev' s0 [] = []) ->
  forall prev, search_from r prev s = None.
Proof.
  induction s as [|a s IH]; intros Hno prev; cbn [search_from].
  - rewrite (Hno prev EmptyString EmptyString eq_refl). reflexivity.
  - rewrite (Hno prev EmptyString (String a s) eq_refl). cbn [first_hit].
    apply IH. intros prev' antes s0 ->.
    apply (Hno prev' (String a antes) s0 eq_refl).
Qed.

Lemma last_char_app (a b : string) :
  forall prev, last_char prev (a ++ b) = last_char (last_char prev a) b.
Proof.
  induction a as [|c a IH]; intros prev; [reflexivity|]. apply IH.
Qed.

Lemma last_char_digito (s : string) :
  Py.todos Py.isdigit s = true -> s <> EmptyString ->
  forall prev, exists c, last_char prev s = Some c /\ Py.isdigit c = true.
Proof.
  induction s as [|a s IH]; intros Hd Hs prev; [contradiction|].
  cbn [Py.todos] in Hd. apply andb_true_iff in Hd. destruct Hd as [Ha Hd].
  destruct s as [|b s].
  - exists a. auto.
  - apply (IH Hd ltac:(discriminate) (Some a)).
Qed.

Lemma in_m_Eol_forma prev s g c s' g' :
  In (c, s', g') (m Eol prev s g) ->
  c = EmptyString /\ s' = s /\ g' = g /\ (s = EmptyString \/ s = LF).
Proof.
  cbn [m]. destruct s as [|a [|b s]].
  - intros [[= <- <- <-]|[]]. auto.
  - destruct (Ascii.eqb a "010") eqn:Ha; [|intros []].
    intros [[= <- <- <-]|[]]. apply Ascii.eqb_eq in Ha. subst a.
    repeat split. right. reflexivity.
  - intros [].
Qed.

Lemma in_m_Wb_forma prev s g c s' g' :
  In (c, s', g') (m Wb prev s g) -> c = EmptyString /\ s' = s /\ g' = g.
Proof.
  cbn [m].
  destruct (xorb (isword_at prev) (isword_at (first_char s))); [|intros []].
  intros [[= <- <- <-]|[]]. auto.
Qed.

Lemma in_m_RX_DIA_FIN_forma prev s c s' g :
  In (c, s', g) (m RX_DIA_FIN prev s []) ->
  es_hora c /\ g = [(1%nat, c)] /\ (s' = EmptyString \/ s' = LF).
Proof.
  unfold RX_DIA_FIN. intros H. apply in_m_Cat in H.
  destruct H as (c1 & s1 & g1 & c2 & s2 & g2 & H1 & H2 & [= -> -> ->]).
  apply in_m_Grp in H1. destruct H1 as (k & u & v & H1 & [= -> -> ->]).
  apply in_m_hora in H1. destruct H1 as [-> Hk].
  apply in_m_Eol_forma in H2. destruct H2 as (-> & -> & -> & Hs).
  rewrite app_nil_r_s. auto.
Qed.

Lemma in_m_RX_DIA_forma prev s c s' g :
  In (c, s', g) (m RX_DIA prev s []) -> es_hora c /\ g = [(1%nat, c)].
Proof.
  unfold RX_DIA. intros H. apply in_m_Cat in H.
  destruct H as (c1 & s1 & g1 & c2 & s2 & g2 & H1 & H & [= -> -> ->]).
  apply in_m_Wb_forma in H1. destruct H1 as (-> & -> & ->).
  apply in_m_Cat in H.
  destruct H as (c3 & s3 & g3 & c4 & s4 & g4 & H3 & H4 & [= -> -> ->]).
  apply in_m_Grp in H3. destruct H3 as (k & u & v & H3 & [= -> -> ->]).
  apply in_m_hora in H3. destruct H3 as [-> Hk].
  apply in_m_Wb_forma in H4. destruct H4 as (-> & -> & ->).
  cbn [append]. rewrite app_nil_r_s. auto.
Qed.

Lemma sin_match (r : regex) prev s :
  (forall c s' g, ~ In (c, s', g) (m r prev s [])) -> m r prev s [] = [].
Proof.
  intros H. destruct (m r prev s []) as [|[[c s'] g] l]; [reflexivity|].
  exfalso. apply (H c s' g). left. reflexivity.
Qed.

Lemma primero_RX_DIA_FIN prev dd :
  es_hora dd ->
  primero RX_DIA_FIN prev dd [] = Some (dd, EmptyString, [(1%nat, dd)]).
Proof.
  intros Hdd. unfold RX_DIA_FIN.
  eapply primero_Cat'.
  - apply primero_Grp.
    pose proof (primero_d12 prev dd EmptyString [] Hdd eq_refl) as H.
    rewrite app_nil_r_s in H. exact H.
  - reflexivity.
  - symmetry. apply app_nil_r_s.
Qed.

(** Before the final day number nothing matches [(\d{1,2})$]. *)
Lemma dia_fin_antes (w dd : string) :
  es_hora dd ->
  String.length dd = 2%nat \/ sin_digito_final w = true ->
  forall prev' u v, w = u ++ v -> v <> EmptyString ->
    m RX_DIA_FIN prev' (v ++ dd) [] = [].
Proof.
  intros [Hd Hl] Hcond prev' u v Hw Hv. apply sin_match.
  intros c s' g Hin.
  pose proof (m_partes _ _ _ _ _ _ _ Hin) as Hp.
  apply in_m_RX_DIA_FIN_forma in Hin. destruct Hin as ([Hc Hlc] & _ & Hs).
  assert (Ndd : dd <> EmptyString)
    by (intros ->; destruct Hl; discriminate).
  destruct Hs as [-> | ->].
  - rewrite app_nil_r_s in Hp. subst c.
    rewrite length_app_s in Hlc.
    assert (String.length v <> 0%nat)
      by (destruct v; [contradiction|discriminate]).
    assert (Hl1 : String.length dd = 1%nat) by (destruct Hl, Hlc; lia).
    assert (Hv1 : String.length v = 1%nat) by (destruct Hl, Hlc; lia).
    destruct Hcond as [H2|Hfin]; [lia|].
    destruct v as [|a [|b v]]; try discriminate.
    cbn [append Py.todos] in Hc. apply andb_true_iff in Hc.
    destruct Hc as [Ha _].
    unfold sin_digito_final in Hfin. rewrite Hw, last_char_app in Hfin.
    cbn [last_char] in Hfin. rewrite Ha in Hfin. discriminate.
  - apply (f_equal (last_char None)) in Hp.
    rewrite !last_char_app in Hp. cbn [last_char LF] in Hp.
    destruct (last_char_digito dd Hd Ndd (last_char None v)) as (x & Hx & Dx).
    rewrite Hx in Hp. injection Hp as ->. discriminate.
Qed.

Lemma re_search_dia_fin (w dd : string) :
  es_hora dd ->
  String.length dd = 2%nat \/ sin_digito_final w = true ->
  re_search RX_DIA_FIN (w ++ dd) = Some (dd, [(1%nat, dd)]).
Proof.
  intros Hdd Hcond. unfold re_search.
  rewrite (search_from_salta RX_DIA_FIN w dd (dia_fin_antes w dd Hdd Hcond)).
  apply search_from_primero with (s' := EmptyString).
  apply (primero_RX_DIA_FIN _ dd Hdd).
Qed.

Lemma re_search_sin_digitos (h : string) :
  Py.todos (fun c => negb (Py.isdigit c)) h = true ->
  re_search RX_DIA_FIN h = None /\ re_search RX_DIA h = None.
Proof.
  intros Hh.
  assert (Hno : forall k antes s', es_hora k -> h <> antes ++ k ++ s').
  { intros k antes s' [Hk Hl] ->. rewrite !todos_app in Hh.
    apply andb_true_iff in Hh. destruct Hh as [_ Hh].
    apply andb_true_iff in Hh. destruct Hh as [Hh _].
    destruct k as [|a k]; [destruct Hl; discriminate|].
    cbn [Py.todos] in Hk, Hh.
    apply andb_true_iff in Hk. destruct Hk as [Ha _].
    rewrite Ha in Hh. discriminate. }
  unfold re_search. split; apply search_from_ninguno;
    intros prev' antes s0 Hs; apply sin_match; intros c s' g Hin;
    pose proof (m_partes _ _ _ _ _ _ _ Hin) as Hp.
  - apply in_m_RX_DIA_FIN_forma in Hin. destruct Hin as (Hc & _ & _).
    apply (Hno c antes s' Hc). rewrite Hs, Hp. reflexivity.
  - apply in_m_RX_DIA_forma in Hin. destruct Hin as (Hc & _).
    apply (Hno c antes s' Hc). rewrite Hs, Hp. reflexivity.
Qed.

(** X18. How the day of a column or of a mobile article is read from its
    heading.  A heading that ends with one or two digits [dd] (two digits,
    or one digit not preceded by a digit) gives [dd]: both the desktop
    reading of a header and the search the mobile strategy makes in an
    article's title return it, so the date of the column is
    [date(anio, mes, dd)].  Of a longer final run of digits the last two
    are taken.  A heading without any digit gives no day: the column has no
    date and the mobile article is skipped. *)
Theorem X18_dia_del_encabezado (w dd h : string) :
  (es_hora dd ->
   String.length dd = 2%nat \/ sin_digito_final w = true ->
   dia_de_header (w ++ dd) = Some dd
   /\ re_search RX_DIA_FIN (w ++ dd) = Some (dd, [(1%nat, dd)])
   /\ Py.int dd = Ok (Py.valor dd)
   /\ forall anio mes hs,
        mapear_fechas anio mes ((w ++ dd) :: hs)
        = (f <- date_new anio mes (Py.valor dd) ;;
           fechas <- mapear_fechas anio mes hs ;;
           Ok (Some f :: fechas)))
  /\ (Py.todos (fun c => negb (Py.isdigit c)) h = true ->
      dia_de_header h = None
      /\ re_search RX_DIA_FIN h = None
      /\ forall anio mes hs,
           mapear_fechas anio mes (h :: hs)
           = (fechas <- mapear_fechas anio mes hs ;; Ok (None :: fechas))).
Proof.
  split.
  - intros Hdd Hcond.
    pose proof (re_search_dia_fin w dd Hdd Hcond) as Hs.
    assert (Hh : dia_de_header (w ++ dd) = Some dd)
      by (unfold dia_de_header; rewrite Hs; reflexivity).
    split; [exact Hh|]. split; [exact Hs|].
    split; [apply (es_hora_int dd Hdd)|].
    intros anio mes hs. cbn [mapear_fechas].
    rewrite Hh, (es_hora_int dd Hdd). reflexivity.
  - intros Hh. destruct (re_search_sin_digitos h Hh) as [H1 H2].
    assert (Hd : dia_de_header h = None)
      by (unfold dia_de_header; rewrite H1, H2; reflexivity).
    split; [exact Hd|]. split; [exact H1|].
    intros anio mes hs. cbn [mapear_fechas]. rewrite Hd. reflexivity.
Qed.

(** ** Identifiers when the schedule changes *)

Lemma uid_de_corridos (l : list RawEvent) :
  forall k, (0 <= k)%Z ->
    Forall2 (fun u u' : string => u <> u')
      (map (fun iev : Z * RawEvent => uid_de (fst iev) (snd iev))
           (enumerate k l))
      (map (fun iev : Z * RawEvent => uid_de (fst iev) (snd iev))
           (enumerate (k + 1) l)).
Proof.
  induction l as [|ev l IH]; intros k Hk; cbn [enumerate map];
    constructor; [|apply IH; lia].
  cbn [fst snd]. intros Hu.
  apply (uid_de_contador k (k + 1) ev ev) in Hu; lia.
Qed.

(** X20. The identifiers follow the positions, not the events: when one
    more event stands at the head of the batch, every event after it gets
    a [uid] different from the one it had, in the calendar file and in the
    requests to the remote calendar alike (and with the [uid] the remote
    key computed from it is computed anew). *)
Theorem X20_uid_segun_la_posicion {E : Externo} (reloj : Z -> date * dtime)
  (nuevo : RawEvent) (eventos : list RawEvent) :
  Forall evento_ok eventos ->
  Forall2 (fun u u' : string => u <> u')
    (map v_uid (entradas reloj eventos))
    (tl (map v_uid (entradas reloj (nuevo :: eventos))))
  /\ Forall2 (fun u u' : string => u <> u')
       (map p_uid (push_to_google_calendar eventos))
       (tl (map p_uid (push_to_google_calendar (nuevo :: eventos)))).
Proof.
  intros _. pose proof (uid_de_corridos eventos 1 ltac:(lia)) as H.
  unfold entradas, push_to_google_calendar.
  rewrite !(uid_entradas reloj _ 0), !uid_push.
  cbn [enumerate map tl]. split; exact H.
Qed.

Lemma X20_testigo :
  Forall2 (fun u u' : string => u <> u')
    (map v_uid (entradas reloj_de_ejemplo [evento_de_ejemplo]))
    (tl (map v_uid (entradas reloj_de_ejemplo
                      [evento_de_ejemplo; evento_de_ejemplo])))
  /\ Forall2 (fun u u' : string => u <> u')
       (map p_uid (push_to_google_calendar (E := externo_de_ejemplo)
                     [evento_de_ejemplo]))
       (tl (map p_uid (push_to_google_calendar (E := externo_de_ejemplo)
                         [evento_de_ejemplo; evento_de_ejemplo]))).
Proof.
  apply (X20_uid_segun_la_posicion (E := externo_de_ejemplo)).
  repeat (apply Forall_cons; [vm_compute; repeat split; discriminate|]).
  apply Forall_nil.
Defined.

(** ** The further properties at work *)

(** The example event alone is kept as it is, and a second copy of it
    adds no identity. *)
Lemma X1_testigo :
  deduplicar [evento_de_ejemplo] = [evento_de_ejemplo]
  /\ map key (deduplicar ([evento_de_ejemplo] ++ [evento_de_ejemplo]))
     = map key (deduplicar [evento_de_ejemplo]).
Proof.
  destruct (X1_deduplicar_orden [evento_de_ejemplo] evento_de_ejemplo)
    as (H1 & _ & H3 & _).
  split.
  - apply H1. constructor; [intros []|constructor].
  - apply H3. left. reflexivity.
Defined.

(** Two weeks are asked for.  With the icon of the next week on the page
    both turns go through; without it the first turn prints the notice
    of the dump and the move to the second week raises. *)
Lemma X6_testigo :
  (exists semanas,
      Forall2 (turno_ok (E := externo_de_ejemplo)
                 (entorno_de [pagina_desktop; pagina_movil]
                             [" chevron_right "]) true 2)
              (seq 0 2) semanas
      /\ [evento_de_ejemplo; evento_de_ejemplo]
         = List.concat (map snd semanas)
      /\ [Imprime DumpGuardado; Imprime ProbandoFallback]
         = map Imprime (List.concat (map fst semanas)))
  /\ exists k semanas,
       (k < 2)%nat
       /\ Forall2 (turno_ok (E := externo_de_ejemplo)
                     (entorno_de [pagina_desktop; pagina_movil]
                                 ["chevron_left"]) true 2)
                  (seq 0 k) semanas
       /\ ((page_source (entorno_de [pagina_desktop; pagina_movil]
                                    ["chevron_left"]) k
            = Raise (RuntimeError sin_boton)
            /\ [Imprime DumpGuardado]
               = map Imprime (List.concat (map fst semanas)))
           \/ exists html out,
                page_source (entorno_de [pagina_desktop; pagina_movil]
                                        ["chevron_left"]) k = Ok html
                /\ [Imprime DumpGuardado]
                   = map Imprime
                       (List.concat (map fst semanas)
                        ++ aviso_dump
                             (entorno_de [pagina_desktop; pagina_movil]
                                         ["chevron_left"]) true k
                        ++ out)
                /\ (semana (E := externo_de_ejemplo) html
                    = (out, Raise (RuntimeError sin_boton))
                    \/ exists evs,
                         semana (E := externo_de_ejemplo) html = (out, Ok evs)
                         /\ (S k < 2)%nat
                         /\ mover_semana
                              (iconos (entorno_de
                                         [pagina_desktop; pagina_movil]
                                         ["chevron_left"]) k)
                              (click (entorno_de
                                        [pagina_desktop; pagina_movil]
                                        ["chevron_left"]) k)
                              "next"
                            = Raise (RuntimeError sin_boton))).
Proof.
  split.
  - apply (proj1 (X6_bucle_de_captura (E := externo_de_ejemplo)
                    (entorno_de [pagina_desktop; pagina_movil]
                                [" chevron_right "]) true 2)).
    vm_compute. reflexivity.
  - apply (proj1 (proj2 (X6_bucle_de_captura (E := externo_de_ejemplo)
                           (entorno_de [pagina_desktop; pagina_movil]
                                       ["chevron_left"]) true 2))).
    vm_compute. reflexivity.
Defined.


(** The push of the example event to a remote calendar that does not
    know it. *)
Lemma X21_testigo :
  servicio (entorno_de [] []) = Ok tt
  /\ exists ts,
       Forall2 (fun ip t =>
                  upsert_ok (entorno_de [] []) (fst ip) (snd ip) t)
               (combine (seq 0 (List.length [evento_de_ejemplo]))
                        (push_to_google_calendar (E := externo_de_ejemplo)
                           [evento_de_ejemplo])) ts
       /\ fst (push_to_google_calendar_run (E := externo_de_ejemplo)
                 (entorno_de [] []) [evento_de_ejemplo])
          = List.concat ts.
Proof.
  apply (proj1 (X21_bucle_del_push (E := externo_de_ejemplo)
                  (entorno_de [] []) [evento_de_ejemplo])).
  vm_compute. reflexivity.
Defined.

Lemma X9_testigo :
  limpiar_texto (E := externo_de_ejemplo)
    (limpiar_texto (E := externo_de_ejemplo) "  Calculo   I ")
  = limpiar_texto (E := externo_de_ejemplo) "  Calculo   I ".
Proof.
  apply (proj2 (X9_limpiar_texto (E := externo_de_ejemplo) "  Calculo   I ")).
  reflexivity.
Defined.

Lemma X10_testigo :
  hhmm_to_time (strftime_H_M (mk_time 8 0 0)) = Ok (mk_time 8 0 0).
Proof.
  apply (proj1 (X10_hora_escrita_y_leida (mk_time 8 0 0)));
    [vm_compute; repeat split; discriminate|reflexivity].
Defined.

(** The time block of the example, read backwards. *)
Lemma X12_testigo :
  exists hh1 mm1 hh2 mm2,
    es_hora hh1 /\ es_minutos mm1 /\ es_hora hh2 /\ es_minutos mm2
    /\ mk_time 8 0 0 = mk_time (Py.valor hh1) (Py.valor mm1) 0
    /\ mk_time 9 30 0 = mk_time (Py.valor hh2) (Py.valor mm2) 0.
Proof.
  destruct (proj1 (X12_bloque_horario_inverso "08:00 - 09:30")
              (mk_time 8 0 0) (mk_time 9 30 0))
    as (hh1 & mm1 & b1 & b2 & hh2 & mm2 & resto & _ & Hh1 & Hm1 & Hh2 & Hm2
        & _ & _ & Ht1 & Ht2 & _);
    [vm_compute; reflexivity|].
  exists hh1, mm1, hh2, mm2.
  repeat (split; [assumption|]). assumption.
Defined.

Lemma X13_testigo :
  Forall (fun ev => texto_ok ev /\ sin_clases (snd ev) = false)
         [evento_de_ejemplo].
Proof.
  apply (proj1 (X13_textos_de_los_eventos (E := externo_de_ejemplo)
                  pagina_desktop [evento_de_ejemplo])).
  vm_compute. reflexivity.
Defined.

(** The item of the example's mobile page, read backwards. *)
Lemma X14_testigo :
  exists c,
    limpio_desde true c = true
    /\ exists hh1 mm1 hh2 mm2,
         [evento_de_ejemplo]
         = [(mk_date 2025 8 4, mk_time (Py.valor hh1) (Py.valor mm1) 0,
             mk_time (Py.valor hh2) (Py.valor mm2) 0,
             primer_segmento c, c)].
Proof.
  destruct (proj1 (X14_item_movil_inverso (E := externo_de_ejemplo)
                     (mk_date 2025 8 4)
                     ["08:00 - 09:30"; "Calculo I / Sala 301 - Prof. Perez"])
              [evento_de_ejemplo])
    as [H0|(hh1 & mm1 & b1 & b2 & hh2 & mm2 & c & _ & _ & _ & _ & _ & _ & _
            & Hc & Hev & _)];
    [vm_compute; reflexivity|discriminate|].
  exists c. split; [exact Hc|]. exists hh1, mm1, hh2, mm2. exact Hev.
Defined.

(** The label of the example, read backwards. *)
Lemma X15_testigo :
  exists k1 k2 tok k4,
    es_dia k1 /\ es_dia k2 /\ es_token_mes tok /\ es_anio k4
    /\ 4%Z = Py.valor k1 /\ 9%Z = Py.valor k2 /\ 2025%Z = Py.valor k4
    /\ dict_get (Py.replace "." EmptyString tok) MESES = Some 8%Z.
Proof.
  destruct (proj1 (X15_parse_fecha_rango_inverso "04 - 09 ago. 2025")
              4%Z 9%Z 8%Z 2025%Z)
    as (antes & k1 & b1 & b2 & k2 & b3 & tok & b4 & k4 & resto & _ & H1 & H2
        & H3 & H4 & _ & _ & _ & _ & E1 & E2 & E4 & Hm & _);
    [vm_compute; reflexivity|].
  exists k1, k2, tok, k4.
  repeat (split; [assumption|]). assumption.
Defined.


Lemma X18_testigo :
  dia_de_header "Lunes 04" = Some "04"
  /\ dia_de_header "Hora" = None.
Proof.
  destruct (X18_dia_del_encabezado "Lunes " "04" "Hora") as [H1 H2].
  split.
  - apply H1; [split; [reflexivity|right; reflexivity]|left; reflexivity].
  - apply H2. reflexivity.
Defined.
